(** * ARC_2025: the data-visualisation tools, embedded and verified

    A shallow embedding of the three scripts under [src/data_vis]
    ([arc_visualizer.py], [arc_explorer.py], [arc_histogram.py]) together
    with the properties their specification states about them.

    Conventions of the embedding.
    - Python [int]s are [Z]; lengths and loop indices are [nat].  The cells
      of the datasets are small palette codes, so the machine integers
      numpy stores them in never wrap and are not modelled.
    - A raised exception is the [Raise] case of [result]; nothing in the
      modelled functions catches one.
    - A [dict] read from JSON is an association list in insertion order; its
      keys are pairwise distinct, which the theorems that need it assume as
      [NoDup].
    - A matplotlib axes is the record of what was drawn on it; a figure is
      the finite map from subplot index to axes.
    - [print] calls that only echo progress are dropped; printed values a
      property speaks about are fields of a returned record.
    - The rendering back end and the file system are not modelled:
      [plt.figure], [tight_layout], [savefig], [show] and [mkdir] are taken
      to succeed, a saved file being the pair of its path and the figure.
    - [random.sample] is a relation between its arguments and its possible
      results; the functions that call it are relations in the same way. *)

From stdpp Require Import base decidable option list strings gmap sorting pretty.
From Stdlib Require Import ZArith Lia Ascii.

Open Scope Z_scope.

(** ** Exceptions and the error monad *)

Inductive exn : Type :=
| ValueError (msg : string)
| KeyError (key : string)
| IndexError (msg : string).

Inductive result (A : Type) : Type :=
| Ok (a : A)
| Raise (e : exn).
Arguments Ok {A} a.
Arguments Raise {A} e.

#[global] Instance result_ret : MRet result := fun A a => Ok a.
#[global] Instance result_bind : MBind result := fun A B k m =>
  match m with
  | Ok a => k a
  | Raise e => Raise e
  end.
#[global] Instance result_fmap : FMap result := fun A B f m =>
  match m with
  | Ok a => Ok (f a)
  | Raise e => Raise e
  end.

Definition is_Ok {A} (m : result A) : Prop := ∃ a, m = Ok a.

(** ** The JSON data model *)

Abbreviation Grid := (list (list Z)).

Record Example : Type := mkExample { input : Grid; output : Grid }.
Record TestExample : Type := mkTest { test_input : Grid }.
Record Challenge : Type := mkChallenge
  { train : list Example; test : list TestExample }.

(** [dict V]: the [items()] of a Python dict keyed by strings. *)
Abbreviation dict V := (list (string * V)).

Definition keys {V} (d : dict V) : list string := d.*1.

Fixpoint dict_get {V} (d : dict V) (k : string) : option V :=
  match d with
  | [] => None
  | (k', v) :: d' => if decide (k' = k) then Some v else dict_get d' k
  end.

(** ** Python builtins *)

(** [min(xs, key=key)] and [max(xs, key=key)]: [ValueError] on an empty
    sequence; among equal keys the element met first is returned. *)
Definition py_min {A K : Type} (ltb : K → K → bool) (key : A → K)
    (xs : list A) : result A :=
  match xs with
  | [] => Raise (ValueError "min() arg is an empty sequence")
  | x :: xs' => Ok (foldl (fun m y => if ltb (key y) (key m) then y else m) x xs')
  end.

Definition py_max {A K : Type} (ltb : K → K → bool) (key : A → K)
    (xs : list A) : result A :=
  match xs with
  | [] => Raise (ValueError "max() arg is an empty sequence")
  | x :: xs' => Ok (foldl (fun m y => if ltb (key m) (key y) then y else m) x xs')
  end.

(** [<] on tuples of naturals (lexicographic). *)
Fixpoint tuple_ltb (s t : list nat) : bool :=
  match s, t with
  | [], [] => false
  | [], _ :: _ => true
  | _ :: _, [] => false
  | a :: s', b :: t' =>
      if (a <? b)%nat then true
      else if (b <? a)%nat then false
      else tuple_ltb s' t'
  end.

(** [slice(start, stop).indices(n)] with step 1: the clipped first index and
    the number of selected positions. *)
Definition clip_index (n : nat) (i : Z) : Z :=
  let i' := if i <? 0 then i + Z.of_nat n else i in
  if i' <? 0 then 0 else if Z.of_nat n <? i' then Z.of_nat n else i'.

Definition slice_indices (n : nat) (start stop : Z) : nat * nat :=
  let lo := clip_index n start in
  let hi := clip_index n stop in
  (Z.to_nat lo, Z.to_nat (hi - lo)).

(** ** numpy arrays of at most two dimensions *)

Record ndarray : Type := mkArray { shape : list nat; data : list (list Z) }.

(** [np.array(grid)]: a list of equally long rows is a 2-D array, the empty
    list is the 1-D empty array, ragged rows are rejected. *)
Definition np_array (grid : Grid) : result ndarray :=
  match grid with
  | [] => Ok (mkArray [0%nat] [])
  | r :: _ =>
      if forallb (fun r' => Nat.eqb (length r') (length r)) grid
      then Ok (mkArray [length grid; length r] grid)
      else Raise (ValueError "inhomogeneous shape")
  end.

(** [h, w = a.shape] *)
Definition unpack2 (s : list nat) : result (nat * nat) :=
  match s with
  | [h; w] => Ok (h, w)
  | _ => Raise (ValueError "wrong number of values to unpack")
  end.

(** [a.size] and [a.flatten()] *)
Definition np_size (a : ndarray) : nat := foldr Nat.mul 1%nat (shape a).
Definition flatten (a : ndarray) : list Z := concat (data a).

(** [np.full((n, m), v)] *)
Definition np_full (n m : Z) (v : Z) : result ndarray :=
  if (n <? 0) || (m <? 0)
  then Raise (ValueError "negative dimensions are not allowed")
  else Ok (mkArray [Z.to_nat n; Z.to_nat m]
                   (replicate (Z.to_nat n) (replicate (Z.to_nat m) v))).

(** [a[i, j]] *)
Definition getitem2 (a : ndarray) (i j : nat) : result Z :=
  match data a !! i ≫= (.!! j) with
  | Some v => Ok v
  | None => Raise (IndexError "index out of bounds")
  end.

(** [a[r0:r1, c0:c1] = v]: the selected block takes the values of [v]
    broadcast to the block's shape; an axis of [v] broadcasts when it has the
    block's length or length 1. *)
Definition setitem_slice2 (a : ndarray) (r0 r1 c0 c1 : Z) (v : ndarray)
  : result ndarray :=
  match shape a, shape v with
  | [n; m], [h; w] =>
      let '(rlo, rlen) := slice_indices n r0 r1 in
      let '(clo, clen) := slice_indices m c0 c1 in
      if (Nat.eqb h rlen || Nat.eqb h 1) && (Nat.eqb w clen || Nat.eqb w 1)
      then
        Ok (mkArray (shape a)
              (imap (fun i row =>
                 imap (fun j old =>
                   if (rlo <=? i)%nat && (i <? rlo + rlen)%nat
                      && (clo <=? j)%nat && (j <? clo + clen)%nat
                   then
                     let bi := if Nat.eqb h 1 then 0%nat else (i - rlo)%nat in
                     let bj := if Nat.eqb w 1 then 0%nat else (j - clo)%nat in
                     default old (data v !! bi ≫= (.!! bj))
                   else old) row) (data a)))
      else Raise (ValueError "could not broadcast input array")
  | _, _ => Raise (IndexError "too many indices for array")
  end.

(** ** matplotlib: what is drawn on an axes *)

Record Rectangle : Type := mkRect
  { rect_xy : nat * nat; rect_facecolor : string; rect_edgecolor : string }.

Record Text : Type := mkText { text_s : string; text_color : string }.

Record Axes : Type := mkAxes
  { ax_xlim : nat * nat;
    ax_ylim : nat * nat;
    ax_yaxis_inverted : bool;
    ax_patches : list Rectangle;
    ax_texts : list Text;
    ax_title : string }.

(** A freshly created (or cleared) axes. *)
Definition new_axes : Axes := mkAxes (0, 1)%nat (0, 1)%nat false [] [] "".

(** A figure: its subplot geometry, title and the axes created so far, keyed
    by subplot index (1-based, row by row). *)
Record Figure : Type := mkFigure
  { fig_nrows : nat;
    fig_ncols : nat;
    fig_suptitle : string;
    fig_axes : gmap nat Axes }.

(** [plt.subplot(nrows, ncols, index)]: the axes at [index], created when
    absent; the index must lie in [1, nrows * ncols]. *)
Definition subplot (fig : Figure) (index : nat) : result Axes :=
  if (1 <=? index)%nat && (index <=? fig_nrows fig * fig_ncols fig)%nat
  then Ok (default new_axes (fig_axes fig !! index))
  else Raise (ValueError "num must be an integer with 1 <= num <= nrows*ncols").

Definition set_axes (fig : Figure) (index : nat) (ax : Axes) : Figure :=
  mkFigure (fig_nrows fig) (fig_ncols fig) (fig_suptitle fig)
           (<[index := ax]> (fig_axes fig)).


(** Truth value of an optional list: [None] and [[]] are false. *)
Definition truthy {A : Type} (o : option (list A)) : bool :=
  match o with
  | Some (_ :: _) => true
  | _ => false
  end.

(** Loops.  [for_enumerate body start xs s] is
    [for i, x in enumerate(xs, start): s = body(s, i, x)], stopping at the
    first exception. *)
Fixpoint for_enumerate {A St : Type} (body : St → nat → A → result St)
    (start : nat) (xs : list A) (s : St) : result St :=
  match xs with
  | [] => Ok s
  | x :: xs' => s' ← body s start x; for_enumerate body (S start) xs' s'
  end.

(** [random.sample(population, k)]: the possible outcomes of one call.  It
    raises when [k] is negative or exceeds the population; otherwise it
    returns the elements at [k] pairwise distinct positions, in any order. *)
Inductive random_sample {A : Type} (population : list A) (k : Z)
  : result (list A) → Prop :=
| sample_invalid :
    k < 0 ∨ Z.of_nat (length population) < k →
    random_sample population k
      (Raise (ValueError "Sample larger than population or is negative"))
| sample_drawn (positions : list nat) (chosen : list A) :
    0 ≤ k ≤ Z.of_nat (length population) →
    Z.of_nat (length positions) = k →
    NoDup positions →
    Forall2 (fun i x => population !! i = Some x) positions chosen →
    random_sample population k (Ok chosen).

(** * [arc_visualizer.py] *)

Module Visualizer.

Definition COLOR_MAP : gmap Z string :=
  list_to_map
    [ (0, "#000000"); (1, "#0074D9"); (2, "#FF4136"); (3, "#2ECC40");
      (4, "#FFDC00"); (5, "#AAAAAA"); (6, "#F012BE"); (7, "#FF851B");
      (8, "#7FDBFF"); (9, "#870C25") ].

Definition PADDING_COLOR : string := "#F0F0F0".

Definition max_size_default : Z := 30.

(** The first half of [plot_grid] (up to the choice of [display_grid]): the
    canvas that is going to be drawn and its dimensions. *)
Record Display : Type := mkDisplay
  { display_grid : ndarray; display_height : nat; display_width : nat }.

Definition plot_grid_display (grid : Grid) (max_size : Z) : result Display :=
  original_grid ← np_array grid;
  hw ← unpack2 (shape original_grid);
  let original_height := hw.1 in
  let original_width := hw.2 in
  let use_padding :=
    (Z.of_nat original_height <? max_size)
    || (Z.of_nat original_width <? max_size) in
  if use_padding then
    padded_grid ← np_full max_size max_size (-1);
    let start_h := (max_size - Z.of_nat original_height) / 2 in
    let start_w := (max_size - Z.of_nat original_width) / 2 in
    padded_grid ← setitem_slice2 padded_grid
                    start_h (start_h + Z.of_nat original_height)
                    start_w (start_w + Z.of_nat original_width)
                    original_grid;
    Ok (mkDisplay padded_grid (Z.to_nat max_size) (Z.to_nat max_size))
  else
    Ok (mkDisplay original_grid original_height original_width).

(** The body of the drawing loop: the rectangle of cell [(i, j)]. *)
Definition draw_cell (display_grid : ndarray) (i j : nat) : result Rectangle :=
  value ← getitem2 display_grid i j;
  if decide (value = -1) then
    Ok (mkRect (j, i) PADDING_COLOR "#D0D0D0")
  else
    match COLOR_MAP !! value with
    | Some color => Ok (mkRect (j, i) color "gray")
    | None => Raise (KeyError (pretty value))
    end.

Definition plot_grid (ax : Axes) (grid : Grid) (title : string) (max_size : Z)
  : result Axes :=
  d ← plot_grid_display grid max_size;
  (* ax.clear() forgets whatever [ax] held *)
  rects ← mapM (fun i =>
             mapM (fun j => draw_cell (display_grid d) i j)
                  (seq 0 (display_width d)))
           (seq 0 (display_height d));
  Ok (mkAxes (0%nat, display_width d) (0%nat, display_height d) true
             (concat rects) [] title).

(** The panel drawn where a test example has no solution. *)
Definition no_solution_text : string :=
  "No Solution" +:+ String "010"%char "Available".

Definition placeholder (ax : Axes) (title : string) : Axes :=
  mkAxes (0, 1)%nat (0, 1)%nat false (ax_patches ax)
         (ax_texts ax ++ [mkText no_solution_text "red"]) title.

(** What [visualize_challenge] leaves behind: a file written by [savefig] or
    a window opened by [show]. *)
Inductive Output : Type :=
| Saved (path : string) (fig : Figure)
| Shown (fig : Figure).

Definition output_figure (o : Output) : Figure :=
  match o with Saved _ fig => fig | Shown fig => fig end.

Definition plot_train (fig : Figure) (i : nat) (example : Example)
  : result Figure :=
  ax_input ← subplot fig (i * 2 + 1);
  ax_input ← plot_grid ax_input (input example)
               ("Train " +:+ pretty (i + 1)%nat +:+ " Input") max_size_default;
  let fig := set_axes fig (i * 2 + 1) ax_input in
  ax_output ← subplot fig (i * 2 + 2);
  ax_output ← plot_grid ax_output (output example)
                ("Train " +:+ pretty (i + 1)%nat +:+ " Output") max_size_default;
  Ok (set_axes fig (i * 2 + 2) ax_output).

Definition plot_test (max_cols : nat) (solution_data : option (list Grid))
    (fig : Figure) (i : nat) (example : TestExample) : result Figure :=
  let input_pos := (max_cols + i * 2 + 1)%nat in
  let solution_pos := (max_cols + i * 2 + 2)%nat in
  ax_input ← subplot fig input_pos;
  ax_input ← plot_grid ax_input (test_input example)
               ("Test " +:+ pretty (i + 1)%nat +:+ " Input") max_size_default;
  let fig := set_axes fig input_pos ax_input in
  if truthy solution_data
     && bool_decide (i < length (default [] solution_data))%nat
  then
    ax_solution ← subplot fig solution_pos;
    match default [] solution_data !! i with
    | Some solution =>
        ax_solution ← plot_grid ax_solution solution
                        ("Test " +:+ pretty (i + 1)%nat +:+ " Solution")
                        max_size_default;
        Ok (set_axes fig solution_pos ax_solution)
    | None => Raise (IndexError "list index out of range")
    end
  else
    ax_solution ← subplot fig solution_pos;
    Ok (set_axes fig solution_pos
          (placeholder ax_solution
             ("Test " +:+ pretty (i + 1)%nat +:+ " Solution"))).

Definition visualize_challenge (challenge_id : string)
    (challenge_data : Challenge) (solution_data : option (list Grid))
    (save_path : option string) : result Output :=
  let train_examples := train challenge_data in
  let test_examples := test challenge_data in
  let n_train := length train_examples in
  let n_test := length test_examples in
  let train_cols := (n_train * 2)%nat in
  let test_cols := (n_test * 2)%nat in
  let max_cols := Nat.max train_cols test_cols in
  let fig := mkFigure 2 max_cols ("ARC Challenge: " +:+ challenge_id) ∅ in
  fig ← for_enumerate plot_train 0 train_examples fig;
  fig ← for_enumerate (plot_test max_cols solution_data) 0 test_examples fig;
  match save_path with
  | Some path => Ok (Saved path fig)
  | None => Ok (Shown fig)
  end.

(** [Path(a) / b] for a relative file name [b]. *)
Definition path_join (a b : string) : string := a +:+ "/" +:+ b.

(** [create_timestamped_directory], [now] being the formatted clock. *)
Definition create_timestamped_directory (now : string) : string :=
  path_join "examples" now.

Definition challenge_file (challenge_id : string) : string :=
  "challenge_" +:+ challenge_id +:+ ".png".

(** The loop of [visualize_random_challenges] over the drawn identifiers. *)
Definition visualize_each (challenges : dict Challenge)
    (solutions : dict (list Grid)) (save_dir : string)
    (challenge_ids : list string) : result (list Output) :=
  mapM (fun challenge_id =>
          match dict_get challenges challenge_id with
          | None => Raise (KeyError challenge_id)
          | Some challenge_data =>
              let solution_data := dict_get solutions challenge_id in
              let save_path := path_join save_dir (challenge_file challenge_id) in
              visualize_challenge challenge_id challenge_data solution_data
                                  (Some save_path)
          end)
       challenge_ids.

(** [visualize_random_challenges]: [out] is a possible outcome of one call,
    the returned directory together with the files written, in order. *)
Definition visualize_random_challenges (now : string)
    (challenges : dict Challenge) (solutions : dict (list Grid))
    (n_samples : Z) (save_dir : option string)
    (out : result (string * list Output)) : Prop :=
  let save_dir := default (create_timestamped_directory now) save_dir in
  ∃ drawn,
    random_sample (keys challenges)
      (Z.min n_samples (Z.of_nat (length challenges))) drawn ∧
    out = (challenge_ids ← drawn;
           written ← visualize_each challenges solutions save_dir challenge_ids;
           Ok (save_dir, written)).

(** The command line of the visualizer: [--challenge-id], [--n-samples],
    [--save-dir] (the data directory only selects the files to load). *)
Record Args : Type := mkArgs
  { arg_challenge_id : option string;
    arg_n_samples : Z;
    arg_save_dir : option string }.

(** Truth value of an optional string: absent and [""] are false. *)
Definition given (o : option string) : option string :=
  match o with
  | Some "" => None
  | _ => o
  end.

(** [main] on the loaded mappings: [out] is a possible outcome, the files
    written in order. *)
Definition main (now : string) (args : Args)
    (challenges : dict Challenge) (solutions : dict (list Grid))
    (out : result (list Output)) : Prop :=
  match given (arg_challenge_id args) with
  | Some challenge_id =>
      match dict_get challenges challenge_id with
      | None => out = Ok []  (* "Challenge ID ... not found!" *)
      | Some challenge_data =>
          let save_dir :=
            match given (arg_save_dir args) with
            | Some dir => dir
            | None => create_timestamped_directory now
            end in
          let save_path := path_join save_dir (challenge_file challenge_id) in
          out = (written ← visualize_challenge challenge_id challenge_data
                             (dict_get solutions challenge_id) (Some save_path);
                 Ok [written])
      end
  | None =>
      ∃ run,
        visualize_random_challenges now challenges solutions
          (arg_n_samples args) (given (arg_save_dir args)) run ∧
        out = (result ← run; Ok result.2)
  end.

End Visualizer.

(** * [arc_explorer.py] *)

Module Explorer.

Record Stats : Type := mkStats
  { train_counts : list nat;
    test_counts : list nat;
    input_sizes : list (list nat);
    output_sizes : list (list nat);
    unique_values : list Z }.

(** The accumulators of the first loop of [analyze_data_statistics]. *)
Record Acc : Type := mkAcc
  { acc_train_counts : list nat;
    acc_test_counts : list nat;
    acc_input_sizes : list (list nat);
    acc_output_sizes : list (list nat);
    acc_unique_values : gset Z }.

Definition scan_example (acc : Acc) (example : Example) : result Acc :=
  input_grid ← np_array (input example);
  output_grid ← np_array (output example);
  Ok (mkAcc (acc_train_counts acc) (acc_test_counts acc)
        (acc_input_sizes acc ++ [shape input_grid])
        (acc_output_sizes acc ++ [shape output_grid])
        (acc_unique_values acc
           ∪ list_to_set (flatten input_grid)
           ∪ list_to_set (flatten output_grid))).

Definition scan_challenge (acc : Acc) (item : string * Challenge) : result Acc :=
  let challenge := item.2 in
  let acc := mkAcc (acc_train_counts acc ++ [length (train challenge)])
                   (acc_test_counts acc ++ [length (test challenge)])
                   (acc_input_sizes acc) (acc_output_sizes acc)
                   (acc_unique_values acc) in
  for_enumerate (fun acc _ example => scan_example acc example) 0
                (train challenge) acc.

(** [sorted(s)] for a set of integers. *)
Definition sorted (s : gset Z) : list Z := merge_sort Z.le (elements s).

(** [[h * w for h, w in sizes]] *)
Definition areas (sizes : list (list nat)) : result (list nat) :=
  mapM (fun s => hw ← unpack2 s; Ok (hw.1 * hw.2)%nat) sizes.

Definition analyze_data_statistics (challenges : dict Challenge)
    (solutions : dict (list Grid)) : result Stats :=
  acc ← for_enumerate (fun acc _ item => scan_challenge acc item) 0 challenges
          (mkAcc [] [] [] [] ∅);
  (* the printed summaries; the means are floats and cannot fail *)
  _ ← py_min Nat.ltb id (acc_train_counts acc);
  _ ← py_max Nat.ltb id (acc_train_counts acc);
  _ ← py_min Nat.ltb id (acc_test_counts acc);
  _ ← py_max Nat.ltb id (acc_test_counts acc);
  input_areas ← areas (acc_input_sizes acc);
  output_areas ← areas (acc_output_sizes acc);
  _ ← py_min tuple_ltb id (acc_input_sizes acc);
  _ ← py_max tuple_ltb id (acc_input_sizes acc);
  _ ← py_min tuple_ltb id (acc_output_sizes acc);
  _ ← py_max tuple_ltb id (acc_output_sizes acc);
  _ ← py_min Nat.ltb id input_areas;
  _ ← py_max Nat.ltb id input_areas;
  _ ← py_min Nat.ltb id output_areas;
  _ ← py_max Nat.ltb id output_areas;
  Ok (mkStats (acc_train_counts acc) (acc_test_counts acc)
              (acc_input_sizes acc) (acc_output_sizes acc)
              (sorted (acc_unique_values acc))).

(** [find_interesting_challenges]: the five lists before deduplication. *)
Record Found : Type := mkFound
  { found_large : list string;
    found_small : list string;
    found_many : list string;
    found_simple : list string;
    found_size : list string }.

Definition add_if (b : bool) (challenge_id : string) (l : list string)
  : list string :=
  if b then l ++ [challenge_id] else l.

(** [len(set(a.flatten()))] *)
Definition count_unique (a : ndarray) : nat :=
  size (list_to_set (flatten a) : gset Z).

Definition classify_example (challenge_id : string) (found : Found)
    (example : Example) : result Found :=
  input_grid ← np_array (input example);
  output_grid ← np_array (output example);
  let input_size := np_size input_grid in
  let output_size := np_size output_grid in
  let unique_input := count_unique input_grid in
  let unique_output := count_unique output_grid in
  Ok (mkFound
        (add_if ((200 <? input_size)%nat || (200 <? output_size)%nat)
                challenge_id (found_large found))
        (add_if ((input_size <? 10)%nat || (output_size <? 10)%nat)
                challenge_id (found_small found))
        (add_if ((5 <? unique_input)%nat || (5 <? unique_output)%nat)
                challenge_id (found_many found))
        (add_if ((unique_input <=? 2)%nat && (unique_output <=? 2)%nat)
                challenge_id (found_simple found))
        (add_if (negb (bool_decide (shape input_grid = shape output_grid)))
                challenge_id (found_size found))).

Definition classify_challenge (found : Found) (item : string * Challenge)
  : result Found :=
  for_enumerate (fun found _ example => classify_example item.1 found example)
                0 (train item.2) found.

(** The returned dictionary; [list(set(l))] keeps one copy of each
    identifier, in an order Python does not fix. *)
Record Interesting : Type := mkInteresting
  { large_grids : list string;
    small_grids : list string;
    many_colors : list string;
    simple_patterns : list string;
    size_changes : list string }.

Definition list_set (l : list string) : list string :=
  elements (list_to_set l : gset string).

Definition find_interesting_challenges (challenges : dict Challenge)
    (solutions : dict (list Grid)) : result Interesting :=
  found ← for_enumerate (fun found _ item => classify_challenge found item) 0
            challenges (mkFound [] [] [] [] []);
  Ok (mkInteresting (list_set (found_large found))
                    (list_set (found_small found))
                    (list_set (found_many found))
                    (list_set (found_simple found))
                    (list_set (found_size found))).

(** [main], from the loaded files to the point where the plots are made;
    neither call is wrapped in a handler. *)
Definition main (challenges : dict Challenge) (solutions : dict (list Grid))
  : result (Stats * Interesting) :=
  stats ← analyze_data_statistics challenges solutions;
  interesting ← find_interesting_challenges challenges solutions;
  Ok (stats, interesting).

End Explorer.

(** * [arc_histogram.py] *)

Module Histogram.

Definition grid_integers (grid : Grid) : list Z := concat grid.

Definition extract_all_integers (challenges : dict Challenge)
    (solutions : dict (list Grid)) : list Z :=
  flat_map (fun item =>
      let challenge_id := item.1 in
      let challenge_data := item.2 in
      flat_map (fun example =>
                  grid_integers (input example) ++ grid_integers (output example))
               (train challenge_data)
      ++ flat_map (fun example => grid_integers (test_input example))
                  (test challenge_data)
      ++ match dict_get solutions challenge_id with
         | Some solution_outputs => flat_map grid_integers solution_outputs
         | None => []
         end)
    challenges.

(** [collections.Counter]: counts in order of first occurrence. *)
Abbreviation counts := (list (Z * nat)).

Fixpoint counter_add (c : counts) (x : Z) : counts :=
  match c with
  | [] => [(x, 1%nat)]
  | (k, n) :: c' =>
      if decide (k = x) then (k, S n) :: c' else (k, n) :: counter_add c' x
  end.

Definition Counter (xs : list Z) : counts := foldl counter_add [] xs.

Fixpoint counter_get (c : counts) (i : Z) : nat :=
  match c with
  | [] => 0%nat
  | (k, n) :: c' => if decide (k = i) then n else counter_get c' i
  end.

Definition integers : list Z := Z.of_nat <$> seq 0 10.

(** [np.argmax(xs)] / [np.argmin(xs)]: the first position of an extreme
    value.  For [argmin] the entries are floats, [None] standing for
    [float("inf")]. *)
Fixpoint argmax_from (best_i : nat) (best : nat) (i : nat) (xs : list nat) : nat :=
  match xs with
  | [] => best_i
  | x :: xs' =>
      if (best <? x)%nat then argmax_from i x (S i) xs'
      else argmax_from best_i best (S i) xs'
  end.

Definition np_argmax (xs : list nat) : nat :=
  match xs with
  | [] => 0%nat
  | x :: xs' => argmax_from 0 x 1 xs'
  end.

Definition inf_ltb (a b : option nat) : bool :=
  match a, b with
  | Some x, Some y => (x <? y)%nat
  | Some _, None => true
  | None, _ => false
  end.

Fixpoint argmin_from (best_i : nat) (best : option nat) (i : nat)
    (xs : list (option nat)) : nat :=
  match xs with
  | [] => best_i
  | x :: xs' =>
      if inf_ltb x best then argmin_from i x (S i) xs'
      else argmin_from best_i best (S i) xs'
  end.

Definition np_argmin (xs : list (option nat)) : nat :=
  match xs with
  | [] => 0%nat
  | x :: xs' => argmin_from 0 x 1 xs'
  end.

(** The figure of [create_histogram]: the ten bars and the text box. *)
Record HistogramFigure : Type := mkHistogram
  { hist_title : string;
    frequencies : list nat;
    total_count : nat;
    unique_count : nat;
    box_most_common : Z;
    box_most_count : nat;
    box_least_common : Z }.

Definition create_histogram (all_integers : list Z) (title : string)
  : HistogramFigure * counts :=
  let counter := Counter all_integers in
  let frequencies := counter_get counter <$> integers in
  (mkHistogram title frequencies
     (foldr Nat.add 0%nat frequencies)
     (length (filter (fun f => (0 < f)%nat) frequencies))
     (default 0 (integers !! np_argmax frequencies))
     (foldr Nat.max 0%nat frequencies)
     (default 0 (integers !! np_argmin
        ((fun f => if (0 <? f)%nat then Some f else None) <$> frequencies))),
   counter).

(** What [print_statistics] prints. *)
Record Statistics : Type := mkStatistics
  { total : nat;
    unique_found : nat;
    table : list (Z * nat);
    most_common : Z * nat;
    least_common : Z * nat;
    ratio : nat * nat  (* dividend and divisor of the printed quotient *) }.

Definition print_statistics (counter : counts) : result Statistics :=
  let total := foldr Nat.add 0%nat counter.*2 in
  let unique_found := length (filter (fun v => (0 < v)%nat) counter.*2) in
  let table := (fun i => (i, counter_get counter i)) <$> integers in
  most_common ← py_max Nat.ltb snd counter;
  least_common ← py_min Nat.ltb snd
                   (filter (fun kv => (0 < kv.2)%nat) counter);
  Ok (mkStatistics total unique_found table most_common least_common
                   (most_common.2, least_common.2)).

Record Args : Type := mkArgs { training_only : bool; test_only : bool }.

(** One run of [main] on loaded data: the integers collected and, unless
    the run stopped on "No data selected!", the figure and the printout. *)
Record Run : Type := mkRun
  { all_integers : list Z;
    report : option (HistogramFigure * Statistics) }.

(** The second half of [main], from the "No data selected!" test on. *)
Definition main_report (all_integers : list Z) (title_parts : list string)
  : result Run :=
  match all_integers with
  | [] => Ok (mkRun all_integers None)
  | _ :: _ =>
      let title := "ARC Challenge Integer Distribution ("
                   +:+ String.concat " + " title_parts +:+ " Data)" in
      let '(figure, counter) := create_histogram all_integers title in
      statistics ← print_statistics counter;
      Ok (mkRun all_integers (Some (figure, statistics)))
  end.

Definition main (args : Args)
    (train_challenges : dict Challenge) (train_solutions : dict (list Grid))
    (test_challenges : dict Challenge) (test_solutions : dict (list Grid))
  : result Run :=
  let include_training := negb (test_only args) in
  let include_test := negb (training_only args) in
  let all_integers := [] in
  let title_parts := [] in
  let '(all_integers, title_parts) :=
    if include_training
    then (all_integers ++ extract_all_integers train_challenges train_solutions,
          title_parts ++ ["Training"])
    else (all_integers, title_parts) in
  let '(all_integers, title_parts) :=
    if include_test
    then (all_integers ++ extract_all_integers test_challenges test_solutions,
          title_parts ++ ["Test"])
    else (all_integers, title_parts) in
  main_report all_integers title_parts.

End Histogram.

(** * Vocabulary of the properties *)

(** [matrix g h w]: [g] is a rectangular matrix of [h >= 1] rows and [w]
    columns. *)
Definition matrix (g : Grid) (h w : nat) : Prop :=
  (0 < h)%nat ∧ length g = h ∧ Forall (fun r => length r = w) g.

(** The value at row [i], column [j], when there is one. *)
Definition cell (rows : list (list Z)) (i j : nat) : option Z :=
  rows !! i ≫= (.!! j).

(** Every cell is one of the ten palette codes. *)
Definition palette (g : Grid) : Prop :=
  Forall (Forall (fun v => 0 ≤ v ≤ 9)) g.

(** [plot_grid] returns on [g] (with the default cap). *)
Definition renders (g : Grid) : Prop :=
  is_Ok (Visualizer.plot_grid new_axes g "" Visualizer.max_size_default).

(** Every grid of the challenge that [visualize_challenge] plots renders:
    training inputs and outputs, test inputs, and the solutions that are
    matched to a test example. *)
Definition challenge_renders (challenge_data : Challenge)
    (solution_data : option (list Grid)) : Prop :=
  Forall (fun e => renders (input e) ∧ renders (output e))
         (train challenge_data) ∧
  Forall (fun e => renders (test_input e)) (test challenge_data) ∧
  ∀ i solution,
    (i < length (test challenge_data))%nat →
    default [] solution_data !! i = Some solution → renders solution.

(** The solution matched to test example [i], if any. *)
Definition matched_solution (solution_data : option (list Grid)) (i : nat)
  : option Grid :=
  solution_data ≫= (.!! i).

(** The panel titles and what stands at a subplot position of a figure. *)
Definition train_title (i : nat) (part : string) : string :=
  "Train " +:+ pretty (i + 1)%nat +:+ part.
Definition test_title (i : nat) (part : string) : string :=
  "Test " +:+ pretty (i + 1)%nat +:+ part.

Definition grid_at (fig : Figure) (pos : nat) (g : Grid) (title : string)
  : Prop :=
  ∃ ax, fig_axes fig !! pos = Some ax ∧
        Visualizer.plot_grid new_axes g title Visualizer.max_size_default
        = Ok ax.

Definition placeholder_at (fig : Figure) (pos : nat) (title : string) : Prop :=
  fig_axes fig !! pos = Some (Visualizer.placeholder new_axes title).


(** What [visualize_challenge] returns for the figure [fig]. *)
Definition delivered (save_path : option string) (fig : Figure)
  : Visualizer.Output :=
  match save_path with
  | Some path => Visualizer.Saved path fig
  | None => Visualizer.Shown fig
  end.

(** [v] occurs in an input or output matrix of a training example. *)
Definition occurs_in_training (challenges : dict Challenge) (v : Z) : Prop :=
  ∃ item e, item ∈ challenges ∧ e ∈ train item.2 ∧
            (v ∈ concat (input e) ∨ v ∈ concat (output e)).

(** [v] occurs in some matrix of some example, training or test. *)
Definition occurs_in_dataset (challenges : dict Challenge) (v : Z) : Prop :=
  occurs_in_training challenges v ∨
  ∃ item e, item ∈ challenges ∧ e ∈ test item.2 ∧ v ∈ concat (test_input e).

(** All training grids are (non-empty) rectangular matrices. *)
Definition training_matrices (challenges : dict Challenge) : Prop :=
  ∀ item e, item ∈ challenges → e ∈ train item.2 →
    (∃ h w, matrix (input e) h w) ∧ (∃ h w, matrix (output e) h w).

(** Number of cells, number of distinct values and shape of a grid. *)
Definition grid_area (g : Grid) : nat := length (concat g).
Definition grid_colors (g : Grid) : nat :=
  size (list_to_set (concat g) : gset Z).
Definition grid_shape (g : Grid) : list nat :=
  match g with
  | [] => [0%nat]
  | r :: _ => [length g; length r]
  end.

(** All rows have one length (the empty grid included). *)
Definition rectangular (g : Grid) : Prop :=
  ∃ w, Forall (fun r => length r = w) g.

(** The five interest categories and when an example falls in one. *)
Inductive category : Type :=
| Large | Small | ManyColors | Simple | SizeChanging.

Definition in_category (c : category) (e : Example) : Prop :=
  match c with
  | Large => (200 < grid_area (input e) ∨ 200 < grid_area (output e))%nat
  | Small => (grid_area (input e) < 10 ∨ grid_area (output e) < 10)%nat
  | ManyColors => (5 < grid_colors (input e) ∨ 5 < grid_colors (output e))%nat
  | Simple => (grid_colors (input e) ≤ 2 ∧ grid_colors (output e) ≤ 2)%nat
  | SizeChanging => grid_shape (input e) ≠ grid_shape (output e)
  end.

Definition classified (c : category) (r : Explorer.Interesting)
  : list string :=
  match c with
  | Large => Explorer.large_grids r
  | Small => Explorer.small_grids r
  | ManyColors => Explorer.many_colors r
  | Simple => Explorer.simple_patterns r
  | SizeChanging => Explorer.size_changes r
  end.

(** The training example of the classification scenario. *)
Definition example_ones_twos : Example :=
  mkExample [[1; 1]; [1; 1]] [[2; 2]; [2; 2]].

(** All training grids can be turned into arrays. *)
Definition training_rectangular (challenges : dict Challenge) : Prop :=
  ∀ item e, item ∈ challenges → e ∈ train item.2 →
    rectangular (input e) ∧ rectangular (output e).

(** * Sample data *)

Definition grid_3x3_a : Grid := [[0; 7; 7]; [7; 7; 7]; [0; 7; 7]].
Definition grid_3x3_b : Grid := [[7; 0; 7]; [0; 0; 0]; [7; 0; 7]].
Definition grid_3x3_c : Grid := [[7; 0; 7]; [7; 0; 7]; [7; 7; 0]].
Definition grid_3x3_d : Grid := [[1; 0; 1]; [1; 0; 1]; [1; 1; 0]].

(** One training pair and one test example, all grids 3x3. *)
Definition challenge_007bbfb7 : Challenge :=
  mkChallenge [mkExample grid_3x3_a grid_3x3_b] [mkTest grid_3x3_c].

(** The same with a second test example. *)
Definition challenge_two_tests : Challenge :=
  mkChallenge [mkExample grid_3x3_a grid_3x3_b]
              [mkTest grid_3x3_c; mkTest grid_3x3_a].

Definition sample_challenges : dict Challenge :=
  [("007bbfb7", challenge_007bbfb7); ("00d62c1b", challenge_two_tests)].

Definition sample_solutions : dict (list Grid) :=
  [("007bbfb7", [grid_3x3_d])].

(** The paths of the files a run wrote. *)
Definition saved_paths (written : list Visualizer.Output) : list string :=
  omap (fun o => match o with
                 | Visualizer.Saved path _ => Some path
                 | Visualizer.Shown _ => None
                 end) written.
(** * Facts about the numpy and loop primitives *)

Section numpy_facts.

Lemma forallb_row_lengths (g : Grid) (w : nat) :
  Forall (fun r => length r = w) g →
  forallb (fun r' => Nat.eqb (length r') w) g = true.
Proof.
  induction 1 as [|r g Hr _ IH]; simpl; [done|].
  rewrite IH, andb_true_r. by apply Nat.eqb_eq.
Qed.

Lemma np_array_matrix g h w :
  matrix g h w → np_array g = Ok (mkArray [h; w] g).
Proof.
  intros (Hh & Hlen & Hrows). destruct g as [|r g']; simpl in *; [lia|].
  assert (length r = w) as Hr by (by inversion Hrows).
  pose proof (forallb_row_lengths _ _ Hrows) as Hb. simpl in Hb.
  subst w. rewrite Hb. by rewrite <- Hlen.
Qed.

Lemma np_array_Ok_data g a : np_array g = Ok a → data a = g.
Proof.
  destruct g as [|r g']; simpl; [by intros [= <-]|].
  case_match; [by intros [= <-]|done].
Qed.

Lemma matrix_cell g h w i j :
  matrix g h w → (i < h)%nat → (j < w)%nat → is_Some (cell g i j).
Proof.
  intros (_ & Hlen & Hrows) Hi Hj. unfold cell.
  destruct (lookup_lt_is_Some_2 g i) as [r Hr]; [lia|].
  rewrite Hr. simpl. apply lookup_lt_is_Some_2.
  rewrite Forall_forall in Hrows. rewrite (Hrows r); [done|].
  by eapply list_elem_of_lookup_2.
Qed.

Lemma clip_index_inside n i : 0 ≤ i ≤ Z.of_nat n → clip_index n i = i.
Proof.
  intros Hi. unfold clip_index.
  destruct (Z.ltb_spec i 0); [lia|].
  destruct (Z.ltb_spec i 0); [lia|].
  destruct (Z.ltb_spec (Z.of_nat n) i); lia.
Qed.

Lemma slice_indices_inside n start len :
  0 ≤ start → start + Z.of_nat len ≤ Z.of_nat n →
  slice_indices n start (start + Z.of_nat len) = (Z.to_nat start, len).
Proof.
  intros H0 H1. unfold slice_indices.
  rewrite !clip_index_inside by lia. f_equal. lia.
Qed.

Lemma cell_replicate n m (v : Z) i j :
  (i < n)%nat → (j < m)%nat → cell (replicate n (replicate m v)) i j = Some v.
Proof.
  intros Hi Hj. unfold cell.
  rewrite lookup_replicate_2 by done. simpl. by apply lookup_replicate_2.
Qed.

Lemma cell_imap (f : nat → nat → Z → Z) rows i j :
  cell (imap (fun i row => imap (fun j old => f i j old) row) rows) i j
  = f i j <$> cell rows i j.
Proof.
  unfold cell. rewrite list_lookup_imap.
  destruct (rows !! i) as [row|]; [|done]. simpl.
  by rewrite list_lookup_imap.
Qed.

End numpy_facts.

Section plot_grid_canvas.
Import Visualizer.

(** The canvas of [plot_grid] when the matrix fits under the cap. *)
Lemma plot_grid_display_fits g h w cap :
  matrix g h w →
  Z.of_nat h ≤ cap → Z.of_nat w ≤ cap →
  Z.of_nat h < cap ∨ Z.of_nat w < cap →
  let n := Z.to_nat cap in
  let sh := Z.to_nat ((cap - Z.of_nat h) / 2) in
  let sw := Z.to_nat ((cap - Z.of_nat w) / 2) in
  ∃ rows,
    plot_grid_display g cap = Ok (mkDisplay (mkArray [n; n] rows) n n) ∧
    length rows = n ∧
    Forall (fun r => length r = n) rows ∧
    (∀ i j, (i < h)%nat → (j < w)%nat →
            cell rows (sh + i) (sw + j) = cell g i j) ∧
    (∀ i j, (i < n)%nat → (j < n)%nat →
            ¬ ((sh ≤ i < sh + h)%nat ∧ (sw ≤ j < sw + w)%nat) →
            cell rows i j = Some (-1)).
Proof.
  intros Hm Hh Hw Hlt n sh sw.
  assert (0 < cap) as Hcap by (destruct Hm; lia).
  assert (0 ≤ (cap - Z.of_nat h) / 2) as Hsh0 by (apply Z.div_pos; lia).
  assert (0 ≤ (cap - Z.of_nat w) / 2) as Hsw0 by (apply Z.div_pos; lia).
  assert ((cap - Z.of_nat h) / 2 + Z.of_nat h ≤ cap) as Hsh1.
  { pose proof (Z.mul_div_le (cap - Z.of_nat h) 2). lia. }
  assert ((cap - Z.of_nat w) / 2 + Z.of_nat w ≤ cap) as Hsw1.
  { pose proof (Z.mul_div_le (cap - Z.of_nat w) 2). lia. }
  unfold plot_grid_display.
  rewrite (np_array_matrix _ _ _ Hm). cbn [mbind result_bind shape unpack2 fst snd].
  replace ((Z.of_nat h <? cap) || (Z.of_nat w <? cap)) with true
    by (symmetry; apply orb_true_iff; destruct Hlt; [left|right]; lia).
  unfold np_full.
  replace (cap <? 0) with false by lia.
  cbn [orb mbind result_bind].
  unfold setitem_slice2. cbn [shape data].
  rewrite !slice_indices_inside by lia.
  rewrite !Nat.eqb_refl. cbn [orb andb].
  eexists. split; [reflexivity|].
  fold n sh sw. split_and!.
  - by rewrite length_imap, length_replicate.
  - apply Forall_forall. intros r Hr.
    apply elem_of_lookup_imap in Hr as (i & r0 & -> & Hr0).
    apply lookup_replicate in Hr0 as [-> _].
    by rewrite length_imap, length_replicate.
  - intros i j Hi Hj.
    rewrite cell_imap, cell_replicate by lia. simpl.
    replace ((sh <=? sh + i)%nat && (sh + i <? sh + h)%nat
             && (sw <=? sw + j)%nat && (sw + j <? sw + w)%nat) with true
      by (symmetry; rewrite !andb_true_iff, !Nat.leb_le, !Nat.ltb_lt; lia).
    destruct (matrix_cell g h w i j Hm Hi Hj) as [v Hv].
    assert ((if (h =? 1)%nat then 0 else sh + i - sh)%nat = i) as ->.
    { destruct (Nat.eqb_spec h 1); lia. }
    assert ((if (w =? 1)%nat then 0 else sw + j - sw)%nat = j) as ->.
    { destruct (Nat.eqb_spec w 1); lia. }
    unfold cell in Hv |- *. by rewrite Hv.
  - intros i j Hi Hj Hout.
    rewrite cell_imap, cell_replicate by lia. simpl.
    replace ((sh <=? i)%nat && (i <? sh + h)%nat
             && (sw <=? j)%nat && (j <? sw + w)%nat) with false; [done|].
    symmetry. apply not_true_is_false.
    rewrite !andb_true_iff, !Nat.leb_le, !Nat.ltb_lt. lia.
Qed.

End plot_grid_canvas.

Section loops.

Lemma mapM_result_Ok {A B} (f : A → result B) (l : list A) :
  (∀ x, x ∈ l → is_Ok (f x)) →
  ∃ ys, mapM f l = Ok ys ∧ Forall2 (fun x y => f x = Ok y) l ys.
Proof.
  induction l as [|x l IH]; intros Hf.
  - exists []. split; [done|constructor].
  - destruct (Hf x) as [y Hy]; [left|].
    destruct IH as (ys & Hys & Hall).
    { intros x' Hx'. apply Hf. by right. }
    exists (y :: ys). split; [|by constructor].
    cbn. rewrite Hy. cbn. rewrite Hys. done.
Qed.

Lemma mapM_result_inv {A B} (f : A → result B) (l : list A) ys :
  mapM f l = Ok ys → Forall2 (fun x y => f x = Ok y) l ys.
Proof.
  revert ys. induction l as [|x l IH]; intros ys; cbn.
  - intros [= <-]. constructor.
  - destruct (f x) as [y|e] eqn:Hy; cbn; [|done].
    destruct (mapM f l) as [ys'|e] eqn:Hys; cbn; [|done].
    intros [= <-]. constructor; [done|by apply IH].
Qed.

End loops.

Section plot_grid_drawing.
Import Visualizer.

Lemma COLOR_MAP_palette v : 0 ≤ v ≤ 9 → is_Some (COLOR_MAP !! v).
Proof.
  intros Hv.
  assert (v = 0 ∨ v = 1 ∨ v = 2 ∨ v = 3 ∨ v = 4 ∨ v = 5 ∨ v = 6 ∨ v = 7
          ∨ v = 8 ∨ v = 9) as Hcases by lia.
  repeat (destruct Hcases as [-> | Hcases]; [by eexists|]).
  subst. by eexists.
Qed.

Lemma draw_cell_Ok a i j v :
  cell (data a) i j = Some v → v = -1 ∨ 0 ≤ v ≤ 9 →
  ∃ color edge, draw_cell a i j = Ok (mkRect (j, i) color edge).
Proof.
  intros Hc Hv. unfold draw_cell, getitem2. unfold cell in Hc. rewrite Hc.
  cbn [mbind result_bind]. case_decide; [by eexists _, _|].
  destruct (COLOR_MAP_palette v) as [c Hcol]; [lia|].
  rewrite Hcol. by eexists _, _.
Qed.

(** Every cell of a well-formed canvas holding palette codes or the padding
    mark is drawn: one rectangle per cell. *)
Lemma draw_canvas_Ok a dh dw :
  length (data a) = dh →
  Forall (fun r => length r = dw) (data a) →
  (∀ i j v, cell (data a) i j = Some v → v = -1 ∨ 0 ≤ v ≤ 9) →
  ∃ rects,
    mapM (fun i => mapM (fun j => draw_cell a i j) (seq 0 dw)) (seq 0 dh)
    = Ok rects ∧
    length (concat rects) = (dh * dw)%nat.
Proof.
  intros Hlen Hrows Hpal.
  destruct (mapM_result_Ok
              (fun i => mapM (fun j => draw_cell a i j) (seq 0 dw)) (seq 0 dh))
    as (rects & Hrects & Hall).
  { intros i Hi. apply elem_of_seq in Hi.
    destruct (mapM_result_Ok (fun j => draw_cell a i j) (seq 0 dw))
      as (row & Hrow & _); [|by eexists].
    intros j Hj. apply elem_of_seq in Hj.
    assert (is_Some (cell (data a) i j)) as [v Hv].
    { unfold cell. destruct (lookup_lt_is_Some_2 (data a) i) as [r Hr]; [lia|].
      rewrite Hr. simpl. apply lookup_lt_is_Some_2.
      rewrite Forall_forall in Hrows. rewrite (Hrows r); [lia|].
      by eapply list_elem_of_lookup_2. }
    destruct (draw_cell_Ok a i j v Hv) as (c & e & Hd); [by eapply Hpal|].
    by eexists. }
  exists rects. split; [done|].
  assert (Forall (fun row : list Rectangle => length row = dw) rects) as Hw.
  { clear -Hall. induction Hall as [|i row idxs rows Hrow _ IH]; constructor; [|done].
    apply mapM_result_inv in Hrow. apply Forall2_length in Hrow.
    by rewrite length_seq in Hrow. }
  apply Forall2_length in Hall. rewrite length_seq in Hall.
  rewrite Hall. clear -Hw.
  induction Hw as [|row rows Hrow _ IH]; simpl; [done|].
  rewrite length_app, IH, Hrow. lia.
Qed.

End plot_grid_drawing.

Section plot_grid_claims.
Import Visualizer.

Lemma palette_cell g i j v : palette g → cell g i j = Some v → 0 ≤ v ≤ 9.
Proof.
  unfold palette, cell. rewrite Forall_forall. intros Hp Hc.
  destruct (g !! i) as [r|] eqn:Hr; simpl in Hc; [|done].
  specialize (Hp r (list_elem_of_lookup_2 _ _ _ Hr)).
  rewrite Forall_forall in Hp. apply Hp. by eapply list_elem_of_lookup_2.
Qed.

Lemma cell_Some_bounds rows n m i j v :
  length rows = n → Forall (fun r => length r = m) rows →
  cell rows i j = Some v → (i < n)%nat ∧ (j < m)%nat.
Proof.
  unfold cell. intros Hn Hm Hc.
  destruct (rows !! i) as [r|] eqn:Hr; simpl in Hc; [|done].
  split.
  - rewrite <- Hn. by eapply lookup_lt_Some.
  - rewrite Forall_forall in Hm.
    rewrite <- (Hm r (list_elem_of_lookup_2 _ _ _ Hr)). by eapply lookup_lt_Some.
Qed.

Lemma plot_grid_of_display ax g title cap a dh dw :
  plot_grid_display g cap = Ok (mkDisplay a dh dw) →
  length (data a) = dh →
  Forall (fun r => length r = dw) (data a) →
  (∀ i j v, cell (data a) i j = Some v → v = -1 ∨ 0 ≤ v ≤ 9) →
  ∃ patches,
    plot_grid ax g title cap
    = Ok (mkAxes (0%nat, dw) (0%nat, dh) true patches [] title) ∧
    length patches = (dh * dw)%nat.
Proof.
  intros Hd Hlen Hrows Hpal. unfold plot_grid. rewrite Hd.
  cbn [mbind result_bind display_grid display_height display_width].
  destruct (draw_canvas_Ok a dh dw Hlen Hrows Hpal) as (rects & -> & Hn).
  cbn [mbind result_bind]. by eexists.
Qed.

(** The canvas of [plot_grid] for a matrix at least as large as the cap in
    both dimensions is the matrix itself. *)
Lemma plot_grid_display_native g h w cap :
  matrix g h w → cap ≤ Z.of_nat h → cap ≤ Z.of_nat w →
  plot_grid_display g cap = Ok (mkDisplay (mkArray [h; w] g) h w).
Proof.
  intros Hm Hh Hw. unfold plot_grid_display.
  rewrite (np_array_matrix _ _ _ Hm). cbn [mbind result_bind shape unpack2 fst snd].
  replace ((Z.of_nat h <? cap) || (Z.of_nat w <? cap)) with false; [done|].
  symmetry. apply orb_false_iff. lia.
Qed.

End plot_grid_claims.

(** * The grid renderer: [plot_grid] *)

Section plot_grid_spec.
Import Visualizer.

(** C1 (as amended): a rectangular matrix that fits under the display cap in
    both dimensions and lies strictly below it in at least one is drawn on a
    canvas of exactly cap x cap cells; the matrix's values stand unchanged
    in the centred region, whose offsets are [(cap - height) // 2] and
    [(cap - width) // 2], and every other cell holds the padding mark [-1].
    When the cells are palette codes, [plot_grid] returns with one rectangle
    per canvas cell. *)
Theorem plot_grid_pads_to_cap (ax : Axes) (title : string)
    (g : Grid) (h w : nat) (cap : Z) :
  matrix g h w →
  Z.of_nat h ≤ cap → Z.of_nat w ≤ cap →
  Z.of_nat h < cap ∨ Z.of_nat w < cap →
  let n := Z.to_nat cap in
  let start_h := Z.to_nat ((cap - Z.of_nat h) / 2) in
  let start_w := Z.to_nat ((cap - Z.of_nat w) / 2) in
  ∃ canvas,
    plot_grid_display g cap = Ok (mkDisplay (mkArray [n; n] canvas) n n) ∧
    length canvas = n ∧
    Forall (fun r => length r = n) canvas ∧
    (∀ i j, (i < h)%nat → (j < w)%nat →
            cell canvas (start_h + i) (start_w + j) = cell g i j) ∧
    (∀ i j, (i < n)%nat → (j < n)%nat →
            ¬ ((start_h ≤ i < start_h + h)%nat
               ∧ (start_w ≤ j < start_w + w)%nat) →
            cell canvas i j = Some (-1)) ∧
    (palette g →
     ∃ patches,
       plot_grid ax g title cap
       = Ok (mkAxes (0%nat, n) (0%nat, n) true patches [] title) ∧
       length patches = (n * n)%nat).
Proof.
  intros Hm Hh Hw Hlt n start_h start_w.
  destruct (plot_grid_display_fits g h w cap Hm Hh Hw Hlt)
    as (canvas & Hd & Hlen & Hrows & Hin & Hout).
  exists canvas. split_and!; try done.
  intros Hpal.
  apply (plot_grid_of_display ax g title cap _ n n Hd Hlen Hrows).
  intros i j v Hc. cbn [data] in Hc.
  destruct (cell_Some_bounds _ _ _ _ _ _ Hlen Hrows Hc) as [Hi Hj].
  destruct (decide ((start_h ≤ i < start_h + h)%nat
                    ∧ (start_w ≤ j < start_w + w)%nat)) as [Hreg|Hreg].
  - right. apply (palette_cell g (i - start_h) (j - start_w)); [done|].
    rewrite <- Hc, <- Hin by lia. f_equal; lia.
  - left. rewrite (Hout i j Hi Hj Hreg) in Hc. congruence.
Qed.

Lemma plot_grid_pads_to_cap_witness :
  ∃ canvas,
    plot_grid_display [[1; 2]; [3; 4]] 4
    = Ok (mkDisplay (mkArray [4; 4]%nat canvas) 4 4) ∧
    cell canvas 1 1 = Some 1 ∧ cell canvas 2 2 = Some 4 ∧
    cell canvas 0 3 = Some (-1).
Proof.
  destruct (plot_grid_pads_to_cap new_axes "" [[1; 2]; [3; 4]] 2 2 4)
    as (canvas & Hd & _ & _ & Hin & Hout & _).
  - split_and!; [lia|done|]. by repeat constructor.
  - lia.
  - lia.
  - lia.
  - exists canvas. split_and!.
    + exact Hd.
    + exact (Hin 0%nat 0%nat ltac:(lia) ltac:(lia)).
    + exact (Hin 1%nat 1%nat ltac:(lia) ltac:(lia)).
    + apply Hout; simpl; lia.
Defined.

(** C1 as stated fails: a one-row matrix of 31 columns has a dimension
    below the default cap of 30, yet [plot_grid] raises instead of
    rendering, the block assignment being unable to hold the row. *)
Lemma plot_grid_wide_matrix_raises :
  let g := [replicate 31 0] in
  matrix g 1 31 ∧
  (Z.of_nat 1 < max_size_default ∨ Z.of_nat 31 < max_size_default) ∧
  plot_grid_display g max_size_default
  = Raise (ValueError "could not broadcast input array") ∧
  plot_grid new_axes g "" max_size_default
  = Raise (ValueError "could not broadcast input array").
Proof.
  split_and!.
  - split_and!; [lia|done|]. by repeat constructor.
  - left. unfold max_size_default. lia.
  - by vm_compute.
  - by vm_compute.
Qed.

(** C5: a rectangular matrix whose height and width both reach the cap is
    drawn at its own size: the canvas is the matrix itself, cell for cell,
    with no padding added and nothing dropped.  When the cells are palette
    codes, [plot_grid] returns with one rectangle per matrix cell. *)
Theorem plot_grid_native_size (ax : Axes) (title : string)
    (g : Grid) (h w : nat) (cap : Z) :
  matrix g h w →
  cap ≤ Z.of_nat h → cap ≤ Z.of_nat w →
  ∃ d,
    plot_grid_display g cap = Ok d ∧
    display_height d = h ∧ display_width d = w ∧
    shape (display_grid d) = [h; w] ∧
    data (display_grid d) = g ∧
    (∀ i j, cell (data (display_grid d)) i j = cell g i j) ∧
    (palette g →
     ∃ patches,
       plot_grid ax g title cap
       = Ok (mkAxes (0%nat, w) (0%nat, h) true patches [] title) ∧
       length patches = (h * w)%nat).
Proof.
  intros Hm Hh Hw.
  pose proof (plot_grid_display_native g h w cap Hm Hh Hw) as Hd.
  eexists. split; [exact Hd|]. cbn [display_height display_width display_grid shape data].
  split_and!; try done.
  intros Hpal. destruct Hm as (Hpos & Hlen & Hrows).
  apply (plot_grid_of_display ax g title cap _ h w Hd Hlen Hrows).
  intros i j v Hc. right. by eapply palette_cell.
Qed.

Lemma plot_grid_native_size_witness :
  ∃ d, plot_grid_display [[1; 2]; [3; 4]] 2 = Ok d ∧
       display_height d = 2%nat ∧ display_width d = 2%nat ∧
       data (display_grid d) = [[1; 2]; [3; 4]].
Proof.
  destruct (plot_grid_native_size new_axes "" [[1; 2]; [3; 4]] 2 2 2)
    as (d & Hd & Hh & Hw & _ & Hdata & _).
  - split_and!; [lia|done|]. by repeat constructor.
  - lia.
  - lia.
  - by exists d.
Defined.

End plot_grid_spec.

(** * The challenge composer: [visualize_challenge] *)

Section for_enumerate_facts.
Context {A St : Type}.

(** Loop invariant rule: [Inv k s] holds of the state after [k] rounds. *)
Lemma for_enumerate_invariant (body : St → nat → A → result St)
    (Inv : nat → St → Prop) (xs : list A) (start : nat) (s : St) :
  Inv 0%nat s →
  (∀ k x s, xs !! k = Some x → Inv k s →
            ∃ s', body s (start + k)%nat x = Ok s' ∧ Inv (S k) s') →
  ∃ s', for_enumerate body start xs s = Ok s' ∧ Inv (length xs) s'.
Proof.
  revert Inv start s. induction xs as [|x xs IH]; intros Inv start s H0 Hstep.
  - by exists s.
  - destruct (Hstep 0%nat x s) as (s1 & Hs1 & HI1); [done|done|].
    rewrite Nat.add_0_r in Hs1.
    destruct (IH (fun k => Inv (S k)) (S start) s1) as (s' & Hs' & HI'); [done| |].
    { intros k y t Hy Ht. destruct (Hstep (S k) y t) as (t' & Ht' & HI); [done|done|].
      exists t'. split; [|done]. by rewrite <- Nat.add_succ_comm in Ht'. }
    exists s'. split; [|done]. cbn. rewrite Hs1. done.
Qed.

End for_enumerate_facts.

Section visualize_challenge_facts.
Import Visualizer.

Lemma plot_grid_ignores_axes ax ax' g title cap :
  plot_grid ax g title cap = plot_grid ax' g title cap.
Proof. reflexivity. Qed.

Lemma renders_plot_grid ax g title :
  renders g →
  ∃ drawn, plot_grid ax g title max_size_default = Ok drawn ∧
           ax_texts drawn = [] ∧ ax_title drawn = title.
Proof.
  intros [drawn Hd]. unfold plot_grid in *.
  destruct (plot_grid_display g max_size_default) as [d|e]; [|done].
  cbn [mbind result_bind] in *.
  destruct (mapM _ _) as [rects|e]; [|done].
  cbn [mbind result_bind] in *. by eexists.
Qed.

Lemma subplot_Ok fig index :
  (1 ≤ index ≤ fig_nrows fig * fig_ncols fig)%nat →
  subplot fig index = Ok (default new_axes (fig_axes fig !! index)).
Proof.
  intros Hi. unfold subplot.
  replace ((1 <=? index)%nat && (index <=? fig_nrows fig * fig_ncols fig)%nat)
    with true; [done|].
  symmetry. rewrite andb_true_iff, !Nat.leb_le. lia.
Qed.

(** The figure after the first [k] training examples. *)
Definition train_done (challenge_data : Challenge) (ncols : nat) (title : string)
    (k : nat) (fig : Figure) : Prop :=
  fig_nrows fig = 2%nat ∧ fig_ncols fig = ncols ∧ fig_suptitle fig = title ∧
  (∀ i e, (i < k)%nat → train challenge_data !! i = Some e →
     grid_at fig (i * 2 + 1) (input e) (train_title i " Input") ∧
     grid_at fig (i * 2 + 2) (output e) (train_title i " Output")) ∧
  (∀ pos, is_Some (fig_axes fig !! pos) → (1 ≤ pos ≤ 2 * k)%nat).

Lemma grid_at_set_axes_ne fig pos pos' ax g title :
  pos ≠ pos' → grid_at fig pos' g title →
  grid_at (set_axes fig pos ax) pos' g title.
Proof.
  intros Hne (ax' & Hl & Hp). exists ax'. split; [|done].
  cbn. by rewrite lookup_insert_ne.
Qed.

Lemma grid_at_set_axes fig pos ax g title :
  plot_grid new_axes g title max_size_default = Ok ax →
  grid_at (set_axes fig pos ax) pos g title.
Proof. intros Hp. exists ax. split; [|done]. cbn. by rewrite lookup_insert_eq. Qed.

Lemma plot_train_step challenge_data ncols title k e fig :
  (2 * length (train challenge_data) ≤ ncols)%nat →
  train challenge_data !! k = Some e →
  renders (input e) → renders (output e) →
  train_done challenge_data ncols title k fig →
  ∃ fig', plot_train fig k e = Ok fig' ∧
          train_done challenge_data ncols title (S k) fig'.
Proof.
  intros Hcols He Hin Hout (Hr & Hc & Ht & Hpanels & Hdom).
  pose proof (lookup_lt_Some _ _ _ He) as Hk.
  destruct (renders_plot_grid (default new_axes (fig_axes fig !! (k * 2 + 1)%nat))
              (input e) (train_title k " Input") Hin) as (ax_in & Hax_in & _).
  unfold plot_train.
  rewrite subplot_Ok by (rewrite Hr, Hc; lia).
  cbn [mbind result_bind]. fold (train_title k " Input"). rewrite Hax_in.
  cbn [mbind result_bind].
  rewrite subplot_Ok by (cbn; rewrite Hr, Hc; lia).
  cbn [mbind result_bind]. fold (train_title k " Output").
  destruct (renders_plot_grid
              (default new_axes
                 (fig_axes (set_axes fig (k * 2 + 1) ax_in) !! (k * 2 + 2)%nat))
              (output e) (train_title k " Output") Hout) as (ax_out & Hax_out & _).
  rewrite Hax_out. eexists. split; [reflexivity|].
  split_and!; try done.
  - intros i e' Hi He'. destruct (decide (i = k)) as [->|Hne].
    + assert (e' = e) as -> by congruence. split.
      * apply grid_at_set_axes_ne; [lia|]. by apply grid_at_set_axes.
      * by apply grid_at_set_axes.
    + destruct (Hpanels i e') as [H1 H2]; [lia|done|].
      split; (apply grid_at_set_axes_ne; [lia|]; apply grid_at_set_axes_ne; [lia|done]).
  - intros pos. cbn. rewrite !lookup_insert_is_Some. intros [<-|[_ [<-|[_ Hs]]]]; [lia|lia|].
    apply Hdom in Hs. lia.
Qed.

Lemma matched_solution_default solution_data i :
  default [] solution_data !! i = matched_solution solution_data i.
Proof. by destruct solution_data. Qed.

Lemma solution_test_spec (solution_data : option (list Grid)) i :
  truthy solution_data
  && bool_decide (i < length (default [] solution_data))%nat
  = bool_decide (is_Some (matched_solution solution_data i)).
Proof.
  destruct solution_data as [l|]; cbn; [|done].
  destruct (decide (i < length l)%nat) as [Hi|Hi].
  - rewrite (bool_decide_eq_true_2 _ Hi).
    rewrite bool_decide_eq_true_2 by (by apply lookup_lt_is_Some_2).
    destruct l; [simpl in Hi; lia|done].
  - rewrite (bool_decide_eq_false_2 _ Hi), andb_false_r.
    symmetry. apply bool_decide_eq_false_2.
    rewrite lookup_ge_None_2 by lia. by intros [? ?].
Qed.

(** What stands in the solution position of test example [i]. *)
Definition solution_panel (solution_data : option (list Grid)) (ncols i : nat)
    (fig : Figure) : Prop :=
  match matched_solution solution_data i with
  | Some solution =>
      grid_at fig (ncols + i * 2 + 2) solution (test_title i " Solution")
  | None => placeholder_at fig (ncols + i * 2 + 2) (test_title i " Solution")
  end.

(** The figure after the first [k] test examples, [fig0] being the figure
    the training loop left. *)
Definition test_done (challenge_data : Challenge)
    (solution_data : option (list Grid)) (ncols : nat) (fig0 : Figure)
    (k : nat) (fig : Figure) : Prop :=
  fig_nrows fig = 2%nat ∧ fig_ncols fig = ncols ∧
  fig_suptitle fig = fig_suptitle fig0 ∧
  (∀ pos, (pos ≤ ncols)%nat → fig_axes fig !! pos = fig_axes fig0 !! pos) ∧
  (∀ i e, (i < k)%nat → test challenge_data !! i = Some e →
     grid_at fig (ncols + i * 2 + 1) (test_input e) (test_title i " Input") ∧
     solution_panel solution_data ncols i fig) ∧
  (∀ pos, is_Some (fig_axes fig !! pos) → (pos ≤ ncols + 2 * k)%nat).

Lemma solution_panel_set_axes_ne solution_data ncols i fig pos ax :
  pos ≠ (ncols + i * 2 + 2)%nat →
  solution_panel solution_data ncols i fig →
  solution_panel solution_data ncols i (set_axes fig pos ax).
Proof.
  unfold solution_panel, placeholder_at. intros Hne.
  destruct (matched_solution solution_data i).
  - by apply grid_at_set_axes_ne.
  - cbn. by rewrite lookup_insert_ne.
Qed.

Lemma plot_test_step challenge_data solution_data ncols fig0 k e fig :
  (2 * length (test challenge_data) ≤ ncols)%nat →
  test challenge_data !! k = Some e →
  renders (test_input e) →
  (∀ solution, matched_solution solution_data k = Some solution →
               renders solution) →
  test_done challenge_data solution_data ncols fig0 k fig →
  ∃ fig', plot_test ncols solution_data fig k e = Ok fig' ∧
          test_done challenge_data solution_data ncols fig0 (S k) fig'.
Proof.
  intros Hcols He Hin Hsol (Hr & Hc & Ht & Hold & Hpanels & Hdom).
  pose proof (lookup_lt_Some _ _ _ He) as Hk.
  destruct (renders_plot_grid
              (default new_axes (fig_axes fig !! (ncols + k * 2 + 1)%nat))
              (test_input e) (test_title k " Input") Hin) as (ax_in & Hax_in & _).
  unfold plot_test.
  rewrite subplot_Ok by (rewrite Hr, Hc; lia).
  cbn [mbind result_bind]. fold (test_title k " Input"). rewrite Hax_in.
  cbn [mbind result_bind]. fold (test_title k " Solution").
  rewrite solution_test_spec, matched_solution_default.
  set (fig1 := set_axes fig (ncols + k * 2 + 1) ax_in).
  assert (fig_axes fig1 !! (ncols + k * 2 + 2)%nat = None) as Hfree.
  { cbn. rewrite lookup_insert_ne by lia. apply eq_None_not_Some.
    intros Hs. apply Hdom in Hs. lia. }
  assert (∃ fig',
    (if bool_decide (is_Some (matched_solution solution_data k))
     then
       ax_solution ← subplot fig1 (ncols + k * 2 + 2);
       match matched_solution solution_data k with
       | Some solution =>
           ax_solution ← plot_grid ax_solution solution
                           (test_title k " Solution") max_size_default;
           Ok (set_axes fig1 (ncols + k * 2 + 2) ax_solution)
       | None => Raise (IndexError "list index out of range")
       end
     else
       ax_solution ← subplot fig1 (ncols + k * 2 + 2);
       Ok (set_axes fig1 (ncols + k * 2 + 2)
             (placeholder ax_solution (test_title k " Solution"))))
    = Ok fig' ∧
    (∃ ax, fig' = set_axes fig1 (ncols + k * 2 + 2) ax) ∧
    solution_panel solution_data ncols k fig') as (fig' & Hfig' & [ax ->] & Hpanel).
  { rewrite subplot_Ok by (cbn; rewrite Hr, Hc; lia).
    cbn [mbind result_bind]. rewrite Hfree. cbn [default].
    unfold solution_panel.
    destruct (matched_solution solution_data k) as [solution|] eqn:Hm.
    - rewrite bool_decide_eq_true_2 by done.
      destruct (renders_plot_grid new_axes solution (test_title k " Solution")
                  (Hsol _ eq_refl)) as (ax & Hax & _).
      rewrite Hax. cbn [mbind result_bind]. eexists. split; [reflexivity|].
      split; [by eexists|]. by apply grid_at_set_axes.
    - rewrite bool_decide_eq_false_2 by (by intros [? ?]).
      eexists. split; [reflexivity|]. split; [by eexists|].
      unfold placeholder_at. cbn. by rewrite lookup_insert_eq. }
  exists (set_axes fig1 (ncols + k * 2 + 2) ax). split; [exact Hfig'|].
  split_and!; try done.
  - intros pos Hpos. cbn. rewrite !lookup_insert_ne by lia. by apply Hold.
  - intros i e' Hi He'. destruct (decide (i = k)) as [->|Hne].
    + assert (e' = e) as -> by congruence. split; [|done].
      apply grid_at_set_axes_ne; [lia|]. by apply grid_at_set_axes.
    + destruct (Hpanels i e') as [H1 H2]; [lia|done|]. split.
      * apply grid_at_set_axes_ne; [lia|]. by apply grid_at_set_axes_ne; [lia|].
      * apply solution_panel_set_axes_ne; [lia|].
        by apply solution_panel_set_axes_ne; [lia|].
  - intros pos. cbn. rewrite !lookup_insert_is_Some.
    intros [<-|[_ [<-|[_ Hs]]]]; [lia|lia|]. apply Hdom in Hs. lia.
Qed.

(** The figure [visualize_challenge] composes. *)
Lemma visualize_challenge_figure challenge_id challenge_data solution_data
    save_path :
  challenge_renders challenge_data solution_data →
  let ncols := Nat.max (length (train challenge_data) * 2)
                       (length (test challenge_data) * 2) in
  ∃ fig,
    visualize_challenge challenge_id challenge_data solution_data save_path
    = Ok (delivered save_path fig) ∧
    fig_nrows fig = 2%nat ∧ fig_ncols fig = ncols ∧
    (∀ i e, train challenge_data !! i = Some e →
       grid_at fig (i * 2 + 1) (input e) (train_title i " Input") ∧
       grid_at fig (i * 2 + 2) (output e) (train_title i " Output")) ∧
    (∀ i e, test challenge_data !! i = Some e →
       grid_at fig (ncols + i * 2 + 1) (test_input e) (test_title i " Input") ∧
       solution_panel solution_data ncols i fig) ∧
    (∀ pos, is_Some (fig_axes fig !! pos) →
       (1 ≤ pos ≤ 2 * length (train challenge_data))%nat ∨
       (ncols < pos ≤ ncols + 2 * length (test challenge_data))%nat).
Proof.
  intros (Htrain & Htest & Hsols) ncols.
  set (title := "ARC Challenge: " +:+ challenge_id).
  destruct (for_enumerate_invariant plot_train
              (train_done challenge_data ncols title) (train challenge_data) 0
              (mkFigure 2 ncols title ∅)) as (fig0 & Hfig0 & Hdone0).
  { split_and!; try done.
    - intros i e Hi. lia.
    - intros pos [ax Hax]. cbn in Hax. by rewrite lookup_empty in Hax. }
  { intros k e fig He Hinv. rewrite Forall_forall in Htrain.
    destruct (Htrain e (list_elem_of_lookup_2 _ _ _ He)) as [Hin Hout].
    apply (plot_train_step challenge_data ncols title k e fig); try done.
    unfold ncols. lia. }
  destruct Hdone0 as (Hr0 & Hc0 & Ht0 & Hpanels0 & Hdom0).
  destruct (for_enumerate_invariant (plot_test ncols solution_data)
              (test_done challenge_data solution_data ncols fig0)
              (test challenge_data) 0 fig0) as (fig & Hfig & Hdone).
  { split_and!; try done.
    - intros i e Hi. lia.
    - intros pos Hs. apply Hdom0 in Hs. unfold ncols. lia. }
  { intros k e fig He Hinv. rewrite Forall_forall in Htest.
    apply (plot_test_step challenge_data solution_data ncols fig0 k e fig);
      try done.
    - unfold ncols. lia.
    - by apply Htest, list_elem_of_lookup_2 with k.
    - intros solution Hm. apply (Hsols k); [by eapply lookup_lt_Some|].
      by rewrite matched_solution_default. }
  destruct Hdone as (Hr & Hc & Ht & Hold & Hpanels & Hdom).
  exists fig. split_and!; try done.
  - unfold visualize_challenge. fold ncols. fold title.
    rewrite Hfig0. cbn [mbind result_bind]. rewrite Hfig.
    cbn [mbind result_bind]. by destruct save_path.
  - intros i e He. pose proof (lookup_lt_Some _ _ _ He) as Hi.
    destruct (Hpanels0 i e Hi He) as [(a1 & Hl1 & Hp1) (a2 & Hl2 & Hp2)].
    split; [exists a1|exists a2]; (split; [|done]).
    + rewrite Hold; [done|unfold ncols; lia].
    + rewrite Hold; [done|unfold ncols; lia].
  - intros i e He. apply Hpanels; [by eapply lookup_lt_Some|done].
  - intros pos Hs. destruct (decide (pos ≤ ncols)%nat) as [Hle|Hgt].
    + left. rewrite Hold in Hs by done. apply Hdom0 in Hs. lia.
    + right. apply Hdom in Hs. lia.
Qed.




End visualize_challenge_facts.

Section visualize_challenge_spec.
Import Visualizer.


Lemma sample_renders :
  renders grid_3x3_a ∧ renders grid_3x3_b ∧ renders grid_3x3_c
  ∧ renders grid_3x3_d.
Proof. split_and!; eexists; vm_compute; reflexivity. Qed.

Lemma challenge_007bbfb7_renders :
  challenge_renders challenge_007bbfb7 (Some [grid_3x3_d]).
Proof.
  destruct sample_renders as (Ha & Hb & Hc & Hd).
  unfold challenge_renders, challenge_007bbfb7. cbn [train test].
  split; [|split].
  - apply Forall_cons_2; [|apply Forall_nil_2].
    cbn [input output]. split; [exact Ha|exact Hb].
  - apply Forall_cons_2; [|apply Forall_nil_2].
    cbn [test_input]. exact Hc.
  - intros i solution Hi Hs. destruct i as [|i]; cbn in Hi; [|lia].
    cbn in Hs. injection Hs as <-. exact Hd.
Qed.

Lemma challenge_two_tests_renders solution_data :
  solution_data = Some [grid_3x3_d] ∨ solution_data = None →
  challenge_renders challenge_two_tests solution_data.
Proof.
  destruct sample_renders as (Ha & Hb & Hc & Hd).
  intros Hs. unfold challenge_renders, challenge_two_tests. cbn [train test].
  split; [|split].
  - apply Forall_cons_2; [|apply Forall_nil_2].
    cbn [input output]. split; [exact Ha|exact Hb].
  - apply Forall_cons_2; [|apply Forall_cons_2; [|apply Forall_nil_2]];
      cbn [test_input]; [exact Hc|exact Ha].
  - intros i solution Hi Hl. destruct Hs as [-> | ->]; cbn in Hl.
    + destruct i as [|i]; cbn in Hl; [|destruct i; discriminate].
      injection Hl as <-. exact Hd.
    + destruct i; discriminate.
Qed.




End visualize_challenge_spec.

(** * Sampling challenges: [visualize_random_challenges] *)

Section string_facts.



End string_facts.

Section visualize_random_challenges_spec.
Import Visualizer.



Lemma dict_get_key {V} (d : dict V) (k : string) :
  k ∈ keys d → ∃ v, dict_get d k = Some v ∧ (k, v) ∈ d.
Proof.
  unfold keys. induction d as [|[k' v'] d IH]; simpl.
  - by intros ?%elem_of_nil.
  - intros Hk. destruct (decide (k' = k)) as [->|Hne].
    + exists v'. split; [done|left].
    + apply elem_of_cons in Hk as [->|Hk]; [done|].
      destruct (IH Hk) as (v & Hv & Hin). exists v. split; [done|by right].
Qed.

(** The sample drawn by [random.sample] consists of distinct elements of a
    population without repetitions. *)
Lemma random_sample_drawn {A} (population : list A) (k : Z) (chosen : list A) :
  NoDup population →
  random_sample population k (Ok chosen) →
  Z.of_nat (length chosen) = k ∧ NoDup chosen ∧ chosen ⊆ population.
Proof.
  intros Hnd Hs. inversion Hs as [|positions ? Hk Hlen Hpos Hall]; subst.
  split_and!.
  - by rewrite <- (Forall2_length _ _ _ Hall).
  - apply NoDup_alt. intros i j x Hi Hj.
    destruct (Forall2_lookup_r _ _ _ _ _ Hall Hi) as (pi & Hpi & Hxi).
    destruct (Forall2_lookup_r _ _ _ _ _ Hall Hj) as (pj & Hpj & Hxj).
    assert (pi = pj) as -> by exact (NoDup_lookup _ _ _ _ Hnd Hxi Hxj).
    exact (NoDup_lookup _ _ _ _ Hpos Hpi Hpj).
  - intros x Hx. apply list_elem_of_lookup in Hx as [i Hi].
    destruct (Forall2_lookup_r _ _ _ _ _ Hall Hi) as (p & _ & Hp).
    by eapply list_elem_of_lookup_2.
Qed.

(** One possible draw: the first [k] elements. *)
Lemma random_sample_take {A} (population : list A) (k : nat) :
  (k ≤ length population)%nat →
  random_sample population (Z.of_nat k) (Ok (take k population)).
Proof.
  intros Hk. apply (sample_drawn _ _ (seq 0 k)).
  - lia.
  - by rewrite length_seq.
  - apply NoDup_seq.
  - apply Forall2_same_length_lookup. split.
    + rewrite length_seq, length_take. lia.
    + intros i p x Hp Hx. apply lookup_seq in Hp as [-> _].
      by rewrite lookup_take_Some in Hx; destruct Hx.
Qed.

Lemma visualize_each_saves challenges solutions save_dir challenge_ids :
  (∀ id challenge_data, (id, challenge_data) ∈ challenges →
     challenge_renders challenge_data (dict_get solutions id)) →
  challenge_ids ⊆ keys challenges →
  ∃ written,
    visualize_each challenges solutions save_dir challenge_ids = Ok written ∧
    Forall2 (fun id o =>
               ∃ fig, o = Saved (path_join save_dir (challenge_file id)) fig)
            challenge_ids written.
Proof.
  intros Hrenders Hsub. unfold visualize_each.
  match goal with |- ∃ w, mapM ?f _ = _ ∧ _ => set (body := f) end.
  assert (∀ id, id ∈ challenge_ids →
            ∃ fig, body id = Ok (Saved (path_join save_dir (challenge_file id)) fig))
    as Hbody.
  { intros id Hid. destruct (dict_get_key challenges id (Hsub _ Hid))
      as (challenge_data & Hget & Hin).
    destruct (visualize_challenge_figure id challenge_data
                (dict_get solutions id)
                (Some (path_join save_dir (challenge_file id)))
                (Hrenders _ _ Hin)) as (fig & Hrun & _).
    exists fig. unfold body. by rewrite Hget. }
  destruct (mapM_result_Ok body challenge_ids) as (written & Hw & Hall).
  { intros id Hid. destruct (Hbody id Hid) as [fig Hfig]. by eexists. }
  exists written. split; [done|].
  apply Forall2_same_length_lookup. split; [by eapply Forall2_length|].
  intros i id o Hid Ho.
  destruct (Hbody id (list_elem_of_lookup_2 _ _ _ Hid)) as [fig Hfig].
  exists fig. pose proof (Forall2_lookup_lr _ _ _ _ _ _ Hall Hid Ho). congruence.
Qed.

Lemma saved_paths_of challenge_ids written save_dir :
  Forall2 (fun id o =>
             ∃ fig, o = Saved (path_join save_dir (challenge_file id)) fig)
          challenge_ids written →
  saved_paths written
  = (fun id => path_join save_dir (challenge_file id)) <$> challenge_ids.
Proof.
  induction 1 as [|id o ids os [fig ->] _ IH]; [done|].
  unfold saved_paths in *. cbn. by rewrite IH.
Qed.


Lemma sample_challenges_render id challenge_data :
  (id, challenge_data) ∈ sample_challenges →
  challenge_renders challenge_data (dict_get sample_solutions id).
Proof.
  unfold sample_challenges. intros Hin.
  apply elem_of_cons in Hin as [Heq|Hin].
  - injection Heq as -> ->. exact challenge_007bbfb7_renders.
  - apply list_elem_of_singleton in Hin. injection Hin as -> ->.
    apply challenge_two_tests_renders. by right.
Qed.



End visualize_random_challenges_spec.

(** * The statistics aggregator: [analyze_data_statistics] *)

Section builtin_facts.

Lemma py_min_Ok {A K} (ltb : K → K → bool) (key : A → K) (xs : list A) :
  xs ≠ [] → is_Ok (py_min ltb key xs).
Proof. destruct xs; [done|]. intros _. by eexists. Qed.

Lemma py_max_Ok {A K} (ltb : K → K → bool) (key : A → K) (xs : list A) :
  xs ≠ [] → is_Ok (py_max ltb key xs).
Proof. destruct xs; [done|]. intros _. by eexists. Qed.

Lemma bind_discard {A B} (m : result A) (k : result B) :
  is_Ok m → (m ≫= fun _ => k) = k.
Proof. by intros [a ->]. Qed.

Lemma nonempty_length {A} (l : list A) : (0 < length l)%nat → l ≠ [].
Proof. destruct l; simpl; [lia|done]. Qed.

End builtin_facts.

Section analyze_facts.
Import Explorer.

Definition is_2d (s : list nat) : Prop := ∃ h w, s = [h; w].

Lemma areas_Ok sizes :
  Forall is_2d sizes →
  ∃ l, areas sizes = Ok l ∧ length l = length sizes.
Proof.
  intros H2d. unfold areas.
  destruct (mapM_result_Ok
              (fun s => hw ← unpack2 s; Ok (hw.1 * hw.2)%nat) sizes)
    as (l & Hl & Hall).
  - intros s Hs. rewrite Forall_forall in H2d.
    destruct (H2d s Hs) as (h & w & ->). by eexists.
  - exists l. split; [done|]. symmetry. by eapply Forall2_length.
Qed.

(** Number of training examples of a dataset. *)
Definition total_train (challenges : dict Challenge) : nat :=
  length (challenges ≫= fun item => train item.2).

(** The accumulators after a prefix [seen] of the challenges and, inside the
    current challenge, a prefix [examples] of its training examples. *)
Definition scanned (seen : dict Challenge) (examples : list Example)
    (counted : nat) (acc : Acc) : Prop :=
  length (acc_train_counts acc) = counted ∧
  length (acc_test_counts acc) = counted ∧
  Forall is_2d (acc_input_sizes acc) ∧
  Forall is_2d (acc_output_sizes acc) ∧
  length (acc_input_sizes acc) = (total_train seen + length examples)%nat ∧
  length (acc_output_sizes acc) = (total_train seen + length examples)%nat ∧
  ∀ v, v ∈ acc_unique_values acc ↔
       occurs_in_training seen v ∨
       ∃ e, e ∈ examples ∧ (v ∈ concat (input e) ∨ v ∈ concat (output e)).

Lemma scan_example_step seen examples counted acc e :
  (∃ h w, matrix (input e) h w) → (∃ h w, matrix (output e) h w) →
  scanned seen examples counted acc →
  ∃ acc', scan_example acc e = Ok acc' ∧
          scanned seen (examples ++ [e]) counted acc'.
Proof.
  intros (h1 & w1 & Hin) (h2 & w2 & Hout) (Ht & Hte & Hi & Ho & Hli & Hlo & Hv).
  unfold scan_example.
  rewrite (np_array_matrix _ _ _ Hin), (np_array_matrix _ _ _ Hout).
  cbn [mbind result_bind]. eexists. split; [reflexivity|].
  unfold scanned. cbn [acc_train_counts acc_test_counts acc_input_sizes
                       acc_output_sizes acc_unique_values shape flatten data].
  split_and!; try done.
  - apply Forall_app. split; [done|]. constructor; [by eexists _, _|constructor].
  - apply Forall_app. split; [done|]. constructor; [by eexists _, _|constructor].
  - rewrite !length_app, Hli. simpl. lia.
  - rewrite !length_app, Hlo. simpl. lia.
  - intros v. rewrite !elem_of_union, !elem_of_list_to_set, Hv.
    split.
    + intros [[[Hd|(e' & He' & Hc)]|Hc]|Hc].
      * by left.
      * right. exists e'. split; [|done]. apply elem_of_app. by left.
      * right. exists e. split; [|by left]. apply elem_of_app. right. by left.
      * right. exists e. split; [|by right]. apply elem_of_app. right. by left.
    + intros [Hd|(e' & He' & Hc)]; [by do 3 left|].
      apply elem_of_app in He' as [He'|He'%list_elem_of_singleton].
      * do 2 left. right. by exists e'.
      * subst e'. destruct Hc; [left; by right|by right].
Qed.

Lemma total_train_snoc seen item :
  total_train (seen ++ [item]) = (total_train seen + length (train item.2))%nat.
Proof.
  unfold total_train. rewrite bind_app, length_app. simpl.
  by rewrite app_nil_r.
Qed.

Lemma occurs_in_training_snoc seen item v :
  occurs_in_training (seen ++ [item]) v ↔
  occurs_in_training seen v ∨
  ∃ e, e ∈ train item.2 ∧ (v ∈ concat (input e) ∨ v ∈ concat (output e)).
Proof.
  unfold occurs_in_training. split.
  - intros (item' & e & Hin & He & Hv).
    apply elem_of_app in Hin as [Hin|Hin%list_elem_of_singleton].
    + left. by exists item', e.
    + subst item'. right. by exists e.
  - intros [(item' & e & Hin & He & Hv)|(e & He & Hv)].
    + exists item', e. split; [|done]. apply elem_of_app. by left.
    + exists item, e. split; [|done]. apply elem_of_app. right. by left.
Qed.

Lemma scan_challenge_step seen counted acc item :
  (∀ e, e ∈ train item.2 →
     (∃ h w, matrix (input e) h w) ∧ (∃ h w, matrix (output e) h w)) →
  scanned seen [] counted acc →
  ∃ acc', scan_challenge acc item = Ok acc' ∧
          scanned (seen ++ [item]) [] (S counted) acc'.
Proof.
  intros Hm (Ht & Hte & Hi & Ho & Hli & Hlo & Hv). unfold scan_challenge.
  destruct (for_enumerate_invariant
              (fun acc (_ : nat) example => scan_example acc example)
              (fun j acc => scanned seen (take j (train item.2)) (S counted) acc)
              (train item.2) 0
              (mkAcc (acc_train_counts acc ++ [length (train item.2)])
                     (acc_test_counts acc ++ [length (test item.2)])
                     (acc_input_sizes acc) (acc_output_sizes acc)
                     (acc_unique_values acc)))
    as (acc' & Hacc' & Hs).
  - unfold scanned. cbn. rewrite !length_app. simpl.
    split_and!; try done; lia.
  - intros j e acc1 He Hinv.
    destruct (Hm e (list_elem_of_lookup_2 _ _ _ He)) as [Hin Hout].
    rewrite (take_S_r _ _ _ He). by apply scan_example_step.
  - exists acc'. split; [done|].
    rewrite firstn_all in Hs.
    destruct Hs as (Ht' & Hte' & Hi' & Ho' & Hli' & Hlo' & Hv').
    unfold scanned. rewrite total_train_snoc. simpl.
    split_and!; try done; try lia.
    intros v. rewrite Hv', occurs_in_training_snoc.
    split; [intros [?|?]; [by left; left|by left; right]|].
    intros [[?|?]|(e & He%elem_of_nil & _)]; [by left|by right|done].
Qed.

Lemma scan_all challenges :
  training_matrices challenges →
  ∃ acc,
    for_enumerate (fun acc (_ : nat) item => scan_challenge acc item) 0
      challenges (mkAcc [] [] [] [] ∅) = Ok acc ∧
    scanned challenges [] (length challenges) acc.
Proof.
  intros Hm.
  destruct (for_enumerate_invariant
              (fun acc (_ : nat) item => scan_challenge acc item)
              (fun k acc => scanned (take k challenges) [] k acc)
              challenges 0 (mkAcc [] [] [] [] ∅)) as (acc & Hacc & Hs).
  - unfold scanned, total_train. cbn. split_and!; try done.
    intros v. split; [by intros ?%elem_of_empty|].
    intros [(item & e & Hin%elem_of_nil & _)|(e & He%elem_of_nil & _)]; done.
  - intros k item acc He Hinv. rewrite (take_S_r _ _ _ He).
    apply scan_challenge_step; [|done].
    intros e Hin. by apply (Hm item e); [eapply list_elem_of_lookup_2|].
  - exists acc. split; [done|]. by rewrite firstn_all in Hs.
Qed.

Lemma sorted_strictly (s : gset Z) : StronglySorted Z.lt (sorted s).
Proof.
  unfold sorted.
  assert (StronglySorted Z.le (merge_sort Z.le (elements s))) as Hs.
  { apply (StronglySorted_merge_sort _). }
  assert (NoDup (merge_sort Z.le (elements s))) as Hnd.
  { rewrite merge_sort_Permutation. apply NoDup_elements. }
  induction Hs as [|x l Hl IH Hx]; [constructor|].
  apply NoDup_cons in Hnd as [Hnot Hnd].
  constructor; [by apply IH|].
  rewrite Forall_forall in Hx |- *. intros y Hy.
  specialize (Hx y Hy). assert (x ≠ y) by (by intros ->). lia.
Qed.

Lemma elem_of_sorted (s : gset Z) v : v ∈ sorted s ↔ v ∈ s.
Proof. unfold sorted. by rewrite merge_sort_Permutation, elem_of_elements. Qed.

End analyze_facts.

Section analyze_spec.
Import Explorer.

(** C2 (as amended): on a dataset with at least one challenge and one
    training example, whose training grids are rectangular matrices,
    [analyze_data_statistics] returns, and the distinct values it reports
    are exactly the values occurring in the input and output matrices of the
    training examples of the challenges (test examples are not scanned).  They
    are reported in strictly ascending order and, when those cells lie in
    [0, 9], all lie in [0, 9]. *)
Theorem analyze_unique_values (challenges : dict Challenge)
    (solutions : dict (list Grid)) :
  challenges ≠ [] →
  (0 < total_train challenges)%nat →
  training_matrices challenges →
  ∃ stats,
    analyze_data_statistics challenges solutions = Ok stats ∧
    (∀ v, v ∈ unique_values stats ↔ occurs_in_training challenges v) ∧
    StronglySorted Z.lt (unique_values stats) ∧
    ((∀ v, occurs_in_training challenges v → 0 ≤ v ≤ 9) →
     Forall (fun v => 0 ≤ v ≤ 9) (unique_values stats)).
Proof.
  intros Hne Htrain Hm.
  destruct (scan_all challenges Hm)
    as (acc & Hacc & Ht & Hte & Hi & Ho & Hli & Hlo & Hv).
  simpl in Hli, Hlo. rewrite Nat.add_0_r in Hli, Hlo.
  destruct (areas_Ok _ Hi) as (ia & Hia & Hlia).
  destruct (areas_Ok _ Ho) as (oa & Hoa & Hloa).
  assert (0 < length challenges)%nat as Hlen
    by (destruct challenges; [done|simpl; lia]).
  exists (mkStats (acc_train_counts acc) (acc_test_counts acc)
                  (acc_input_sizes acc) (acc_output_sizes acc)
                  (sorted (acc_unique_values acc))).
  split.
  - unfold analyze_data_statistics. rewrite Hacc. cbn [mbind result_bind].
    rewrite (bind_discard (py_min _ _ (acc_train_counts acc)))
      by (apply py_min_Ok, nonempty_length; lia).
    rewrite (bind_discard (py_max _ _ (acc_train_counts acc)))
      by (apply py_max_Ok, nonempty_length; lia).
    rewrite (bind_discard (py_min _ _ (acc_test_counts acc)))
      by (apply py_min_Ok, nonempty_length; lia).
    rewrite (bind_discard (py_max _ _ (acc_test_counts acc)))
      by (apply py_max_Ok, nonempty_length; lia).
    rewrite Hia. cbn [mbind result_bind]. rewrite Hoa. cbn [mbind result_bind].
    rewrite (bind_discard (py_min _ _ (acc_input_sizes acc)))
      by (apply py_min_Ok, nonempty_length; lia).
    rewrite (bind_discard (py_max _ _ (acc_input_sizes acc)))
      by (apply py_max_Ok, nonempty_length; lia).
    rewrite (bind_discard (py_min _ _ (acc_output_sizes acc)))
      by (apply py_min_Ok, nonempty_length; lia).
    rewrite (bind_discard (py_max _ _ (acc_output_sizes acc)))
      by (apply py_max_Ok, nonempty_length; lia).
    rewrite (bind_discard (py_min _ _ ia))
      by (apply py_min_Ok, nonempty_length; lia).
    rewrite (bind_discard (py_max _ _ ia))
      by (apply py_max_Ok, nonempty_length; lia).
    rewrite (bind_discard (py_min _ _ oa))
      by (apply py_min_Ok, nonempty_length; lia).
    rewrite (bind_discard (py_max _ _ oa))
      by (apply py_max_Ok, nonempty_length; lia).
    reflexivity.
  - cbn [unique_values].
    assert (∀ v, v ∈ sorted (acc_unique_values acc)
                 ↔ occurs_in_training challenges v) as Hmem.
    { intros v. rewrite elem_of_sorted, Hv. split; [|by left].
      intros [?|(e & He%elem_of_nil & _)]; done. }
    split_and!; [done|apply sorted_strictly|].
    intros Hpal. apply Forall_forall. intros v Hin. by apply Hpal, Hmem.
Qed.

Lemma analyze_unique_values_witness :
  ∃ stats,
    analyze_data_statistics sample_challenges sample_solutions = Ok stats ∧
    (∀ v, v ∈ unique_values stats ↔ occurs_in_training sample_challenges v).
Proof.
  destruct (analyze_unique_values sample_challenges sample_solutions)
    as (stats & Hrun & Hmem & _).
  - done.
  - vm_compute. lia.
  - intros item e Hitem He. unfold sample_challenges in Hitem.
    assert (e = mkExample grid_3x3_a grid_3x3_b) as ->.
    { apply elem_of_cons in Hitem as [->|Hitem].
      - by apply list_elem_of_singleton in He.
      - apply list_elem_of_singleton in Hitem as ->.
        by apply list_elem_of_singleton in He. }
    split; exists 3%nat, 3%nat; (split_and!; [lia|done|by repeat constructor]).
  - by exists stats.
Defined.

(** C2 as stated fails: value 2 occurs only in a test input; the
    aggregator returns and reports [1] alone. *)
Lemma analyze_misses_test_values :
  let challenges :=
    [("a", mkChallenge [mkExample [[1]] [[1]]] [mkTest [[2]]])] in
  ∃ stats,
    analyze_data_statistics challenges [] = Ok stats ∧
    unique_values stats = [1] ∧
    occurs_in_dataset challenges 2 ∧
    2 ∉ unique_values stats.
Proof.
  eexists. split; [by vm_compute|]. cbn [unique_values]. split_and!.
  - done.
  - right. eexists _, (mkTest [[2]]). split_and!; [by left|by left|].
    simpl. by left.
  - by intros ?%list_elem_of_singleton.
Qed.

(** C8: on an empty challenge mapping the aggregator raises the
    [ValueError] of [min] over the empty list of per-challenge counts; it
    does not return, and [main] lets the exception through. *)
Theorem analyze_empty_raises (solutions : dict (list Grid)) :
  analyze_data_statistics [] solutions
  = Raise (ValueError "min() arg is an empty sequence") ∧
  main [] solutions = Raise (ValueError "min() arg is an empty sequence").
Proof. split; reflexivity. Qed.

End analyze_spec.

(** * The interest classifier: [find_interesting_challenges] *)

Section classify_facts.
Import Explorer.

Lemma np_array_rectangular g :
  rectangular g → np_array g = Ok (mkArray (grid_shape g) g).
Proof.
  intros [w Hw]. destruct g as [|r g']; [done|].
  assert (length r = w) as <- by (by inversion Hw).
  unfold np_array. by rewrite (forallb_row_lengths _ _ Hw).
Qed.

Lemma length_concat_rows (g : Grid) w :
  Forall (fun r => length r = w) g → length (concat g) = (length g * w)%nat.
Proof.
  induction 1 as [|r g Hr _ IH]; simpl; [done|].
  rewrite length_app, IH, Hr. lia.
Qed.

Lemma np_size_rectangular g :
  rectangular g → np_size (mkArray (grid_shape g) g) = grid_area g.
Proof.
  intros [w Hw]. unfold np_size, grid_area. destruct g as [|r g']; [done|].
  assert (length r = w) as <- by (by inversion Hw).
  rewrite (length_concat_rows _ _ Hw). cbn [shape grid_shape foldr]. lia.
Qed.

Definition found_of (c : category) (found : Found) : list string :=
  match c with
  | Large => found_large found
  | Small => found_small found
  | ManyColors => found_many found
  | Simple => found_simple found
  | SizeChanging => found_size found
  end.

Lemma elem_of_add_if (b : bool) (P : Prop) id id' l :
  (b = true ↔ P) →
  id' ∈ add_if b id l ↔ id' ∈ l ∨ (id' = id ∧ P).
Proof.
  intros Hb. unfold add_if. destruct b.
  - rewrite elem_of_app, list_elem_of_singleton. split.
    + intros [?| ->]; [by left|]. right. split; [done|]. by apply Hb.
    + intros [?|[-> _]]; [by left|by right].
  - split; [by left|]. intros [?|[_ HP]]; [done|]. by apply Hb in HP.
Qed.

Lemma classify_example_step id found e :
  rectangular (input e) → rectangular (output e) →
  ∃ found',
    classify_example id found e = Ok found' ∧
    ∀ c id', id' ∈ found_of c found' ↔
             id' ∈ found_of c found ∨ (id' = id ∧ in_category c e).
Proof.
  intros Hin Hout. unfold classify_example.
  rewrite (np_array_rectangular _ Hin), (np_array_rectangular _ Hout).
  cbn [mbind result_bind]. eexists. split; [reflexivity|].
  rewrite !(np_size_rectangular _ Hin), !(np_size_rectangular _ Hout).
  unfold count_unique, flatten. cbn [data shape].
  fold (grid_colors (input e)) (grid_colors (output e)).
  intros [] id'; cbn [found_of found_large found_small found_many found_simple
                      found_size in_category]; apply elem_of_add_if.
  - rewrite orb_true_iff, !Nat.ltb_lt. done.
  - rewrite orb_true_iff, !Nat.ltb_lt. done.
  - rewrite orb_true_iff, !Nat.ltb_lt. done.
  - rewrite andb_true_iff, !Nat.leb_le. done.
  - rewrite negb_true_iff, bool_decide_eq_false. done.
Qed.

(** [id] was recorded for category [c] by a training example of [seen]. *)
Definition recorded (seen : dict Challenge) (extra : string)
    (examples : list Example) (c : category) (id : string) : Prop :=
  (∃ item e, item ∈ seen ∧ item.1 = id ∧ e ∈ train item.2 ∧ in_category c e)
  ∨ (id = extra ∧ ∃ e, e ∈ examples ∧ in_category c e).

Lemma classify_challenge_step seen found item :
  (∀ e, e ∈ train item.2 → rectangular (input e) ∧ rectangular (output e)) →
  (∀ c id, id ∈ found_of c found ↔ recorded seen "" [] c id) →
  ∃ found',
    classify_challenge found item = Ok found' ∧
    ∀ c id, id ∈ found_of c found' ↔ recorded (seen ++ [item]) "" [] c id.
Proof.
  intros Hrect Hfound. unfold classify_challenge.
  destruct (for_enumerate_invariant
              (fun found (_ : nat) example =>
                 classify_example item.1 found example)
              (fun j found =>
                 ∀ c id, id ∈ found_of c found ↔
                         recorded seen item.1 (take j (train item.2)) c id)
              (train item.2) 0 found) as (found' & Hrun & Hinv).
  - intros c id. rewrite Hfound. unfold recorded. simpl.
    split; (intros [?|(_ & e & He%elem_of_nil & _)]; [by left|done]).
  - intros j e found1 He Hinv.
    destruct (Hrect e (list_elem_of_lookup_2 _ _ _ He)) as [Hin Hout].
    destruct (classify_example_step item.1 found1 e Hin Hout)
      as (found2 & Hstep & Hmem).
    exists found2. split; [done|]. intros c id.
    rewrite Hmem, Hinv, (take_S_r _ _ _ He). unfold recorded.
    split.
    + intros [[?|(-> & e' & He' & Hc)]|(-> & Hc)].
      * by left.
      * right. split; [done|]. exists e'. split; [|done].
        apply elem_of_app. by left.
      * right. split; [done|]. exists e. split; [|done].
        apply elem_of_app. right. by left.
    + intros [?|(-> & e' & He' & Hc)]; [by left; left|].
      apply elem_of_app in He' as [He'|He'%list_elem_of_singleton].
      * left. right. split; [done|]. by exists e'.
      * subst e'. by right.
  - exists found'. split; [done|]. intros c id.
    rewrite Hinv, firstn_all. unfold recorded. split.
    + intros [(item' & e & Hitem & Hid & He & Hc)|(-> & e & He & Hc)].
      * left. exists item', e. split_and!; try done. apply elem_of_app. by left.
      * left. exists item, e. split_and!; try done.
        apply elem_of_app. right. by left.
    + intros [(item' & e & Hitem & Hid & He & Hc)|(_ & e & He%elem_of_nil & _)];
        [|done].
      apply elem_of_app in Hitem as [Hitem|Hitem%list_elem_of_singleton].
      * left. by exists item', e.
      * subst item'. right. split; [done|]. by exists e.
Qed.

Lemma elem_of_list_set l id : id ∈ list_set l ↔ id ∈ l.
Proof. unfold list_set. by rewrite elem_of_elements, elem_of_list_to_set. Qed.

Lemma NoDup_list_set l : NoDup (list_set l).
Proof. unfold list_set. apply (NoDup_elements (C := gset string)). Qed.

(** What [find_interesting_challenges] returns. *)
Lemma find_interesting_challenges_spec challenges solutions :
  training_rectangular challenges →
  ∃ r,
    find_interesting_challenges challenges solutions = Ok r ∧
    ∀ c id, id ∈ classified c r ↔
            ∃ item e, item ∈ challenges ∧ item.1 = id ∧ e ∈ train item.2
                      ∧ in_category c e.
Proof.
  intros Hrect.
  destruct (for_enumerate_invariant
              (fun found (_ : nat) item => classify_challenge found item)
              (fun k found =>
                 ∀ c id, id ∈ found_of c found ↔
                         recorded (take k challenges) "" [] c id)
              challenges 0 (mkFound [] [] [] [] [])) as (found & Hrun & Hinv).
  - intros c id. unfold recorded. split.
    + by destruct c; intros ?%elem_of_nil.
    + intros [(item & e & Hitem%elem_of_nil & _)|(_ & e & He%elem_of_nil & _)];
        done.
  - intros k item found He Hinv. rewrite (take_S_r _ _ _ He).
    apply classify_challenge_step; [|done].
    intros e Hin. by apply (Hrect item e); [eapply list_elem_of_lookup_2|].
  - rewrite firstn_all in Hinv. eexists.
    split; [unfold find_interesting_challenges; by rewrite Hrun|].
    intros c id.
    assert (id ∈ found_of c found ↔
            ∃ item e, item ∈ challenges ∧ item.1 = id ∧ e ∈ train item.2
                      ∧ in_category c e) as <-.
    { rewrite Hinv. unfold recorded. split; [|by left].
      intros [?|(_ & e & He%elem_of_nil & _)]; done. }
    destruct c; cbn [classified large_grids small_grids many_colors
                     simple_patterns size_changes found_of];
      apply elem_of_list_set.
Qed.

End classify_facts.

Section classify_spec.
Import Explorer.

Lemma dict_key_unique {V} (d : dict V) k (v1 v2 : V) :
  NoDup (keys d) → (k, v1) ∈ d → (k, v2) ∈ d → v1 = v2.
Proof.
  unfold keys. induction d as [|[k' v'] d IH]; simpl.
  - by intros _ ?%elem_of_nil.
  - intros [Hnot Hnd]%NoDup_cons H1 H2.
    apply elem_of_cons in H1 as [H1|H1];
      apply elem_of_cons in H2 as [H2|H2]; simplify_eq; try done.
    + destruct Hnot. apply list_elem_of_fmap. by exists (k', v2).
    + destruct Hnot. apply list_elem_of_fmap. by exists (k', v1).
    + by apply IH.
Qed.

Lemma example_ones_twos_categories :
  in_category Small example_ones_twos ∧
  in_category Simple example_ones_twos ∧
  ¬ in_category ManyColors example_ones_twos ∧
  ¬ in_category SizeChanging example_ones_twos ∧
  ¬ in_category Large example_ones_twos.
Proof.
  split_and!.
  - left. vm_compute. lia.
  - split; vm_compute; lia.
  - intros [H|H]; vm_compute in H; lia.
  - by intros H.
  - intros [H|H]; vm_compute in H; lia.
Qed.

(** C6 (as amended): a challenge with the training example
    [[1,1],[1,1]] -> [[2,2],[2,2]] is classified "small" and "simple"; it is
    classified "many colors" or "size-changing" only if another of its
    training examples meets that condition, and "large" exactly when one of
    its training examples has an input or output of more than 200 cells
    (test examples are not looked at). *)
Theorem find_interesting_ones_twos (challenges : dict Challenge)
    (solutions : dict (list Grid)) (challenge_id : string)
    (challenge_data : Challenge) :
  NoDup (keys challenges) →
  training_rectangular challenges →
  (challenge_id, challenge_data) ∈ challenges →
  example_ones_twos ∈ train challenge_data →
  ∃ r,
    find_interesting_challenges challenges solutions = Ok r ∧
    challenge_id ∈ small_grids r ∧
    challenge_id ∈ simple_patterns r ∧
    (challenge_id ∈ many_colors r →
     ∃ e, e ∈ train challenge_data ∧ e ≠ example_ones_twos
          ∧ in_category ManyColors e) ∧
    (challenge_id ∈ size_changes r →
     ∃ e, e ∈ train challenge_data ∧ e ≠ example_ones_twos
          ∧ in_category SizeChanging e) ∧
    (challenge_id ∈ large_grids r ↔
     ∃ e, e ∈ train challenge_data ∧
          (200 < grid_area (input e) ∨ 200 < grid_area (output e))%nat).
Proof.
  intros Hnd Hrect Hin He0.
  destruct (find_interesting_challenges_spec challenges solutions Hrect)
    as (r & Hrun & Hspec).
  destruct example_ones_twos_categories as (Hsmall & Hsimple & Hmany & Hsize & Hlarge).
  assert (∀ c, challenge_id ∈ classified c r ↔
               ∃ e, e ∈ train challenge_data ∧ in_category c e) as Hown.
  { intros c. rewrite Hspec. split.
    - intros ([id ch] & e & Hitem & Hid & He & Hc). simpl in *. subst id.
      rewrite (dict_key_unique _ _ _ _ Hnd Hin Hitem). by exists e.
    - intros (e & He & Hc). by exists (challenge_id, challenge_data), e. }
  exists r. split_and!; try done.
  - apply (Hown Small). by exists example_ones_twos.
  - apply (Hown Simple). by exists example_ones_twos.
  - intros (e & He & Hc)%(Hown ManyColors). exists e. split_and!; try done.
    by intros ->.
  - intros (e & He & Hc)%(Hown SizeChanging). exists e. split_and!; try done.
    by intros ->.
  - apply (Hown Large).
Qed.

Lemma find_interesting_ones_twos_witness :
  ∃ r,
    find_interesting_challenges
      [("c", mkChallenge [example_ones_twos] [mkTest grid_3x3_a])] [] = Ok r ∧
    "c" ∈ small_grids r ∧ "c" ∈ simple_patterns r.
Proof.
  destruct (find_interesting_ones_twos
              [("c", mkChallenge [example_ones_twos] [mkTest grid_3x3_a])] []
              "c" (mkChallenge [example_ones_twos] [mkTest grid_3x3_a]))
    as (r & Hrun & Hsmall & Hsimple & _).
  - apply NoDup_singleton.
  - intros item e Hitem He.
    apply list_elem_of_singleton in Hitem as ->.
    apply list_elem_of_singleton in He as ->.
    split; exists 2%nat; by repeat constructor.
  - by left.
  - by left.
  - by exists r.
Defined.

(** C6 as stated fails on "large": the only grid of more than 200 cells is
    a test input (one row of 201 cells); the challenge has an example of
    area above 200 and is not classified "large". *)
Lemma find_interesting_ignores_test_inputs :
  let challenge_data :=
    mkChallenge [example_ones_twos] [mkTest [replicate 201 0]] in
  ∃ r,
    find_interesting_challenges [("c", challenge_data)] [] = Ok r ∧
    example_ones_twos ∈ train challenge_data ∧
    (∃ e, e ∈ test challenge_data ∧ (200 < grid_area (test_input e))%nat) ∧
    "c" ∉ large_grids r.
Proof.
  eexists. split; [by vm_compute|]. split_and!.
  - by left.
  - eexists. split; [by left|]. vm_compute. lia.
  - cbn [large_grids]. by intros ?%elem_of_nil.
Qed.

End classify_spec.

(** * The integer-frequency histogram *)

Section counter_facts.
Import Histogram.

(** Occurrences of [i] in [xs]. *)
Definition occurrences (i : Z) (xs : list Z) : nat :=
  length (filter (fun x => x = i) xs).

Lemma counter_get_add c x i :
  counter_get (counter_add c x) i
  = (counter_get c i + if decide (x = i) then 1 else 0)%nat.
Proof.
  induction c as [|[k n] c IH]; simpl.
  - repeat case_decide; lia.
  - repeat case_decide; subst; simpl; repeat case_decide; try lia; try done.
Qed.

Lemma counter_get_foldl c xs i :
  counter_get (foldl counter_add c xs) i
  = (counter_get c i + occurrences i xs)%nat.
Proof.
  revert c. induction xs as [|x xs IH]; intros c; simpl.
  - unfold occurrences. simpl. lia.
  - rewrite IH, counter_get_add. unfold occurrences.
    rewrite filter_cons. case_decide; simpl; lia.
Qed.

Lemma counter_get_Counter xs i :
  counter_get (Counter xs) i = occurrences i xs.
Proof. unfold Counter. by rewrite counter_get_foldl. Qed.

Definition sum (l : list nat) : nat := foldr Nat.add 0%nat l.

Lemma sum_values_add c x : sum (counter_add c x).*2 = S (sum c.*2).
Proof.
  unfold sum. induction c as [|[k n] c IH]; [done|].
  cbn [counter_add]. case_decide; cbn [fmap list_fmap snd foldr] in *; [done|].
  rewrite IH. lia.
Qed.

Lemma sum_values_foldl c xs :
  sum (foldl counter_add c xs).*2 = (sum c.*2 + length xs)%nat.
Proof.
  revert c. induction xs as [|x xs IH]; intros c; simpl; [lia|].
  rewrite IH, sum_values_add. lia.
Qed.

Lemma counter_add_positive c x :
  Forall (fun kv => (0 < kv.2)%nat) c →
  Forall (fun kv => (0 < kv.2)%nat) (counter_add c x) ∧ counter_add c x ≠ [].
Proof.
  induction 1 as [|[k n] c Hn Hc [IH _]]; cbn [counter_add].
  - split; [|done]. apply Forall_cons_2; [cbn; lia|apply Forall_nil_2].
  - cbn [snd] in Hn.
    case_decide; (split; [|done]).
    + apply Forall_cons_2; [cbn [snd]; lia|assumption].
    + apply Forall_cons_2; [cbn [snd]; lia|assumption].
Qed.

Lemma Counter_positive xs :
  Forall (fun kv => (0 < kv.2)%nat) (Counter xs) ∧ (xs ≠ [] → Counter xs ≠ []).
Proof.
  unfold Counter.
  assert (∀ c, Forall (fun kv => (0 < kv.2)%nat) c →
               Forall (fun kv => (0 < kv.2)%nat) (foldl counter_add c xs)
               ∧ (c ≠ [] ∨ xs ≠ [] → foldl counter_add c xs ≠ [])) as Hgen.
  { induction xs as [|x xs IH]; intros c Hc; simpl.
    - split; [done|]. by intros [?|?].
    - destruct (counter_add_positive c x Hc) as [Hc' Hne].
      destruct (IH _ Hc') as [H1 H2]. split; [done|]. intros _. apply H2. by left. }
  destruct (Hgen [] (Forall_nil_2 _)) as [H1 H2]. split; [done|].
  intros Hne. apply H2. by right.
Qed.

Lemma filter_positive_all (c : counts) :
  Forall (fun kv => (0 < kv.2)%nat) c →
  filter (fun kv => (0 < kv.2)%nat) c = c.
Proof.
  induction 1 as [|kv c Hkv _ IH]; [done|].
  rewrite filter_cons. case_decide; [by rewrite IH|done].
Qed.

Lemma occurrences_cons i x xs :
  occurrences i (x :: xs)
  = ((if decide (x = i) then 1 else 0) + occurrences i xs)%nat.
Proof. unfold occurrences. rewrite filter_cons. by case_decide. Qed.

Lemma sum_occurrences_cons x xs (indices : list Z) :
  sum ((fun i => occurrences i (x :: xs)) <$> indices)
  = (occurrences x indices + sum ((fun i => occurrences i xs) <$> indices))%nat.
Proof.
  unfold sum. induction indices as [|i indices IH]; [done|].
  cbn [fmap list_fmap foldr] in *. rewrite IH, !occurrences_cons.
  repeat case_decide; subst; try done; lia.
Qed.

Lemma occurrences_integers x : 0 ≤ x ≤ 9 → occurrences x integers = 1%nat.
Proof.
  intros Hx.
  assert (x = 0 ∨ x = 1 ∨ x = 2 ∨ x = 3 ∨ x = 4 ∨ x = 5 ∨ x = 6 ∨ x = 7
          ∨ x = 8 ∨ x = 9) as Hcases by lia.
  repeat (destruct Hcases as [-> | Hcases]; [reflexivity|]).
  subst. reflexivity.
Qed.


(** An integer outside the palette is counted in no bar. *)
Lemma occurrences_integers_outside x :
  ¬ (0 ≤ x ≤ 9) → occurrences x integers = 0%nat.
Proof.
  intros Hx. unfold occurrences, integers. cbn [seq fmap list_fmap].
  rewrite !filter_cons, filter_nil.
  repeat (case_decide; [lia|]). done.
Qed.

Lemma print_statistics_Ok xs :
  xs ≠ [] →
  ∃ st, print_statistics (Counter xs) = Ok st ∧ total st = length xs.
Proof.
  intros Hne. destruct (Counter_positive xs) as [Hpos Hnonempty].
  specialize (Hnonempty Hne). unfold print_statistics.
  destruct (py_max_Ok Nat.ltb snd (Counter xs) Hnonempty) as [mc ->].
  rewrite (filter_positive_all _ Hpos).
  destruct (py_min_Ok Nat.ltb snd (Counter xs) Hnonempty) as [lc ->].
  cbn [mbind result_bind]. eexists. split; [reflexivity|].
  cbn [total]. unfold Counter. fold sum. by rewrite sum_values_foldl.
Qed.

End counter_facts.

Section histogram_spec.
Import Histogram.

(** The integers a run of [main] collects for the given flags. *)
Definition selected (args : Args)
    (train_challenges : dict Challenge) (train_solutions : dict (list Grid))
    (test_challenges : dict Challenge) (test_solutions : dict (list Grid))
  : list Z :=
  (if test_only args then []
   else extract_all_integers train_challenges train_solutions)
  ++ (if training_only args then []
      else extract_all_integers test_challenges test_solutions).

Lemma create_histogram_frequencies xs title :
  frequencies (create_histogram xs title).1
  = (fun i => occurrences i xs) <$> integers ∧
  total_count (create_histogram xs title).1
  = sum (frequencies (create_histogram xs title).1) ∧
  (create_histogram xs title).2 = Counter xs.
Proof.
  unfold create_histogram. cbn [fst snd frequencies total_count].
  split_and!; [|done|done].
  apply list_fmap_ext. intros _ i _. apply counter_get_Counter.
Qed.

Lemma main_report_run xs title_parts :
  ∃ r, main_report xs title_parts = Ok r ∧
       all_integers r = xs ∧
       (xs = [] → report r = None) ∧
       (xs ≠ [] →
        ∃ title st, report r = Some ((create_histogram xs title).1, st) ∧
                    print_statistics (Counter xs) = Ok st ∧
                    total st = length xs).
Proof.
  unfold main_report. destruct xs as [|x xs'].
  - eexists. split; [reflexivity|]. by split_and!.
  - destruct (print_statistics_Ok (x :: xs')) as (st & Hst & Htotal); [done|].
    cbv zeta.
    set (title := "ARC Challenge Integer Distribution ("
                  +:+ String.concat " + " title_parts +:+ " Data)").
    pose proof (create_histogram_frequencies (x :: xs') title) as (_ & _ & Hc).
    destruct (create_histogram (x :: xs') title) as [figure counter] eqn:Ech.
    cbn [snd] in Hc. subst counter. rewrite Hst.
    cbn [mbind result_bind]. eexists. split; [reflexivity|].
    split_and!; [done|done|]. intros _. exists title, st.
    rewrite Ech. by split_and!.
Qed.

(** One run of [main]: it returns, with the selected integers, and reports
    unless nothing was selected. *)
Lemma main_run args tc tsol ec esol :
  let xs := selected args tc tsol ec esol in
  ∃ r, main args tc tsol ec esol = Ok r ∧
       all_integers r = xs ∧
       (xs = [] → report r = None) ∧
       (xs ≠ [] →
        ∃ title st, report r = Some ((create_histogram xs title).1, st) ∧
                    print_statistics (Counter xs) = Ok st ∧
                    total st = length xs).
Proof.
  unfold main, selected.
  destruct (test_only args), (training_only args); cbn [negb];
    cbn [app]; rewrite ?app_nil_r; apply main_report_run.
Qed.


End histogram_spec.

Section histogram_samples.
Import Histogram.


(** C3 at a tie: a dataset whose only cells are two 1s (scanned first) and
    two 0s.  The text box of the figure names 0 as most and least common
    value, the lowest index; the printed statistics name 1, the value met
    first. *)
Theorem histogram_tie_reports_disagree :
  let train_challenges :=
    [("a", mkChallenge [mkExample [[1; 1]] [[0; 0]]] [])] in
  ∃ figure statistics,
    main (mkArgs false false) train_challenges [] [] []
    = Ok (mkRun [1; 1; 0; 0] (Some (figure, statistics))) ∧
    frequencies figure = [2; 2; 0; 0; 0; 0; 0; 0; 0; 0]%nat ∧
    box_most_common figure = 0 ∧
    box_least_common figure = 0 ∧
    most_common statistics = (1, 2%nat) ∧
    least_common statistics = (1, 2%nat) ∧
    ratio statistics = (2%nat, 2%nat).
Proof.
  eexists _, _. split; [vm_compute; reflexivity|].
  cbn [frequencies box_most_common box_least_common most_common least_common
       ratio]. by split_and!.
Qed.

End histogram_samples.

(** * Further properties of the renderer *)

Section slicing_facts.

Lemma clip_index_range n i : 0 ≤ clip_index n i ≤ Z.of_nat n.
Proof.
  unfold clip_index.
  repeat match goal with |- context [?a <? ?b] => destruct (Z.ltb_spec a b) end;
    lia.
Qed.

Lemma slice_indices_length n start stop :
  ((slice_indices n start stop).2 ≤ n)%nat.
Proof.
  unfold slice_indices. cbn [snd].
  pose proof (clip_index_range n start). pose proof (clip_index_range n stop).
  lia.
Qed.

Lemma mapM_result_Raise {A B} (f : A → result B) (P : exn → Prop) (l : list A) :
  (∀ x, x ∈ l → is_Ok (f x) ∨ ∃ e, f x = Raise e ∧ P e) →
  (∃ x, x ∈ l ∧ ¬ is_Ok (f x)) →
  ∃ e, mapM f l = Raise e ∧ P e.
Proof.
  induction l as [|x l IH]; intros Hall (x0 & Hx0 & Hbad).
  - by apply elem_of_nil in Hx0.
  - cbn. destruct (Hall x) as [[y Hy]|(e & He & HP)]; [left| |].
    + rewrite Hy. cbn.
      destruct IH as (e & He & HP).
      * intros x' Hx'. apply Hall. by right.
      * exists x0. split; [|done].
        apply elem_of_cons in Hx0 as [->|?]; [|done].
        destruct Hbad. by eexists.
      * exists e. by rewrite He.
    + exists e. by rewrite He.
Qed.

Lemma lookup_concat_uniform {A} (rows : list (list A)) (w i j : nat) :
  Forall (fun r => length r = w) rows → (j < w)%nat →
  concat rows !! (i * w + j)%nat = rows !! i ≫= (.!! j).
Proof.
  intros Hrows Hj. revert i.
  induction Hrows as [|r rows Hr _ IH]; intros i; [by destruct i|].
  destruct i as [|i]; cbn [concat].
  - rewrite lookup_app_l by lia. done.
  - rewrite lookup_app_r by lia.
    replace (S i * w + j - length r)%nat with (i * w + j)%nat by lia.
    apply IH.
Qed.

End slicing_facts.

#[global] Instance is_Ok_dec {A} (m : result A) : Decision (is_Ok m).
Proof.
  destruct m as [a|e]; [left; by exists a|right; by intros [a Ha]].
Defined.

Section plot_grid_more.
Import Visualizer.

(** Cells [plot_grid] can draw: the padding mark or a palette code. *)
Definition drawable (g : Grid) : Prop :=
  Forall (Forall (fun v => v = -1 ∨ 0 ≤ v ≤ 9)) g.

(** The rectangle [draw_cell] makes of value [v] at row [i], column [j]. *)
Definition cell_rectangle (i j : nat) (v : Z) : Rectangle :=
  if decide (v = -1) then mkRect (j, i) PADDING_COLOR "#D0D0D0"
  else mkRect (j, i) (default "" (COLOR_MAP !! v)) "gray".

Lemma COLOR_MAP_Some v c : COLOR_MAP !! v = Some c → 0 ≤ v ≤ 9.
Proof.
  intros H. apply elem_of_list_to_map_2 in H.
  repeat (apply elem_of_cons in H as [H|H]; [injection H as -> _; lia|]).
  by apply elem_of_nil in H.
Qed.

Lemma draw_cell_spec a i j :
  match cell (data a) i j with
  | None => draw_cell a i j = Raise (IndexError "index out of bounds")
  | Some v =>
      if decide (v = -1 ∨ 0 ≤ v ≤ 9)
      then draw_cell a i j = Ok (cell_rectangle i j v)
      else draw_cell a i j = Raise (KeyError (pretty v))
  end.
Proof.
  unfold draw_cell, getitem2, cell, cell_rectangle.
  destruct (data a !! i ≫= lookup j) as [v|]; [|done].
  cbn [mbind result_bind].
  destruct (decide (v = -1)) as [->|Hne].
  - by rewrite decide_True by (by left).
  - destruct (COLOR_MAP !! v) as [c|] eqn:Hc.
    + apply COLOR_MAP_Some in Hc as Hv. by rewrite decide_True by (by right).
    + rewrite decide_False; [done|]. intros [?|Hv]; [done|].
      destruct (COLOR_MAP_palette v Hv) as [c' Hc']. congruence.
Qed.

Lemma drawable_cell g i j v : drawable g → cell g i j = Some v → v = -1 ∨ 0 ≤ v ≤ 9.
Proof.
  unfold drawable, cell. rewrite Forall_forall. intros Hp Hc.
  destruct (g !! i) as [r|] eqn:Hr; simpl in Hc; [|done].
  specialize (Hp r (list_elem_of_lookup_2 _ _ _ Hr)).
  rewrite Forall_forall in Hp. apply Hp. by eapply list_elem_of_lookup_2.
Qed.

Lemma drawable_cells g :
  (∀ i j v, cell g i j = Some v → v = -1 ∨ 0 ≤ v ≤ 9) → drawable g.
Proof.
  intros Hc. apply Forall_forall. intros r Hr. apply Forall_forall. intros v Hv.
  apply list_elem_of_lookup in Hr as [i Hi]. apply list_elem_of_lookup in Hv as [j Hj].
  apply (Hc i j). unfold cell. by rewrite Hi.
Qed.

(** The shape test of [plot_grid]: it gets past [np.array] and the
    unpacking of the shape exactly on matrices. *)
Lemma np_array_unpack g a h w :
  np_array g = Ok a → unpack2 (shape a) = Ok (h, w) →
  a = mkArray [h; w] g ∧ matrix g h w.
Proof.
  destruct g as [|r g']; cbn [np_array].
  - intros [= <-]. done.
  - destruct (forallb _ _) eqn:Hb; [|done]. intros [= <-]. cbn.
    intros [= <- <-]. split; [done|]. split_and!; [lia|done|].
    apply Forall_forall. intros r' Hr'.
    rewrite forallb_forall in Hb. apply Nat.eqb_eq, Hb.
    by apply list_elem_of_In.
Qed.

Lemma plot_grid_display_matrix g cap d :
  plot_grid_display g cap = Ok d → ∃ h w, matrix g h w.
Proof.
  unfold plot_grid_display.
  destruct (np_array g) as [a|] eqn:Ha; [|done]. cbn [mbind result_bind].
  destruct (unpack2 (shape a)) as [[h w]|] eqn:Hs; [|done].
  intros _. exists h, w. by eapply np_array_unpack.
Qed.

(** One dimension below the cap and the other above it: the block
    assignment cannot broadcast. *)
Lemma plot_grid_display_mixed g h w cap :
  matrix g h w →
  (Z.of_nat h < cap ∧ cap < Z.of_nat w) ∨ (Z.of_nat w < cap ∧ cap < Z.of_nat h) →
  plot_grid_display g cap
  = Raise (ValueError "could not broadcast input array").
Proof.
  intros Hm Hmix.
  assert (0 < h)%nat as Hh by (by destruct Hm).
  unfold plot_grid_display.
  rewrite (np_array_matrix _ _ _ Hm). cbn [mbind result_bind shape unpack2 fst snd].
  replace ((Z.of_nat h <? cap) || (Z.of_nat w <? cap)) with true
    by (symmetry; apply orb_true_iff; lia).
  unfold np_full. replace (cap <? 0) with false by lia.
  cbn [orb mbind result_bind]. unfold setitem_slice2. cbn [shape data].
  pose proof (slice_indices_length (Z.to_nat cap)
                ((cap - Z.of_nat h) / 2)
                ((cap - Z.of_nat h) / 2 + Z.of_nat h)) as Hr.
  pose proof (slice_indices_length (Z.to_nat cap)
                ((cap - Z.of_nat w) / 2)
                ((cap - Z.of_nat w) / 2 + Z.of_nat w)) as Hc.
  destruct (slice_indices (Z.to_nat cap) ((cap - Z.of_nat h) / 2) _)
    as [rlo rlen].
  destruct (slice_indices (Z.to_nat cap) ((cap - Z.of_nat w) / 2) _)
    as [clo clen].
  cbn [snd] in Hr, Hc.
  replace ((Nat.eqb h rlen || Nat.eqb h 1) && (Nat.eqb w clen || Nat.eqb w 1))
    with false; [done|].
  symmetry. apply andb_false_iff.
  destruct Hmix as [[H1 H2]|[H1 H2]].
  - right. apply orb_false_iff. split; apply Nat.eqb_neq; lia.
  - left. apply orb_false_iff. split; apply Nat.eqb_neq; lia.
Qed.

(** [plot_grid_display] returns a well-formed canvas whose cells are the
    matrix's cells or the padding mark. *)
Lemma plot_grid_display_canvas g cap d :
  plot_grid_display g cap = Ok d →
  length (data (display_grid d)) = display_height d ∧
  Forall (fun r => length r = display_width d) (data (display_grid d)) ∧
  ((∀ i j v, cell (data (display_grid d)) i j = Some v → v = -1 ∨ 0 ≤ v ≤ 9)
   ↔ drawable g).
Proof.
  intros Hd. destruct (plot_grid_display_matrix g cap d Hd) as (h & w & Hm).
  destruct (decide (cap ≤ Z.of_nat h ∧ cap ≤ Z.of_nat w)) as [[Hh Hw]|Hpad].
  - rewrite (plot_grid_display_native g h w cap Hm Hh Hw) in Hd.
    injection Hd as <-. cbn [display_grid display_height display_width data].
    destruct Hm as (_ & Hlen & Hrows). split_and!; [done|done|].
    split; [apply drawable_cells|]. intros Hdr i j v. by apply drawable_cell.
  - destruct (decide (Z.of_nat h ≤ cap ∧ Z.of_nat w ≤ cap)) as [[Hh Hw]|Hmix].
    + destruct (plot_grid_display_fits g h w cap Hm Hh Hw ltac:(lia))
        as (canvas & Hd' & Hlen & Hrows & Hin & Hout).
      rewrite Hd' in Hd. injection Hd as <-.
      cbn [display_grid display_height display_width data].
      split_and!; [done|done|]. split.
      * intros Hcells. apply drawable_cells. intros i j v Hc.
        destruct (cell_Some_bounds g h w i j v) as [Hi Hj];
          [apply Hm|apply Hm|done|].
        apply (Hcells (Z.to_nat ((cap - Z.of_nat h) / 2) + i)%nat
                      (Z.to_nat ((cap - Z.of_nat w) / 2) + j)%nat).
        by rewrite Hin.
      * intros Hdr i j v Hc.
        destruct (cell_Some_bounds _ _ _ _ _ _ Hlen Hrows Hc) as [Hi Hj].
        set (sh := Z.to_nat ((cap - Z.of_nat h) / 2)) in *.
        set (sw := Z.to_nat ((cap - Z.of_nat w) / 2)) in *.
        destruct (decide ((sh ≤ i < sh + h)%nat ∧ (sw ≤ j < sw + w)%nat))
          as [Hreg|Hreg].
        -- apply (drawable_cell g (i - sh) (j - sw)); [done|].
           rewrite <- Hc, <- Hin by lia. f_equal; lia.
        -- left. rewrite (Hout i j Hi Hj Hreg) in Hc. congruence.
    + rewrite (plot_grid_display_mixed g h w cap Hm) in Hd by lia. done.
Qed.

(** The drawing loop over a well-formed canvas: it returns exactly when
    every cell is drawable, and then draws the cells row by row. *)
Lemma draw_canvas_spec a dh dw :
  length (data a) = dh →
  Forall (fun r => length r = dw) (data a) →
  let loop := mapM (fun i => mapM (fun j => draw_cell a i j) (seq 0 dw))
                   (seq 0 dh) in
  ((∀ i j v, cell (data a) i j = Some v → v = -1 ∨ 0 ≤ v ≤ 9) →
   ∃ rects, loop = Ok rects ∧
     ∀ i j v, cell (data a) i j = Some v →
       concat rects !! (i * dw + j)%nat = Some (cell_rectangle i j v)) ∧
  ((∃ i j v, cell (data a) i j = Some v ∧ ¬ (v = -1 ∨ 0 ≤ v ≤ 9)) →
   ∃ key, loop = Raise (KeyError key)).
Proof.
  intros Hlen Hrows loop.
  assert (∀ i j, (i < dh)%nat → (j < dw)%nat → is_Some (cell (data a) i j))
    as Hcell.
  { intros i j Hi Hj. unfold cell.
    destruct (lookup_lt_is_Some_2 (data a) i) as [r Hr]; [lia|].
    rewrite Hr. simpl. apply lookup_lt_is_Some_2.
    rewrite Forall_forall in Hrows. rewrite (Hrows r); [lia|].
    by eapply list_elem_of_lookup_2. }
  split.
  - intros Hdr.
    destruct (mapM_result_Ok
                (fun i => mapM (fun j => draw_cell a i j) (seq 0 dw)) (seq 0 dh))
      as (rects & Hrects & Hall).
    { intros i Hi%elem_of_seq.
      destruct (mapM_result_Ok (fun j => draw_cell a i j) (seq 0 dw))
        as (row & Hrow & _); [|by eexists].
      intros j Hj%elem_of_seq. destruct (Hcell i j) as [v Hv]; [lia|lia|].
      pose proof (draw_cell_spec a i j) as Hs. rewrite Hv in Hs.
      rewrite decide_True in Hs by (by eapply Hdr). by eexists. }
    exists rects. split; [done|]. intros i j v Hv.
    destruct (cell_Some_bounds _ _ _ _ _ _ Hlen Hrows Hv) as [Hi Hj].
    assert (Forall (fun row : list Rectangle => length row = dw) rects) as Hw.
    { clear -Hall. induction Hall as [|i' row idxs rows Hrow _ IH];
        constructor; [|done].
      apply mapM_result_inv, Forall2_length in Hrow.
      by rewrite length_seq in Hrow. }
    rewrite (lookup_concat_uniform _ _ _ _ Hw Hj).
    destruct (Forall2_lookup_l _ _ _ i i Hall) as (row & Hrow & Hmap).
    { apply lookup_seq. lia. }
    rewrite Hrow. cbn. apply mapM_result_inv in Hmap.
    destruct (Forall2_lookup_l _ _ _ j j Hmap) as (rect & Hrect & Hdraw).
    { apply lookup_seq. lia. }
    rewrite Hrect. pose proof (draw_cell_spec a i j) as Hs. rewrite Hv in Hs.
    rewrite decide_True in Hs by (by eapply Hdr). congruence.
  - intros (i & j & v & Hv & Hnot).
    destruct (cell_Some_bounds _ _ _ _ _ _ Hlen Hrows Hv) as [Hi Hj].
    assert (∀ i', i' ∈ seq 0 dh →
              is_Ok (mapM (fun j => draw_cell a i' j) (seq 0 dw))
              ∨ ∃ e, mapM (fun j => draw_cell a i' j) (seq 0 dw) = Raise e
                     ∧ ∃ key, e = KeyError key) as Hrow.
    { intros i' Hi'%elem_of_seq.
      destruct (mapM (fun j => draw_cell a i' j) (seq 0 dw)) as [row|e] eqn:Hm;
        [left; by eexists|right].
      exists e. split; [done|].
      assert (¬ Forall (fun j => is_Ok (draw_cell a i' j)) (seq 0 dw)) as Hnok.
      { intros Hall. rewrite Forall_forall in Hall.
        destruct (mapM_result_Ok (fun j => draw_cell a i' j) (seq 0 dw) Hall)
          as (row & Hrow & _).
        rewrite Hm in Hrow. discriminate. }
      destruct (mapM_result_Raise (fun j => draw_cell a i' j)
                  (fun e => ∃ key, e = KeyError key) (seq 0 dw))
        as (e' & He' & Hk).
      - intros j' Hj'%elem_of_seq. destruct (Hcell i' j') as [v' Hv']; [lia|lia|].
        pose proof (draw_cell_spec a i' j') as Hs. rewrite Hv' in Hs.
        case_decide; [left; by eexists|right; by eexists _; eauto].
      - apply (not_Forall_Exists _) in Hnok.
        apply Exists_exists in Hnok as (j' & Hj' & Hno). by exists j'.
      - rewrite Hm in He'. injection He' as ->. exact Hk. }
    destruct (mapM_result_Raise
                (fun i => mapM (fun j => draw_cell a i j) (seq 0 dw))
                (fun e => ∃ key, e = KeyError key) (seq 0 dh) Hrow)
      as (e & He & key & ->).
    + exists i. split; [apply elem_of_seq; lia|]. intros [row Hrow'].
      apply mapM_result_inv in Hrow'.
      destruct (Forall2_lookup_l _ _ _ j j Hrow') as (rect & _ & Hdraw).
      { apply lookup_seq. lia. }
      pose proof (draw_cell_spec a i j) as Hs. rewrite Hv in Hs.
      rewrite decide_False in Hs by done. congruence.
    + by exists key.
Qed.

End plot_grid_more.

Section plot_grid_extras.
Import Visualizer.

Lemma not_drawable_cell (rows : list (list Z)) :
  ¬ drawable rows →
  ∃ i j v, cell rows i j = Some v ∧ ¬ (v = -1 ∨ 0 ≤ v ≤ 9).
Proof.
  intros Hnot. apply (not_Forall_Exists _) in Hnot.
  apply Exists_exists in Hnot as (r & Hr & Hnot).
  apply (not_Forall_Exists _) in Hnot.
  apply Exists_exists in Hnot as (v & Hv & Hbad).
  apply list_elem_of_lookup in Hr as [i Hi].
  apply list_elem_of_lookup in Hv as [j Hj].
  exists i, j, v. split; [|done]. unfold cell. by rewrite Hi.
Qed.

Lemma fits_or_native_display g h w cap :
  matrix g h w →
  (cap ≤ Z.of_nat h ∧ cap ≤ Z.of_nat w) ∨ (Z.of_nat h ≤ cap ∧ Z.of_nat w ≤ cap) →
  is_Ok (plot_grid_display g cap).
Proof.
  intros Hm [[Hh Hw]|[Hh Hw]].
  - rewrite (plot_grid_display_native g h w cap Hm Hh Hw). by eexists.
  - destruct (decide (cap ≤ Z.of_nat h ∧ cap ≤ Z.of_nat w)) as [[Hh' Hw']|Hpad].
    + rewrite (plot_grid_display_native g h w cap Hm Hh' Hw'). by eexists.
    + destruct (plot_grid_display_fits g h w cap Hm Hh Hw ltac:(lia))
        as (canvas & -> & _). by eexists.
Qed.

(** A rectangular matrix with one dimension strictly below the cap and the
    other strictly above it is never drawn: [plot_grid] raises the
    [ValueError] of the block assignment, whatever the cells are. *)
Theorem plot_grid_mixed_size_raises (ax : Axes) (title : string)
    (g : Grid) (h w : nat) (cap : Z) :
  matrix g h w →
  (Z.of_nat h < cap ∧ cap < Z.of_nat w) ∨ (Z.of_nat w < cap ∧ cap < Z.of_nat h) →
  plot_grid ax g title cap
  = Raise (ValueError "could not broadcast input array").
Proof.
  intros Hm Hmix. unfold plot_grid.
  by rewrite (plot_grid_display_mixed g h w cap Hm Hmix).
Qed.

Lemma plot_grid_mixed_size_raises_witness :
  plot_grid new_axes [[1; 2; 3]] "" 2
  = Raise (ValueError "could not broadcast input array").
Proof.
  apply (plot_grid_mixed_size_raises new_axes "" [[1; 2; 3]] 1 3 2).
  - split_and!; [lia|reflexivity|]. apply Forall_cons_2; [reflexivity|apply Forall_nil_2].
  - left. lia.
Defined.

(** [plot_grid] returns exactly on the grids that are non-empty rectangular
    matrices, lie on one side of the cap in both dimensions (both at least
    the cap, or both at most the cap), and hold only palette codes 0..9 or
    the padding mark -1.  On every other grid it raises. *)
Theorem plot_grid_returns_iff (ax : Axes) (title : string) (g : Grid)
    (cap : Z) :
  is_Ok (plot_grid ax g title cap) ↔
  ∃ h w, matrix g h w ∧
         ((cap ≤ Z.of_nat h ∧ cap ≤ Z.of_nat w)
          ∨ (Z.of_nat h ≤ cap ∧ Z.of_nat w ≤ cap)) ∧
         drawable g.
Proof.
  split.
  - intros [axes Hax]. unfold plot_grid in Hax.
    destruct (plot_grid_display g cap) as [d|e] eqn:Hd; [|done].
    cbn [mbind result_bind] in Hax.
    destruct (plot_grid_display_matrix g cap d Hd) as (h & w & Hm).
    destruct (plot_grid_display_canvas g cap d Hd) as (Hlen & Hrows & Hcells).
    exists h, w. split_and!; [done| |].
    + destruct (decide (cap ≤ Z.of_nat h ∧ cap ≤ Z.of_nat w)); [by left|].
      destruct (decide (Z.of_nat h ≤ cap ∧ Z.of_nat w ≤ cap)); [by right|].
      rewrite (plot_grid_display_mixed g h w cap Hm) in Hd by lia. done.
    + destruct (decide (drawable g)) as [|Hnot]; [done|].
      assert (¬ drawable (data (display_grid d))) as Hbad.
      { intros Hdr. apply Hnot, Hcells. intros i j v. by apply drawable_cell. }
      destruct (proj2 (draw_canvas_spec (display_grid d) (display_height d)
                         (display_width d) Hlen Hrows)
                  (not_drawable_cell _ Hbad)) as (key & Hkey).
      rewrite Hkey in Hax. done.
  - intros (h & w & Hm & Hside & Hdr).
    destruct (fits_or_native_display g h w cap Hm Hside) as [d Hd].
    destruct (plot_grid_display_canvas g cap d Hd) as (Hlen & Hrows & Hcells).
    destruct d as [a dh dw]. cbn [display_grid display_height display_width] in *.
    destruct (plot_grid_of_display ax g title cap a dh dw Hd Hlen Hrows
                (proj2 Hcells Hdr)) as (patches & Hp & _).
    by eexists.
Qed.

(** A matrix that lies on one side of the cap but holds a value that is
    neither a palette code nor -1 makes [plot_grid] raise a [KeyError]: the
    colour lookup fails. *)
Theorem plot_grid_unknown_colour_raises (ax : Axes) (title : string)
    (g : Grid) (h w : nat) (cap : Z) :
  matrix g h w →
  (cap ≤ Z.of_nat h ∧ cap ≤ Z.of_nat w) ∨ (Z.of_nat h ≤ cap ∧ Z.of_nat w ≤ cap) →
  ¬ drawable g →
  ∃ key, plot_grid ax g title cap = Raise (KeyError key).
Proof.
  intros Hm Hside Hnot.
  destruct (fits_or_native_display g h w cap Hm Hside) as [d Hd].
  destruct (plot_grid_display_canvas g cap d Hd) as (Hlen & Hrows & Hcells).
  assert (¬ drawable (data (display_grid d))) as Hbad.
  { intros Hdr. apply Hnot, Hcells. intros i j v. by apply drawable_cell. }
  destruct (proj2 (draw_canvas_spec (display_grid d) (display_height d)
                     (display_width d) Hlen Hrows)
              (not_drawable_cell _ Hbad)) as (key & Hkey).
  exists key. unfold plot_grid. rewrite Hd. cbn [mbind result_bind].
  by rewrite Hkey.
Qed.

Lemma plot_grid_unknown_colour_raises_witness :
  ∃ key, plot_grid new_axes [[1; 12]] "" 3 = Raise (KeyError key).
Proof.
  apply (plot_grid_unknown_colour_raises new_axes "" [[1; 12]] 1 2 3).
  - split_and!; [lia|reflexivity|]. apply Forall_cons_2; [reflexivity|apply Forall_nil_2].
  - right. lia.
  - intros Hdr. apply Forall_cons in Hdr as [Hrow _].
    apply Forall_cons in Hrow as [_ Hrow].
    apply Forall_cons in Hrow as [[?|?] _]; lia.
Defined.

(** What [plot_grid] draws: the axes span the canvas with the vertical axis
    inverted, and the rectangle of canvas cell (i, j) is the patch number
    [i * width + j]; it sits at x = j, y = i, is filled with the padding
    colour when the cell is -1 (also when that -1 comes from the matrix) and
    with the palette colour of the value otherwise. *)
Theorem plot_grid_patches (ax : Axes) (title : string)
    (g : Grid) (h w : nat) (cap : Z) :
  matrix g h w →
  (cap ≤ Z.of_nat h ∧ cap ≤ Z.of_nat w) ∨ (Z.of_nat h ≤ cap ∧ Z.of_nat w ≤ cap) →
  drawable g →
  ∃ d patches,
    plot_grid_display g cap = Ok d ∧
    plot_grid ax g title cap
    = Ok (mkAxes (0%nat, display_width d) (0%nat, display_height d) true
                 patches [] title) ∧
    length patches = (display_height d * display_width d)%nat ∧
    ∀ i j v, cell (data (display_grid d)) i j = Some v →
      ∃ rect, patches !! (i * display_width d + j)%nat = Some rect ∧
              rect_xy rect = (j, i) ∧
              (v = -1 → rect_facecolor rect = PADDING_COLOR) ∧
              (v ≠ -1 → COLOR_MAP !! v = Some (rect_facecolor rect)).
Proof.
  intros Hm Hside Hdr.
  destruct (fits_or_native_display g h w cap Hm Hside) as [d Hd].
  destruct (plot_grid_display_canvas g cap d Hd) as (Hlen & Hrows & Hcells).
  destruct (proj1 (draw_canvas_spec (display_grid d) (display_height d)
                     (display_width d) Hlen Hrows) (proj2 Hcells Hdr))
    as (rects & Hrects & Hat).
  destruct (draw_canvas_Ok (display_grid d) (display_height d) (display_width d)
              Hlen Hrows (proj2 Hcells Hdr)) as (rects' & Hrects' & Hn).
  assert (rects' = rects) as -> by congruence.
  exists d, (concat rects). split_and!; try done.
  - unfold plot_grid. rewrite Hd. cbn [mbind result_bind].
    by rewrite Hrects.
  - intros i j v Hv. exists (cell_rectangle i j v). split; [by apply Hat|].
    unfold cell_rectangle.
    destruct (decide (v = -1)) as [->|Hne]; cbn [rect_xy rect_facecolor].
    + by split_and!.
    + split_and!; [done|done|]. intros _.
      destruct (proj2 Hcells Hdr i j v Hv) as [?|Hpal]; [done|].
      destruct (COLOR_MAP_palette v Hpal) as [c ->]. done.
Qed.

Lemma plot_grid_patches_witness :
  ∃ d patches,
    plot_grid_display [[1; -1]; [3; 4]] 3 = Ok d ∧
    plot_grid new_axes [[1; -1]; [3; 4]] "t" 3
    = Ok (mkAxes (0%nat, display_width d) (0%nat, display_height d) true
                 patches [] "t") ∧
    length patches = (display_height d * display_width d)%nat.
Proof.
  destruct (plot_grid_patches new_axes "t" [[1; -1]; [3; 4]] 2 2 3)
    as (d & patches & Hd & Hp & Hn & _).
  - split_and!; [lia|reflexivity|].
    apply Forall_cons_2; [reflexivity|].
    apply Forall_cons_2; [reflexivity|apply Forall_nil_2].
  - right. lia.
  - apply (bool_decide_unpack _). vm_compute. exact I.
  - exists d, patches. split; [exact Hd|]. split; [exact Hp|exact Hn].
Defined.

End plot_grid_extras.

(** * Further properties of the composer *)

Section loop_inversion.
Context {A St : Type}.

Lemma for_enumerate_ext (body1 body2 : St → nat → A → result St)
    (xs : list A) (start : nat) (s : St) :
  (∀ k x s, xs !! k = Some x →
            body1 s (start + k)%nat x = body2 s (start + k)%nat x) →
  for_enumerate body1 start xs s = for_enumerate body2 start xs s.
Proof.
  revert start s. induction xs as [|x xs IH]; intros start s Hext; [done|].
  cbn. pose proof (Hext 0%nat x s eq_refl) as H0.
  rewrite Nat.add_0_r in H0. rewrite H0.
  destruct (body2 s start x) as [s1|e]; [|done]. cbn.
  apply IH. intros k y t Hy.
  replace (S start + k)%nat with (start + S k)%nat by lia.
  by apply (Hext (S k)).
Qed.

Lemma for_enumerate_Ok_inv (body : St → nat → A → result St)
    (xs : list A) (start : nat) (s s' : St) :
  for_enumerate body start xs s = Ok s' →
  ∀ k x, xs !! k = Some x → ∃ s1, is_Ok (body s1 (start + k)%nat x).
Proof.
  revert start s. induction xs as [|x xs IH]; intros start s Hrun k y Hy;
    [done|].
  cbn in Hrun. destruct (body s start x) as [s1|e] eqn:Hb; [|done].
  cbn in Hrun. destruct k as [|k].
  - injection Hy as <-. exists s. rewrite Nat.add_0_r, Hb. by eexists.
  - replace (start + S k)%nat with (S start + k)%nat by lia. by eapply IH.
Qed.

End loop_inversion.

Section visualize_challenge_more.
Import Visualizer.

Lemma bind_Ok_inv {A B} (m : result A) (k : A → result B) b :
  m ≫= k = Ok b → ∃ a, m = Ok a ∧ k a = Ok b.
Proof. destruct m as [a|e]; [|done]. intros Hk. by exists a. Qed.

Lemma plot_grid_renders ax g title :
  is_Ok (plot_grid ax g title max_size_default) → renders g.
Proof.
  intros [drawn Hd]. unfold renders, plot_grid in *.
  destruct (plot_grid_display g max_size_default) as [d|e]; [|done].
  cbn [mbind result_bind] in *.
  destruct (mapM _ _) as [rects|e]; [|done]. by eexists.
Qed.

Lemma plot_train_renders fig i e :
  is_Ok (plot_train fig i e) → renders (input e) ∧ renders (output e).
Proof.
  intros [fig' Hrun]. unfold plot_train in Hrun.
  apply bind_Ok_inv in Hrun as (ax1 & _ & Hrun).
  apply bind_Ok_inv in Hrun as (ax2 & Hin & Hrun).
  apply bind_Ok_inv in Hrun as (ax3 & _ & Hrun).
  apply bind_Ok_inv in Hrun as (ax4 & Hout & _).
  split; eapply plot_grid_renders; by eexists.
Qed.

Lemma plot_test_renders ncols solution_data fig i e :
  is_Ok (plot_test ncols solution_data fig i e) →
  renders (test_input e) ∧
  ∀ solution, matched_solution solution_data i = Some solution →
              renders solution.
Proof.
  intros [fig' Hrun]. unfold plot_test in Hrun.
  apply bind_Ok_inv in Hrun as (ax1 & _ & Hrun).
  apply bind_Ok_inv in Hrun as (ax2 & Hin & Hrun).
  split; [eapply plot_grid_renders; by eexists|].
  intros solution Hm.
  rewrite solution_test_spec, matched_solution_default, Hm in Hrun.
  rewrite bool_decide_eq_true_2 in Hrun by done.
  apply bind_Ok_inv in Hrun as (ax3 & _ & Hrun).
  apply bind_Ok_inv in Hrun as (ax4 & Hsol & _).
  eapply plot_grid_renders; by eexists.
Qed.

Lemma plot_test_matched ncols solution_data solution_data' fig i e :
  matched_solution solution_data i = matched_solution solution_data' i →
  plot_test ncols solution_data fig i e
  = plot_test ncols solution_data' fig i e.
Proof.
  intros Hm. unfold plot_test.
  by rewrite !solution_test_spec, !matched_solution_default, Hm.
Qed.

(** [visualize_challenge] returns exactly when every grid it plots renders:
    the training inputs and outputs, the test inputs and the solutions
    matched to a test example.  One grid that does not render makes the
    whole call raise, and nothing is saved or shown. *)
Theorem visualize_challenge_returns_iff (challenge_id : string)
    (challenge_data : Challenge) (solution_data : option (list Grid))
    (save_path : option string) :
  is_Ok (visualize_challenge challenge_id challenge_data solution_data save_path)
  ↔ challenge_renders challenge_data solution_data.
Proof.
  split.
  - intros [o Hrun]. unfold visualize_challenge in Hrun.
    apply bind_Ok_inv in Hrun as (fig0 & Htrain & Hrun).
    apply bind_Ok_inv in Hrun as (fig1 & Htest & _).
    split_and!.
    + apply Forall_forall. intros e He.
      apply list_elem_of_lookup in He as [k Hk].
      destruct (for_enumerate_Ok_inv _ _ _ _ _ Htrain k e Hk) as [s1 Hok].
      by eapply plot_train_renders.
    + apply Forall_forall. intros e He.
      apply list_elem_of_lookup in He as [k Hk].
      destruct (for_enumerate_Ok_inv _ _ _ _ _ Htest k e Hk) as [s1 Hok].
      by apply plot_test_renders in Hok as [Hok _].
    + intros i solution Hi Hsol.
      destruct (lookup_lt_is_Some_2 (test challenge_data) i Hi) as [e He].
      destruct (for_enumerate_Ok_inv _ _ _ _ _ Htest i e He) as [s1 Hok].
      apply plot_test_renders in Hok as [_ Hok]. apply Hok.
      by rewrite <- matched_solution_default.
  - intros Hrenders.
    destruct (visualize_challenge_figure challenge_id challenge_data
                solution_data save_path Hrenders) as (fig & Hrun & _).
    by eexists.
Qed.

(** The solution list matters only through the entries matched to a test
    example: two solution arguments that agree on every test index give the
    same result.  So an empty list acts like an absent one, and solutions
    beyond the last test example are ignored. *)
Theorem visualize_challenge_unmatched_solutions (challenge_id : string)
    (challenge_data : Challenge) (solution_data solution_data' : option (list Grid))
    (save_path : option string) :
  (∀ i, (i < length (test challenge_data))%nat →
        matched_solution solution_data i = matched_solution solution_data' i) →
  visualize_challenge challenge_id challenge_data solution_data save_path
  = visualize_challenge challenge_id challenge_data solution_data' save_path.
Proof.
  intros Hm. unfold visualize_challenge.
  destruct (for_enumerate plot_train 0 (train challenge_data) _) as [fig0|e];
    [|done].
  cbn [mbind result_bind].
  set (ncols := Nat.max (length (train challenge_data) * 2)
                        (length (test challenge_data) * 2)).
  rewrite (for_enumerate_ext
             (plot_test ncols solution_data) (plot_test ncols solution_data')
             (test challenge_data) 0 fig0); [done|].
  intros k e s Hk. apply plot_test_matched, Hm. by eapply lookup_lt_Some.
Qed.

Lemma visualize_challenge_unmatched_solutions_witness :
  visualize_challenge "007bbfb7" challenge_007bbfb7
    (Some [grid_3x3_d; grid_3x3_a; [[1]; [2; 3]]]) None
  = visualize_challenge "007bbfb7" challenge_007bbfb7 (Some [grid_3x3_d]) None.
Proof.
  apply visualize_challenge_unmatched_solutions.
  intros i Hi. cbn in Hi. destruct i as [|i]; [reflexivity|lia].
Defined.

End visualize_challenge_more.

(** * Further properties of the sampling front end *)

Section visualize_random_more.
Import Visualizer.

(** A negative sample count is passed on to [random.sample], which rejects
    it: the call raises [ValueError] in every outcome (and has one), before
    any challenge is visualized. *)
Theorem visualize_random_challenges_negative (now : string)
    (challenges : dict Challenge) (solutions : dict (list Grid))
    (n_samples : Z) (save_dir : option string) :
  n_samples < 0 →
  let failure : result (string * list Output) :=
    Raise (ValueError "Sample larger than population or is negative") in
  visualize_random_challenges now challenges solutions n_samples save_dir
    failure ∧
  ∀ out,
    visualize_random_challenges now challenges solutions n_samples save_dir out →
    out = failure.
Proof.
  intros Hn failure. split.
  - eexists. split; [apply sample_invalid; lia|done].
  - intros out (drawn & Hs & ->).
    inversion Hs as [Hbad|positions chosen Hk]; subst; [done|lia].
Qed.

Lemma visualize_random_challenges_negative_witness :
  visualize_random_challenges "20250101_120000" sample_challenges
    sample_solutions (-1) None
    (Raise (ValueError "Sample larger than population or is negative")).
Proof.
  apply (visualize_random_challenges_negative "20250101_120000"
           sample_challenges sample_solutions (-1) None).
  lia.
Defined.

(** A sample count that reaches the number of challenges selects all of
    them: in every outcome the identifiers visualized are a permutation of
    the mapping's keys, so every challenge gets its file exactly once. *)
Theorem visualize_random_challenges_all (now : string)
    (challenges : dict Challenge) (solutions : dict (list Grid))
    (n_samples : Z) (save_dir : option string) :
  NoDup (keys challenges) →
  Z.of_nat (length challenges) ≤ n_samples →
  (∀ id challenge_data, (id, challenge_data) ∈ challenges →
     challenge_renders challenge_data (dict_get solutions id)) →
  let dir := default (create_timestamped_directory now) save_dir in
  ∀ out,
    visualize_random_challenges now challenges solutions n_samples save_dir out →
    ∃ written,
      out = Ok (dir, written) ∧
      saved_paths written
      ≡ₚ (fun id => path_join dir (challenge_file id)) <$> keys challenges.
Proof.
  intros Hnd Hn Hrenders dir out (drawn & Hs & ->). fold dir.
  assert (length (keys challenges) = length challenges) as Hlen
    by (unfold keys; by rewrite length_fmap).
  rewrite Z.min_r in Hs by lia.
  inversion Hs as [Hbad|positions chosen Hk Hl Hp Hall]; subst.
  { rewrite Hlen in Hbad. lia. }
  destruct (random_sample_drawn _ _ _ Hnd Hs) as (Hk' & Hnd' & Hsub).
  destruct (visualize_each_saves challenges solutions dir chosen
              Hrenders Hsub) as (written & Hw & Hsaved).
  exists written. cbn [mbind result_bind]. fold dir. rewrite Hw.
  split; [done|].
  rewrite (saved_paths_of _ _ _ Hsaved). apply fmap_Permutation.
  apply submseteq_length_Permutation.
  - by apply NoDup_submseteq.
  - lia.
Qed.

Lemma visualize_random_challenges_all_witness :
  ∃ out written,
    visualize_random_challenges "20250101_120000" sample_challenges
      sample_solutions 100 (Some "out") out ∧
    out = Ok ("out", written) ∧
    saved_paths written
    ≡ₚ ["out/challenge_007bbfb7.png"; "out/challenge_00d62c1b.png"].
Proof.
  set (out :=
         challenge_ids ← Ok (take 2 (keys sample_challenges));
         written ← visualize_each sample_challenges sample_solutions "out"
                     challenge_ids;
         Ok ("out", written)).
  assert (visualize_random_challenges "20250101_120000" sample_challenges
            sample_solutions 100 (Some "out") out) as Hrun.
  { exists (Ok (take 2 (keys sample_challenges))). split; [|reflexivity].
    apply (random_sample_take (keys sample_challenges) 2). cbn. lia. }
  destruct (visualize_random_challenges_all "20250101_120000" sample_challenges
              sample_solutions 100 (Some "out")) with (out := out)
    as (written & Hout & Hperm).
  - unfold sample_challenges, keys. cbn [fmap list_fmap fst].
    apply NoDup_cons. split.
    + intros Hin%list_elem_of_singleton. discriminate.
    + apply NoDup_singleton.
  - cbn. lia.
  - exact sample_challenges_render.
  - exact Hrun.
  - exists out, written. split; [exact Hrun|]. split; [exact Hout|exact Hperm].
Defined.

(** [main] with [--challenge-id]: an identifier that is not in the mapping
    ends the run without an exception and without writing a file; a known
    identifier whose grids render writes exactly one file,
    [<save-dir>/challenge_<id>.png], in the given directory or else in the
    time-stamped one. *)
Theorem main_single_challenge (now : string) (args : Args)
    (challenges : dict Challenge) (solutions : dict (list Grid))
    (challenge_id : string) (out : result (list Output)) :
  arg_challenge_id args = Some challenge_id →
  challenge_id ≠ "" →
  main now args challenges solutions out →
  (challenge_id ∉ keys challenges → out = Ok []) ∧
  (∀ challenge_data,
     dict_get challenges challenge_id = Some challenge_data →
     challenge_renders challenge_data (dict_get solutions challenge_id) →
     let dir := default (create_timestamped_directory now)
                        (given (arg_save_dir args)) in
     ∃ fig, out = Ok [Saved (path_join dir (challenge_file challenge_id)) fig]).
Proof.
  intros Hid Hne Hmain. unfold main in Hmain. rewrite Hid in Hmain.
  assert (given (Some challenge_id) = Some challenge_id) as Hgiven.
  { destruct challenge_id; [done|done]. }
  rewrite Hgiven in Hmain. split.
  - intros Hnot. destruct (dict_get challenges challenge_id) as [cd|] eqn:Hget;
      [|done].
    destruct Hnot. clear -Hget. unfold keys.
    induction challenges as [|[k v] d IH]; [done|]. cbn in Hget |- *.
    case_decide; [subst; left|right; by apply IH].
  - intros challenge_data Hget Hrenders dir. rewrite Hget in Hmain.
    assert ((match given (arg_save_dir args) with
             | Some d => d
             | None => create_timestamped_directory now
             end) = dir) as Hdir by (unfold dir; by destruct (given _)).
    cbv zeta in Hmain. rewrite Hdir in Hmain.
    destruct (visualize_challenge_figure challenge_id challenge_data
                (dict_get solutions challenge_id)
                (Some (path_join dir (challenge_file challenge_id))) Hrenders)
      as (fig & Hrun & _).
    rewrite Hrun in Hmain. exists fig. exact Hmain.
Qed.

Lemma main_single_challenge_witness :
  ∃ out fig,
    main "20250101_120000" (mkArgs (Some "007bbfb7") 100 None)
         sample_challenges sample_solutions out ∧
    out = Ok [Saved "examples/20250101_120000/challenge_007bbfb7.png" fig].
Proof.
  set (out :=
         written ← visualize_challenge "007bbfb7" challenge_007bbfb7
                     (Some [grid_3x3_d])
                     (Some "examples/20250101_120000/challenge_007bbfb7.png");
         Ok [written]).
  assert (main "20250101_120000" (mkArgs (Some "007bbfb7") 100 None)
               sample_challenges sample_solutions out) as Hmain.
  { unfold main. cbn [arg_challenge_id arg_save_dir given].
    change (dict_get sample_challenges "007bbfb7")
      with (Some challenge_007bbfb7).
    cbv beta iota zeta. reflexivity. }
  destruct (main_single_challenge "20250101_120000"
              (mkArgs (Some "007bbfb7") 100 None)
              sample_challenges sample_solutions "007bbfb7" out
              eq_refl ltac:(discriminate) Hmain) as [_ Hknown].
  destruct (Hknown challenge_007bbfb7 eq_refl challenge_007bbfb7_renders)
    as [fig Hfig].
  exists out, fig. split; [exact Hmain|exact Hfig].
Defined.

End visualize_random_more.

(** * Further properties of the statistics aggregator *)

Section analyze_more.
Import Explorer.

(** The lists [analyze_data_statistics] accumulates, read off the dataset. *)
Definition train_counts_of (challenges : dict Challenge) : list nat :=
  (fun item => length (train item.2)) <$> challenges.
Definition test_counts_of (challenges : dict Challenge) : list nat :=
  (fun item => length (test item.2)) <$> challenges.
Definition input_shapes (challenges : dict Challenge) : list (list nat) :=
  challenges ≫= fun item => (fun e => grid_shape (input e)) <$> train item.2.
Definition output_shapes (challenges : dict Challenge) : list (list nat) :=
  challenges ≫= fun item => (fun e => grid_shape (output e)) <$> train item.2.

Lemma np_array_Ok_rectangular g a :
  np_array g = Ok a → rectangular g ∧ a = mkArray (grid_shape g) g.
Proof.
  destruct g as [|r g']; cbn [np_array grid_shape].
  - intros [= <-]. split; [by exists 0%nat|done].
  - destruct (forallb _ _) eqn:Hb; [|done]. intros [= <-]. split; [|done].
    exists (length r). apply Forall_forall. intros r' Hr'.
    rewrite forallb_forall in Hb. apply Nat.eqb_eq, Hb. by apply list_elem_of_In.
Qed.

Lemma matrix_grid_shape g h w : matrix g h w → grid_shape g = [h; w].
Proof.
  intros (Hh & Hlen & Hrows). destruct g as [|r g']; [simpl in Hlen; lia|].
  cbn [grid_shape]. apply Forall_cons in Hrows as [Hr _]. by rewrite Hlen, Hr.
Qed.

Lemma grid_shape_matrix g h w :
  rectangular g → grid_shape g = [h; w] → matrix g h w.
Proof.
  intros [w' Hrows] Hs. destruct g as [|r g']; [done|].
  cbn [grid_shape] in Hs. injection Hs as Hh Hw.
  assert (w' = w) as -> by (apply Forall_cons in Hrows as [Hr _]; lia).
  split_and!; [simpl in Hh; lia|done|done].
Qed.

(** The scanning loop, exactly. *)
Definition scanned_lists (acc0 : Acc) (counts : list (nat * nat))
    (examples : list Example) (acc : Acc) : Prop :=
  acc_train_counts acc = acc_train_counts acc0 ++ counts.*1 ∧
  acc_test_counts acc = acc_test_counts acc0 ++ counts.*2 ∧
  acc_input_sizes acc
  = acc_input_sizes acc0 ++ ((fun e => grid_shape (input e)) <$> examples) ∧
  acc_output_sizes acc
  = acc_output_sizes acc0 ++ ((fun e => grid_shape (output e)) <$> examples).

Lemma scan_challenge_lists acc item :
  (∀ e, e ∈ train item.2 → rectangular (input e) ∧ rectangular (output e)) →
  ∃ acc', scan_challenge acc item = Ok acc' ∧
          scanned_lists acc [(length (train item.2), length (test item.2))]
                        (train item.2) acc'.
Proof.
  intros Hrect. unfold scan_challenge.
  set (acc1 := mkAcc _ _ _ _ _).
  destruct (for_enumerate_invariant
              (fun acc (_ : nat) example => scan_example acc example)
              (fun j acc' => scanned_lists acc1 [] (take j (train item.2)) acc')
              (train item.2) 0 acc1) as (acc' & Hrun & Hinv).
  - unfold scanned_lists. cbn. by rewrite !app_nil_r.
  - intros j e acc2 He (H1 & H2 & H3 & H4).
    destruct (Hrect e (list_elem_of_lookup_2 _ _ _ He)) as [Hin Hout].
    unfold scan_example.
    rewrite (np_array_rectangular _ Hin), (np_array_rectangular _ Hout).
    cbn [mbind result_bind]. eexists. split; [reflexivity|].
    unfold scanned_lists.
    cbn [acc_train_counts acc_test_counts acc_input_sizes acc_output_sizes
         shape].
    rewrite (take_S_r _ _ _ He), !fmap_app, H3, H4, !app_assoc.
    by split_and!.
  - exists acc'. split; [done|]. rewrite firstn_all in Hinv.
    destruct Hinv as (H1 & H2 & H3 & H4). unfold scanned_lists.
    rewrite H1, H2, H3, H4. unfold acc1. cbn. rewrite !app_nil_r. done.
Qed.

Lemma scan_all_lists challenges :
  training_rectangular challenges →
  ∃ acc,
    for_enumerate (fun acc (_ : nat) item => scan_challenge acc item) 0
      challenges (mkAcc [] [] [] [] ∅) = Ok acc ∧
    acc_train_counts acc = train_counts_of challenges ∧
    acc_test_counts acc = test_counts_of challenges ∧
    acc_input_sizes acc = input_shapes challenges ∧
    acc_output_sizes acc = output_shapes challenges.
Proof.
  intros Hrect.
  destruct (for_enumerate_invariant
              (fun acc (_ : nat) item => scan_challenge acc item)
              (fun k acc =>
                 acc_train_counts acc = train_counts_of (take k challenges) ∧
                 acc_test_counts acc = test_counts_of (take k challenges) ∧
                 acc_input_sizes acc = input_shapes (take k challenges) ∧
                 acc_output_sizes acc = output_shapes (take k challenges))
              challenges 0 (mkAcc [] [] [] [] ∅)) as (acc & Hrun & Hinv).
  - done.
  - intros k item acc He (H1 & H2 & H3 & H4).
    destruct (scan_challenge_lists acc item) as (acc' & Hstep & G1 & G2 & G3 & G4).
    { intros e Hin. by apply (Hrect item e); [eapply list_elem_of_lookup_2|]. }
    exists acc'. split; [done|]. rewrite (take_S_r _ _ _ He).
    unfold train_counts_of, test_counts_of, input_shapes, output_shapes in *.
    rewrite !fmap_app, !bind_app, G1, G2, G3, G4, H1, H2, H3, H4.
    cbn. by rewrite !app_nil_r.
  - exists acc. split; [done|]. by rewrite firstn_all in Hinv.
Qed.

Lemma scan_all_Ok_rectangular challenges acc0 acc :
  for_enumerate (fun acc (_ : nat) item => scan_challenge acc item) 0
    challenges acc0 = Ok acc →
  training_rectangular challenges.
Proof.
  intros Hrun item e Hitem He.
  apply list_elem_of_lookup in Hitem as [k Hk].
  destruct (for_enumerate_Ok_inv _ _ _ _ _ Hrun k item Hk) as (acc1 & acc2 & Hc).
  unfold scan_challenge in Hc.
  apply list_elem_of_lookup in He as [j Hj].
  destruct (for_enumerate_Ok_inv _ _ _ _ _ Hc j e Hj) as (acc3 & acc4 & Hs).
  unfold scan_example in Hs.
  apply bind_Ok_inv in Hs as (a1 & Ha1 & Hs).
  apply bind_Ok_inv in Hs as (a2 & Ha2 & _).
  split; [by apply np_array_Ok_rectangular in Ha1 as [? _]
         |by apply np_array_Ok_rectangular in Ha2 as [? _]].
Qed.

Lemma areas_Ok_inv sizes l : areas sizes = Ok l → Forall is_2d sizes.
Proof.
  unfold areas. intros Hl%mapM_result_inv.
  induction Hl as [|s a ss l' Hs _ IH]; constructor; [|done].
  destruct s as [|h [|w [|]]]; try done. by exists h, w.
Qed.

Lemma is_Ok_py_min {A K} (ltb : K → K → bool) (key : A → K) xs :
  is_Ok (py_min ltb key xs) → xs ≠ [].
Proof. destruct xs; [by intros [? ?]|done]. Qed.

Lemma shapes_2d_matrices challenges :
  training_rectangular challenges →
  Forall is_2d (input_shapes challenges) →
  Forall is_2d (output_shapes challenges) →
  training_matrices challenges.
Proof.
  intros Hrect Hin Hout item e Hitem He.
  destruct (Hrect item e Hitem He) as [Ri Ro].
  rewrite Forall_forall in Hin, Hout.
  destruct (Hin (grid_shape (input e))) as (h1 & w1 & H1).
  { unfold input_shapes. apply list_elem_of_bind. exists item. split; [|done].
    apply list_elem_of_fmap. by exists e. }
  destruct (Hout (grid_shape (output e))) as (h2 & w2 & H2).
  { unfold output_shapes. apply list_elem_of_bind. exists item. split; [|done].
    apply list_elem_of_fmap. by exists e. }
  split; [exists h1, w1|exists h2, w2]; by apply grid_shape_matrix.
Qed.

Lemma length_input_shapes challenges :
  length (input_shapes challenges) = total_train challenges.
Proof.
  unfold input_shapes, total_train.
  induction challenges as [|item cs IH]; [done|].
  cbn. rewrite !length_app, length_fmap. by rewrite <- IH.
Qed.

Lemma training_matrices_rectangular challenges :
  training_matrices challenges → training_rectangular challenges.
Proof.
  intros Hm item e Hitem He.
  destruct (Hm item e Hitem He) as [(h1 & w1 & (_ & _ & H1)) (h2 & w2 & (_ & _ & H2))].
  split; [by exists w1|by exists w2].
Qed.

Lemma matrices_shapes_2d challenges :
  training_matrices challenges →
  Forall is_2d (input_shapes challenges) ∧
  Forall is_2d (output_shapes challenges).
Proof.
  intros Hm. split; apply Forall_forall; intros s Hs;
    apply list_elem_of_bind in Hs as (item & Hs & Hitem);
    apply list_elem_of_fmap in Hs as (e & -> & He);
    destruct (Hm item e Hitem He) as [(h1 & w1 & H1) (h2 & w2 & H2)].
  - exists h1, w1. by apply matrix_grid_shape.
  - exists h2, w2. by apply matrix_grid_shape.
Qed.

Lemma length_output_shapes challenges :
  length (output_shapes challenges) = total_train challenges.
Proof.
  unfold output_shapes, total_train.
  induction challenges as [|item cs IH]; [done|].
  cbn. rewrite !length_app, length_fmap. by rewrite <- IH.
Qed.

(** The run of [analyze_data_statistics] on a dataset it accepts. *)
Lemma analyze_runs challenges solutions :
  challenges ≠ [] → (0 < total_train challenges)%nat →
  training_matrices challenges →
  ∃ values,
    analyze_data_statistics challenges solutions
    = Ok (mkStats (train_counts_of challenges) (test_counts_of challenges)
                  (input_shapes challenges) (output_shapes challenges)
                  values).
Proof.
  intros Hne Htrain Hm.
  destruct (scan_all_lists challenges (training_matrices_rectangular _ Hm))
    as (acc & Hloop & T & Te & I & O).
  destruct (matrices_shapes_2d challenges Hm) as [Hi Ho].
  destruct (areas_Ok _ Hi) as (ia & Hia & Hlia).
  destruct (areas_Ok _ Ho) as (oa & Hoa & Hloa).
  rewrite length_input_shapes in Hlia. rewrite length_output_shapes in Hloa.
  assert (0 < length challenges)%nat as Hlen
    by (destruct challenges; [done|simpl; lia]).
  exists (sorted (acc_unique_values acc)).
  unfold analyze_data_statistics. rewrite Hloop. cbn [mbind result_bind].
  rewrite T, Te, I, O.
  rewrite (bind_discard (py_min _ _ (train_counts_of challenges)))
    by (apply py_min_Ok, nonempty_length; unfold train_counts_of;
        rewrite length_fmap; lia).
  rewrite (bind_discard (py_max _ _ (train_counts_of challenges)))
    by (apply py_max_Ok, nonempty_length; unfold train_counts_of;
        rewrite length_fmap; lia).
  rewrite (bind_discard (py_min _ _ (test_counts_of challenges)))
    by (apply py_min_Ok, nonempty_length; unfold test_counts_of;
        rewrite length_fmap; lia).
  rewrite (bind_discard (py_max _ _ (test_counts_of challenges)))
    by (apply py_max_Ok, nonempty_length; unfold test_counts_of;
        rewrite length_fmap; lia).
  rewrite Hia. cbn [mbind result_bind]. rewrite Hoa. cbn [mbind result_bind].
  rewrite (bind_discard (py_min _ _ (input_shapes challenges)))
    by (apply py_min_Ok, nonempty_length; rewrite length_input_shapes; lia).
  rewrite (bind_discard (py_max _ _ (input_shapes challenges)))
    by (apply py_max_Ok, nonempty_length; rewrite length_input_shapes; lia).
  rewrite (bind_discard (py_min _ _ (output_shapes challenges)))
    by (apply py_min_Ok, nonempty_length; rewrite length_output_shapes; lia).
  rewrite (bind_discard (py_max _ _ (output_shapes challenges)))
    by (apply py_max_Ok, nonempty_length; rewrite length_output_shapes; lia).
  rewrite (bind_discard (py_min _ _ ia))
    by (apply py_min_Ok, nonempty_length; lia).
  rewrite (bind_discard (py_max _ _ ia))
    by (apply py_max_Ok, nonempty_length; lia).
  rewrite (bind_discard (py_min _ _ oa))
    by (apply py_min_Ok, nonempty_length; lia).
  rewrite (bind_discard (py_max _ _ oa))
    by (apply py_max_Ok, nonempty_length; lia).
  reflexivity.
Qed.

(** [analyze_data_statistics] returns exactly on the datasets that have at
    least one challenge and one training example and whose training grids
    are all non-empty rectangular matrices; on every other dataset it
    raises.  Test examples and solutions play no part. *)
Theorem analyze_returns_iff (challenges : dict Challenge)
    (solutions : dict (list Grid)) :
  is_Ok (analyze_data_statistics challenges solutions) ↔
  challenges ≠ [] ∧ (0 < total_train challenges)%nat
  ∧ training_matrices challenges.
Proof.
  split.
  - intros [stats Hrun]. unfold analyze_data_statistics in Hrun.
    apply bind_Ok_inv in Hrun as (acc & Hloop & Hrun).
    pose proof (scan_all_Ok_rectangular _ _ _ Hloop) as Hrect.
    destruct (scan_all_lists challenges Hrect) as (acc' & Hloop' & T & _ & I & O).
    assert (acc' = acc) as -> by congruence.
    apply bind_Ok_inv in Hrun as (? & Hmin & Hrun).
    apply bind_Ok_inv in Hrun as (? & _ & Hrun).
    apply bind_Ok_inv in Hrun as (? & _ & Hrun).
    apply bind_Ok_inv in Hrun as (? & _ & Hrun).
    apply bind_Ok_inv in Hrun as (ia & Hia & Hrun).
    apply bind_Ok_inv in Hrun as (oa & Hoa & Hrun).
    apply bind_Ok_inv in Hrun as (? & Hmin_in & _).
    split_and!.
    + intros ->. rewrite T in Hmin. done.
    + rewrite <- length_input_shapes, <- I.
      assert (acc_input_sizes acc ≠ []) as Hne
        by (apply (is_Ok_py_min tuple_ltb id); by eexists).
      destruct (acc_input_sizes acc); [done|simpl; lia].
    + apply shapes_2d_matrices; [done| |].
      * rewrite <- I. by eapply areas_Ok_inv.
      * rewrite <- O. by eapply areas_Ok_inv.
  - intros (Hne & Htrain & Hm).
    destruct (analyze_runs challenges solutions Hne Htrain Hm) as (values & ->).
    by eexists.
Qed.

(** The lists [analyze_data_statistics] returns: one training count and one
    test count per challenge, in the mapping's order, and the shapes
    (height, width) of the training inputs and of the training outputs, in
    scanning order; so the two shape lists have one entry per training
    example. *)
Theorem analyze_returned_lists (challenges : dict Challenge)
    (solutions : dict (list Grid)) :
  challenges ≠ [] → (0 < total_train challenges)%nat →
  training_matrices challenges →
  ∃ stats,
    analyze_data_statistics challenges solutions = Ok stats ∧
    train_counts stats = (fun item => length (train item.2)) <$> challenges ∧
    test_counts stats = (fun item => length (test item.2)) <$> challenges ∧
    input_sizes stats
    = challenges ≫= (fun item =>
        (fun e => grid_shape (input e)) <$> train item.2) ∧
    output_sizes stats
    = challenges ≫= (fun item =>
        (fun e => grid_shape (output e)) <$> train item.2) ∧
    length (input_sizes stats) = total_train challenges ∧
    length (output_sizes stats) = total_train challenges.
Proof.
  intros Hne Htrain Hm.
  destruct (analyze_runs challenges solutions Hne Htrain Hm) as (values & ->).
  eexists. split; [reflexivity|].
  cbn [train_counts test_counts input_sizes output_sizes].
  split_and!; try done.
  - apply length_input_shapes.
  - apply length_output_shapes.
Qed.

Lemma sample_training_matrices : training_matrices sample_challenges.
Proof.
  intros item e Hitem He. unfold sample_challenges in Hitem.
  assert (e = mkExample grid_3x3_a grid_3x3_b) as ->.
  { apply elem_of_cons in Hitem as [->|Hitem].
    - by apply list_elem_of_singleton in He.
    - apply list_elem_of_singleton in Hitem as ->.
      by apply list_elem_of_singleton in He. }
  split; exists 3%nat, 3%nat;
    (split_and!; [lia|reflexivity|]);
    repeat (apply Forall_cons_2; [reflexivity|]); apply Forall_nil_2.
Qed.

Lemma analyze_returned_lists_witness :
  ∃ stats,
    analyze_data_statistics sample_challenges sample_solutions = Ok stats ∧
    train_counts stats = [1; 1]%nat ∧ test_counts stats = [1; 2]%nat ∧
    input_sizes stats = [[3; 3]; [3; 3]]%nat.
Proof.
  destruct (analyze_returned_lists sample_challenges sample_solutions)
    as (stats & Hrun & Ht & Hte & Hi & _).
  - discriminate.
  - vm_compute. lia.
  - exact sample_training_matrices.
  - exists stats. split; [exact Hrun|]. split; [exact Ht|].
    split; [exact Hte|exact Hi].
Defined.

(** A dataset with challenges but without a single training example makes
    the aggregator raise: the per-challenge counts pass, and [min] over the
    empty list of input shapes raises [ValueError]. *)
Theorem analyze_no_training_raises (challenges : dict Challenge)
    (solutions : dict (list Grid)) :
  challenges ≠ [] → total_train challenges = 0%nat →
  analyze_data_statistics challenges solutions
  = Raise (ValueError "min() arg is an empty sequence").
Proof.
  intros Hne Hnone.
  assert (training_rectangular challenges) as Hrect.
  { intros item e Hitem He. exfalso.
    assert (0 < total_train challenges)%nat; [|lia].
    rewrite <- length_input_shapes.
    assert (grid_shape (input e) ∈ input_shapes challenges) as Hin.
    { unfold input_shapes. apply list_elem_of_bind. exists item. split; [|done].
      apply list_elem_of_fmap. by exists e. }
    destruct (input_shapes challenges); [by apply elem_of_nil in Hin|simpl; lia]. }
  destruct (scan_all_lists challenges Hrect) as (acc & Hloop & T & Te & I & O).
  assert (input_shapes challenges = []) as Hi.
  { apply length_zero_iff_nil. by rewrite length_input_shapes. }
  assert (output_shapes challenges = []) as Ho.
  { apply length_zero_iff_nil. by rewrite length_output_shapes. }
  assert (0 < length challenges)%nat as Hlen
    by (destruct challenges; [done|simpl; lia]).
  unfold analyze_data_statistics. rewrite Hloop. cbn [mbind result_bind].
  rewrite T, Te, I, O, Hi, Ho.
  rewrite (bind_discard (py_min _ _ (train_counts_of challenges)))
    by (apply py_min_Ok, nonempty_length; unfold train_counts_of;
        rewrite length_fmap; lia).
  rewrite (bind_discard (py_max _ _ (train_counts_of challenges)))
    by (apply py_max_Ok, nonempty_length; unfold train_counts_of;
        rewrite length_fmap; lia).
  rewrite (bind_discard (py_min _ _ (test_counts_of challenges)))
    by (apply py_min_Ok, nonempty_length; unfold test_counts_of;
        rewrite length_fmap; lia).
  rewrite (bind_discard (py_max _ _ (test_counts_of challenges)))
    by (apply py_max_Ok, nonempty_length; unfold test_counts_of;
        rewrite length_fmap; lia).
  reflexivity.
Qed.

Lemma analyze_no_training_raises_witness :
  analyze_data_statistics [("a", mkChallenge [] [mkTest grid_3x3_a])] []
  = Raise (ValueError "min() arg is an empty sequence").
Proof.
  apply analyze_no_training_raises; [discriminate|reflexivity].
Defined.

End analyze_more.

(** * Further properties of the interest classifier *)

Section classify_more.
Import Explorer.

Lemma classify_all_Ok_rectangular challenges found0 found :
  for_enumerate (fun found (_ : nat) item => classify_challenge found item) 0
    challenges found0 = Ok found →
  training_rectangular challenges.
Proof.
  intros Hrun item e Hitem He.
  apply list_elem_of_lookup in Hitem as [k Hk].
  destruct (for_enumerate_Ok_inv _ _ _ _ _ Hrun k item Hk) as (f1 & f2 & Hc).
  unfold classify_challenge in Hc.
  apply list_elem_of_lookup in He as [j Hj].
  destruct (for_enumerate_Ok_inv _ _ _ _ _ Hc j e Hj) as (f3 & f4 & Hs).
  unfold classify_example in Hs.
  apply bind_Ok_inv in Hs as (a1 & Ha1 & Hs).
  apply bind_Ok_inv in Hs as (a2 & Ha2 & _).
  split; [by apply np_array_Ok_rectangular in Ha1 as [? _]
         |by apply np_array_Ok_rectangular in Ha2 as [? _]].
Qed.

Lemma find_interesting_NoDup challenges solutions r c :
  find_interesting_challenges challenges solutions = Ok r →
  NoDup (classified c r).
Proof.
  unfold find_interesting_challenges. intros Hrun.
  apply bind_Ok_inv in Hrun as (found & _ & Hr). injection Hr as <-.
  destruct c; apply NoDup_list_set.
Qed.

(** The classifier in general: when the training grids are rectangular it
    returns; a challenge identifier is listed in a category exactly when one
    of the training examples stored under it meets the category's
    condition, and it is listed once however many examples qualify.  A
    challenge without training examples is in no list. *)
Theorem find_interesting_classification (challenges : dict Challenge)
    (solutions : dict (list Grid)) :
  training_rectangular challenges →
  ∃ r,
    find_interesting_challenges challenges solutions = Ok r ∧
    ∀ c,
      NoDup (classified c r) ∧
      ∀ id, id ∈ classified c r ↔
            ∃ challenge_data e,
              (id, challenge_data) ∈ challenges ∧ e ∈ train challenge_data
              ∧ in_category c e.
Proof.
  intros Hrect.
  destruct (find_interesting_challenges_spec challenges solutions Hrect)
    as (r & Hrun & Hspec).
  exists r. split; [done|]. intros c. split.
  - by eapply find_interesting_NoDup.
  - intros id. rewrite Hspec. split.
    + intros ([id' cd] & e & Hitem & Hid & He & Hc). simpl in *. subst id'.
      by exists cd, e.
    + intros (cd & e & Hitem & He & Hc). by exists (id, cd), e.
Qed.

Lemma find_interesting_classification_witness :
  ∃ r,
    find_interesting_challenges
      [("c", mkChallenge [example_ones_twos; example_ones_twos] [])] [] = Ok r ∧
    NoDup (small_grids r) ∧ "c" ∈ small_grids r.
Proof.
  destruct (find_interesting_classification
              [("c", mkChallenge [example_ones_twos; example_ones_twos] [])] [])
    as (r & Hrun & Hspec).
  - intros item e Hitem He.
    apply list_elem_of_singleton in Hitem as ->. cbn [snd train] in He.
    assert (e = example_ones_twos) as ->.
    { apply elem_of_cons in He as [->|He]; [done|].
      by apply list_elem_of_singleton in He. }
    split; exists 2%nat;
      repeat (apply Forall_cons_2; [reflexivity|]); apply Forall_nil_2.
  - exists r. split; [exact Hrun|]. destruct (Hspec Small) as [Hnd Hmem].
    split; [exact Hnd|]. apply Hmem.
    exists (mkChallenge [example_ones_twos; example_ones_twos] []),
           example_ones_twos.
    split; [by left|]. split; [by left|].
    left. vm_compute. lia.
Defined.

(** The classifier returns exactly on the datasets whose training grids all
    have rows of one length; a single ragged training grid makes it raise
    (the grids of test examples are never looked at). *)
Theorem find_interesting_returns_iff (challenges : dict Challenge)
    (solutions : dict (list Grid)) :
  is_Ok (find_interesting_challenges challenges solutions)
  ↔ training_rectangular challenges.
Proof.
  split.
  - intros [r Hrun]. unfold find_interesting_challenges in Hrun.
    apply bind_Ok_inv in Hrun as (found & Hloop & _).
    by eapply classify_all_Ok_rectangular.
  - intros Hrect.
    destruct (find_interesting_challenges_spec challenges solutions Hrect)
      as (r & Hrun & _).
    by eexists.
Qed.

End classify_more.

(** * Further properties of the histogram tool *)

Section argmax_facts.
Import Histogram.

(** [np.argmax]: the position returned holds a greatest entry, and every
    entry before it is strictly smaller. *)
Lemma argmax_from_spec (pre : list nat) best_i best (xs : list nat) :
  pre !! best_i = Some best →
  (∀ j x, pre !! j = Some x → x ≤ best ∧ (j < best_i → x < best))%nat →
  let k := argmax_from best_i best (length pre) xs in
  ∃ m, (pre ++ xs) !! k = Some m ∧
       (∀ j x, (pre ++ xs) !! j = Some x → x ≤ m ∧ (j < k → x < m))%nat.
Proof.
  revert pre best_i best. induction xs as [|x xs IH]; intros pre best_i best Hb Hpre.
  - cbn. rewrite app_nil_r. by exists best.
  - cbn [argmax_from]. destruct (Nat.ltb_spec best x) as [Hlt|Hge].
    + specialize (IH (pre ++ [x]) (length pre) x).
      rewrite length_app, Nat.add_1_r, <- app_assoc in IH. apply IH.
      * by rewrite lookup_app_r, Nat.sub_diag by lia.
      * intros j y Hy. apply lookup_app_Some in Hy as [Hy|[Hj Hy]].
        -- destruct (Hpre j y Hy). pose proof (lookup_lt_Some _ _ _ Hy). lia.
        -- apply list_lookup_singleton_Some in Hy as [_ <-]. lia.
    + specialize (IH (pre ++ [x]) best_i best).
      rewrite length_app, Nat.add_1_r, <- app_assoc in IH. apply IH.
      * rewrite lookup_app_l; [done|]. by eapply lookup_lt_Some.
      * intros j y Hy. apply lookup_app_Some in Hy as [Hy|[Hj Hy]].
        -- by apply Hpre.
        -- apply list_lookup_singleton_Some in Hy as [_ <-].
           pose proof (lookup_lt_Some _ _ _ Hb). lia.
Qed.

Lemma np_argmax_spec (xs : list nat) :
  xs ≠ [] →
  ∃ m, xs !! np_argmax xs = Some m ∧
       (∀ j x, xs !! j = Some x → x ≤ m ∧ (j < np_argmax xs → x < m))%nat.
Proof.
  destruct xs as [|x xs]; [done|]. intros _. unfold np_argmax.
  apply (argmax_from_spec [x] 0 x xs); [done|].
  intros [|j] y Hy; [|done]. injection Hy as <-. lia.
Qed.

(** [np.argmin] over entries where [None] is infinity. *)
Definition inf_le (a b : option nat) : Prop :=
  match a, b with
  | _, None => True
  | None, Some _ => False
  | Some x, Some y => (x ≤ y)%nat
  end.

Lemma inf_ltb_spec a b : inf_ltb a b = true ↔ ¬ inf_le b a.
Proof.
  destruct a as [x|], b as [y|]; cbn [inf_ltb inf_le].
  - rewrite Nat.ltb_lt. lia.
  - split; [tauto|done].
  - split; [done|tauto].
  - split; [done|tauto].
Qed.

Lemma argmin_from_spec (pre : list (option nat)) best_i best xs :
  pre !! best_i = Some best →
  (∀ j x, pre !! j = Some x → inf_le best x ∧ ((j < best_i)%nat → ¬ inf_le x best)) →
  let k := argmin_from best_i best (length pre) xs in
  ∃ m, (pre ++ xs) !! k = Some m ∧
       ∀ j x, (pre ++ xs) !! j = Some x →
              inf_le m x ∧ ((j < k)%nat → ¬ inf_le x m).
Proof.
  revert pre best_i best. induction xs as [|x xs IH]; intros pre best_i best Hb Hpre.
  - cbn. rewrite app_nil_r. by exists best.
  - cbn [argmin_from]. destruct (inf_ltb x best) eqn:Hlt.
    + apply inf_ltb_spec in Hlt.
      specialize (IH (pre ++ [x]) (length pre) x).
      rewrite length_app, Nat.add_1_r, <- app_assoc in IH. apply IH.
      * by rewrite lookup_app_r, Nat.sub_diag by lia.
      * intros j y Hy. apply lookup_app_Some in Hy as [Hy|[Hj Hy]].
        -- destruct (Hpre j y Hy) as [Hle _].
           pose proof (lookup_lt_Some _ _ _ Hy).
           destruct x as [x|], best as [b|], y as [y|]; cbn in *;
             try tauto; split; try lia; intros; lia.
        -- apply list_lookup_singleton_Some in Hy as [? <-].
           split; [by destruct x; cbn|lia].
    + assert (inf_le best x) as Hle.
      { destruct x as [x|], best as [b|]; cbn [inf_ltb inf_le] in *;
          try done. apply Nat.ltb_ge in Hlt. lia. }
      specialize (IH (pre ++ [x]) best_i best).
      rewrite length_app, Nat.add_1_r, <- app_assoc in IH. apply IH.
      * rewrite lookup_app_l; [done|]. by eapply lookup_lt_Some.
      * intros j y Hy. apply lookup_app_Some in Hy as [Hy|[Hj Hy]].
        -- by apply Hpre.
        -- apply list_lookup_singleton_Some in Hy as [? <-].
           split; [done|]. pose proof (lookup_lt_Some _ _ _ Hb). lia.
Qed.

Lemma np_argmin_spec (xs : list (option nat)) :
  xs ≠ [] →
  ∃ m, xs !! np_argmin xs = Some m ∧
       ∀ j x, xs !! j = Some x →
              inf_le m x ∧ ((j < np_argmin xs)%nat → ¬ inf_le x m).
Proof.
  destruct xs as [|x xs]; [done|]. intros _. unfold np_argmin.
  apply (argmin_from_spec [x] 0 x xs); [done|].
  intros [|j] y Hy; [|done]. injection Hy as <-.
  split; [by destruct x; cbn|lia].
Qed.

End argmax_facts.

Section histogram_more.
Import Histogram.

Lemma integers_lookup j : (j < 10)%nat → integers !! j = Some (Z.of_nat j).
Proof.
  intros Hj. unfold integers. rewrite list_lookup_fmap, lookup_seq_lt by lia.
  done.
Qed.

Lemma bars_lookup xs j :
  (j < 10)%nat →
  ((fun i => occurrences i xs) <$> integers) !! j
  = Some (occurrences (Z.of_nat j) xs).
Proof. intros Hj. by rewrite list_lookup_fmap, integers_lookup. Qed.

Lemma sum_bars xs :
  sum ((fun i => occurrences i xs) <$> integers)
  = length (filter (fun v => 0 ≤ v ≤ 9) xs).
Proof.
  induction xs as [|x xs IH]; [done|].
  rewrite sum_occurrences_cons, IH, filter_cons.
  case_decide.
  - by rewrite occurrences_integers.
  - by rewrite occurrences_integers_outside.
Qed.

Lemma occurrences_pos i xs : (0 < occurrences i xs)%nat ↔ i ∈ xs.
Proof.
  unfold occurrences. split.
  - intros Hpos.
    destruct (filter (fun x => x = i) xs) as [|y l'] eqn:Hfl;
      [simpl in Hpos; lia|].
    assert (y ∈ filter (fun x => x = i) xs) as Hy by (rewrite Hfl; left).
    by apply list_elem_of_filter in Hy as [-> Hy].
  - intros Hin.
    assert (i ∈ filter (fun x => x = i) xs) as Hy
      by (by apply list_elem_of_filter).
    destruct (filter (fun x => x = i) xs);
      [by apply elem_of_nil in Hy|simpl; lia].
Qed.

Lemma foldr_max_greatest (l : list nat) m :
  m ∈ l → (∀ x, x ∈ l → x ≤ m)%nat → foldr Nat.max 0%nat l = m.
Proof.
  intros Hin Hle.
  assert (foldr Nat.max 0 l ≤ m)%nat as Hub.
  { clear Hin. induction l as [|x l IH]; cbn; [lia|].
    pose proof (Hle x ltac:(left)). 
    assert (foldr Nat.max 0 l ≤ m)%nat by (apply IH; intros; apply Hle; by right).
    lia. }
  assert (m ≤ foldr Nat.max 0 l)%nat as Hlb.
  { clear Hle Hub. induction l as [|x l IH]; [by apply elem_of_nil in Hin|].
    cbn. apply elem_of_cons in Hin as [->|Hin]; [lia|].
    specialize (IH Hin). lia. }
  lia.
Qed.

Lemma create_histogram_fields xs title :
  let bars := (fun i => occurrences i xs) <$> integers in
  (create_histogram xs title).1
  = mkHistogram title bars (sum bars)
      (length (filter (fun f => (0 < f)%nat) bars))
      (default 0 (integers !! np_argmax bars))
      (foldr Nat.max 0%nat bars)
      (default 0 (integers !! np_argmin
         ((fun f : nat => if (0 <? f)%nat then Some f else None) <$> bars))).
Proof.
  intros bars. unfold create_histogram. cbn [fst].
  assert (counter_get (Counter xs) <$> integers = bars) as ->; [|done].
  apply list_fmap_ext. intros _ i _. apply counter_get_Counter.
Qed.

(** The bars of the histogram: ten of them; bar [i] is the number of
    scanned cells equal to [i]; together they count the scanned cells that
    are palette values, cells outside 0..9 being left out of the figure; the
    "unique values" line counts the palette values that occur. *)
Theorem create_histogram_bars (all_integers : list Z) (title : string) :
  let figure := (create_histogram all_integers title).1 in
  length (frequencies figure) = 10%nat ∧
  (∀ i, 0 ≤ i ≤ 9 →
        frequencies figure !! Z.to_nat i = Some (occurrences i all_integers)) ∧
  sum (frequencies figure)
  = length (filter (fun v => 0 ≤ v ≤ 9) all_integers) ∧
  total_count figure
  = length (filter (fun v => 0 ≤ v ≤ 9) all_integers) ∧
  unique_count figure
  = length (filter (fun i => i ∈ all_integers) integers).
Proof.
  intros figure.
  destruct (create_histogram_frequencies all_integers title) as (Hf & Ht & _).
  fold figure in Hf, Ht. rewrite Ht, Hf, sum_bars.
  split; [by rewrite length_fmap|]. split_and!; try reflexivity.
  - intros i Hi. rewrite bars_lookup by lia. f_equal. f_equal. lia.
  - unfold figure, create_histogram. cbn [fst unique_count]. clear Hf Ht.
    induction integers as [|i l IH]; [done|].
    cbn [fmap list_fmap]. rewrite !filter_cons, counter_get_Counter.
    destruct (decide (0 < occurrences i all_integers)%nat) as [Hp|Hp];
      destruct (decide (i ∈ all_integers)) as [Hi|Hi].
    + cbn [length]. by rewrite IH.
    + by apply occurrences_pos in Hp.
    + by apply occurrences_pos in Hi.
    + done.
Qed.

(** The text box of the figure: its "most common" value is a palette index
    with the greatest bar, the lowest such index on a tie, shown with that
    bar's count; when some palette value occurs, its "least common" value
    is a palette index with the smallest non-zero bar, again the lowest on a
    tie. *)
Theorem create_histogram_text_box (all_integers : list Z) (title : string) :
  let figure := (create_histogram all_integers title).1 in
  let count i := occurrences i all_integers in
  (0 ≤ box_most_common figure ≤ 9 ∧
   box_most_count figure = count (box_most_common figure) ∧
   ∀ i, 0 ≤ i ≤ 9 →
        (count i ≤ count (box_most_common figure))%nat ∧
        (i < box_most_common figure →
         (count i < count (box_most_common figure))%nat)) ∧
  ((∃ i, 0 ≤ i ≤ 9 ∧ i ∈ all_integers) →
   0 ≤ box_least_common figure ≤ 9 ∧
   (0 < count (box_least_common figure))%nat ∧
   ∀ i, 0 ≤ i ≤ 9 → (0 < count i)%nat →
        (count (box_least_common figure) ≤ count i)%nat ∧
        (i < box_least_common figure →
         (count (box_least_common figure) < count i)%nat)).
Proof.
  intros figure count.
  set (bars := (fun i => occurrences i all_integers) <$> integers).
  assert (length bars = 10%nat) as Hlen by (unfold bars; by rewrite length_fmap).
  assert (bars ≠ []) as Hne by (intros E; rewrite E in Hlen; done).
  assert (∀ j, (j < 10)%nat → bars !! j = Some (count (Z.of_nat j))) as Hbar
    by (intros j Hj; by apply bars_lookup).
  assert (frequencies figure = bars) as Hfreq.
  { unfold figure. by destruct (create_histogram_frequencies all_integers title)
      as (-> & _). }
  split.
  - destruct (np_argmax_spec bars Hne) as (m & Hm & Hmax).
    set (k := np_argmax bars) in *.
    assert (k < 10)%nat as Hk by (rewrite <- Hlen; by eapply lookup_lt_Some).
    assert (box_most_common figure = Z.of_nat k) as ->.
    { unfold figure. rewrite create_histogram_fields. cbn [box_most_common].
      fold bars k. by rewrite integers_lookup. }
    rewrite Hbar in Hm by done. injection Hm as <-.
    split_and!; [lia|lia| |].
    + unfold figure. rewrite create_histogram_fields. cbn [box_most_count].
      fold bars. apply foldr_max_greatest.
      * apply list_elem_of_lookup. exists k. by apply Hbar.
      * intros x Hx. apply list_elem_of_lookup in Hx as [j Hj].
        by apply (Hmax j x).
    + intros i Hi.
      destruct (Hmax (Z.to_nat i) (count i)) as [H1 H2].
      { rewrite Hbar by lia. f_equal. f_equal. lia. }
      split; [done|]. intros Hlt. apply H2. lia.
  - intros (i0 & Hi0 & Hin0).
    set (floats := (fun f : nat => if (0 <? f)%nat then Some f else None) <$> bars).
    assert (floats ≠ []) as Hfne.
    { unfold floats. intros E. apply fmap_nil_inv in E. done. }
    assert (∀ j, (j < 10)%nat →
              floats !! j = Some (if (0 <? count (Z.of_nat j))%nat
                                  then Some (count (Z.of_nat j)) else None))
      as Hfl.
    { intros j Hj. unfold floats. by rewrite list_lookup_fmap, Hbar. }
    destruct (np_argmin_spec floats Hfne) as (m & Hm & Hmin).
    set (k := np_argmin floats) in *.
    assert (k < 10)%nat as Hk.
    { apply lookup_lt_Some in Hm. unfold floats in Hm.
      rewrite length_fmap in Hm. lia. }
    assert (box_least_common figure = Z.of_nat k) as ->.
    { unfold figure. rewrite create_histogram_fields. cbn [box_least_common].
      fold bars floats k. by rewrite integers_lookup. }
    assert ((0 < count i0)%nat) as Hpos0 by (by apply occurrences_pos).
    rewrite Hfl in Hm by done. injection Hm as <-.
    assert ((0 < count (Z.of_nat k))%nat) as Hposk.
    { destruct (Hmin (Z.to_nat i0)
                  (Some (count i0))) as [Hle _].
      { rewrite Hfl by lia. replace (Z.of_nat (Z.to_nat i0)) with i0 by lia.
        by rewrite (proj2 (Nat.ltb_lt _ _) Hpos0). }
      destruct (Nat.ltb_spec 0 (count (Z.of_nat k))); [done|].
      cbn in Hle. done. }
    rewrite (proj2 (Nat.ltb_lt _ _) Hposk) in Hmin.
    split_and!; [lia|lia|done|].
    intros i Hi Hposi.
    destruct (Hmin (Z.to_nat i) (Some (count i))) as [H1 H2].
    { rewrite Hfl by lia. replace (Z.of_nat (Z.to_nat i)) with i by lia.
      by rewrite (proj2 (Nat.ltb_lt _ _) Hposi). }
    cbn [inf_le] in H1, H2. split; [done|]. intros Hlt.
    assert (¬ (count i ≤ count (Z.of_nat k))%nat); [apply H2; lia|lia].
Qed.

End histogram_more.

Section print_statistics_more.
Import Histogram.

(** [max] and [min] with a numeric key: the element returned is the first
    one with an extreme key. *)
Lemma py_max_first {A} (key : A → nat) (l : list A) :
  l ≠ [] →
  ∃ i m, py_max Nat.ltb key l = Ok m ∧ l !! i = Some m ∧
         (∀ j y, l !! j = Some y →
                 key y ≤ key m ∧ (j < i → key y < key m))%nat.
Proof.
  destruct l as [|x l]; [done|]. intros _. unfold py_max.
  assert (∀ pre best,
    (∃ i, pre !! i = Some best ∧
          (∀ j y, pre !! j = Some y →
                  key y ≤ key best ∧ (j < i → key y < key best))%nat) →
    ∃ i, (pre ++ l) !! i
         = Some (foldl (fun m y => if Nat.ltb (key m) (key y) then y else m)
                       best l) ∧
         (∀ j y, (pre ++ l) !! j = Some y →
            key y ≤ key (foldl (fun m y => if Nat.ltb (key m) (key y)
                                           then y else m) best l)
            ∧ (j < i →
               key y < key (foldl (fun m y => if Nat.ltb (key m) (key y)
                                              then y else m) best l)))%nat)
    as Hgen.
  { induction l as [|z l IH]; intros pre best (i & Hi & Hpre).
    - cbn. rewrite app_nil_r. by exists i.
    - cbn [foldl]. replace (pre ++ z :: l) with ((pre ++ [z]) ++ l)
        by (by rewrite <- app_assoc).
      apply IH. destruct (Nat.ltb_spec (key best) (key z)) as [Hlt|Hge].
      + exists (length pre). split.
        * by rewrite lookup_app_r, Nat.sub_diag by lia.
        * intros j y Hy. apply lookup_app_Some in Hy as [Hy|[Hj Hy]].
          -- destruct (Hpre j y Hy). pose proof (lookup_lt_Some _ _ _ Hy). lia.
          -- apply list_lookup_singleton_Some in Hy as [? <-]. lia.
      + exists i. pose proof (lookup_lt_Some _ _ _ Hi). split.
        * by rewrite lookup_app_l.
        * intros j y Hy. apply lookup_app_Some in Hy as [Hy|[Hj Hy]].
          -- by apply Hpre.
          -- apply list_lookup_singleton_Some in Hy as [? <-]. lia. }
  destruct (Hgen [x] x) as (i & Hi & Hmax).
  { exists 0%nat. split; [done|]. intros [|j] y Hy; [|done].
    injection Hy as <-. lia. }
  exists i. eexists. split; [reflexivity|]. split; [exact Hi|exact Hmax].
Qed.

Lemma py_min_first {A} (key : A → nat) (l : list A) :
  l ≠ [] →
  ∃ i m, py_min Nat.ltb key l = Ok m ∧ l !! i = Some m ∧
         (∀ j y, l !! j = Some y →
                 key m ≤ key y ∧ (j < i → key m < key y))%nat.
Proof.
  destruct l as [|x l]; [done|]. intros _. unfold py_min.
  assert (∀ pre best,
    (∃ i, pre !! i = Some best ∧
          (∀ j y, pre !! j = Some y →
                  key best ≤ key y ∧ (j < i → key best < key y))%nat) →
    ∃ i, (pre ++ l) !! i
         = Some (foldl (fun m y => if Nat.ltb (key y) (key m) then y else m)
                       best l) ∧
         (∀ j y, (pre ++ l) !! j = Some y →
            key (foldl (fun m y => if Nat.ltb (key y) (key m)
                                   then y else m) best l) ≤ key y
            ∧ (j < i →
               key (foldl (fun m y => if Nat.ltb (key y) (key m)
                                      then y else m) best l) < key y))%nat)
    as Hgen.
  { induction l as [|z l IH]; intros pre best (i & Hi & Hpre).
    - cbn. rewrite app_nil_r. by exists i.
    - cbn [foldl]. replace (pre ++ z :: l) with ((pre ++ [z]) ++ l)
        by (by rewrite <- app_assoc).
      apply IH. destruct (Nat.ltb_spec (key z) (key best)) as [Hlt|Hge].
      + exists (length pre). split.
        * by rewrite lookup_app_r, Nat.sub_diag by lia.
        * intros j y Hy. apply lookup_app_Some in Hy as [Hy|[Hj Hy]].
          -- destruct (Hpre j y Hy). pose proof (lookup_lt_Some _ _ _ Hy). lia.
          -- apply list_lookup_singleton_Some in Hy as [? <-]. lia.
      + exists i. pose proof (lookup_lt_Some _ _ _ Hi). split.
        * by rewrite lookup_app_l.
        * intros j y Hy. apply lookup_app_Some in Hy as [Hy|[Hj Hy]].
          -- by apply Hpre.
          -- apply list_lookup_singleton_Some in Hy as [? <-]. lia. }
  destruct (Hgen [x] x) as (i & Hi & Hmin).
  { exists 0%nat. split; [done|]. intros [|j] y Hy; [|done].
    injection Hy as <-. lia. }
  exists i. eexists. split; [reflexivity|]. split; [exact Hi|exact Hmin].
Qed.

(** The keys of a [Counter]: adding a known key changes no position,
    adding a new key appends it. *)
Lemma counter_add_known c x :
  x ∈ c.*1 → (counter_add c x).*1 = c.*1.
Proof.
  induction c as [|[k n] c IH]; [by intros ?%elem_of_nil|].
  cbn [counter_add fmap list_fmap fst]. intros Hin. case_decide; [done|].
  cbn [fmap list_fmap fst]. f_equal. apply IH.
  apply elem_of_cons in Hin as [?|?]; [congruence|done].
Qed.

Lemma counter_add_new c x :
  x ∉ c.*1 → counter_add c x = c ++ [(x, 1%nat)].
Proof.
  induction c as [|[k n] c IH]; [done|].
  cbn [counter_add fmap list_fmap fst]. intros Hnot.
  apply not_elem_of_cons in Hnot as [Hne Hnot].
  case_decide; [congruence|]. by rewrite IH.
Qed.

Lemma Counter_snoc xs x : Counter (xs ++ [x]) = counter_add (Counter xs) x.
Proof. unfold Counter. by rewrite foldl_snoc. Qed.

(** [x] stands in [xs] before any occurrence of [y]. *)
Definition seen_before (xs : list Z) (x y : Z) : Prop :=
  ∃ n, xs !! n = Some x ∧ y ∉ take n xs.

Lemma Counter_keys xs :
  NoDup (Counter xs).*1 ∧
  (∀ k, k ∈ (Counter xs).*1 ↔ k ∈ xs) ∧
  (∀ i j k1 k2, (Counter xs).*1 !! i = Some k1 →
                (Counter xs).*1 !! j = Some k2 → (i < j)%nat →
                seen_before xs k1 k2).
Proof.
  induction xs as [|x xs (Hnd & Hmem & Hord)] using rev_ind.
  - split_and!; [constructor|done|done].
  - rewrite Counter_snoc.
    assert (∀ k1 k2, seen_before xs k1 k2 → seen_before (xs ++ [x]) k1 k2)
      as Hmono.
    { intros k1 k2 (n & Hn & Hnot). exists n.
      pose proof (lookup_lt_Some _ _ _ Hn).
      rewrite lookup_app_l, take_app_le by lia. done. }
    destruct (decide (x ∈ (Counter xs).*1)) as [Hin|Hnot].
    + rewrite (counter_add_known _ _ Hin). split_and!; [done| |].
      * intros k. rewrite Hmem, elem_of_app, list_elem_of_singleton.
        split; [by left|]. intros [?| ->]; [done|by apply Hmem].
      * intros i j k1 k2 H1 H2 Hlt. by eapply Hmono, Hord.
    + rewrite (counter_add_new _ _ Hnot), fmap_app. cbn [fmap list_fmap fst].
      split_and!.
      * apply NoDup_app. split_and!; [done| |apply NoDup_singleton].
        intros k Hk ->%list_elem_of_singleton. done.
      * intros k. rewrite !elem_of_app, Hmem. done.
      * intros i j k1 k2 H1 H2 Hlt.
        apply lookup_app_Some in H2 as [H2|[Hj H2]].
        -- pose proof (lookup_lt_Some _ _ _ H2).
           rewrite lookup_app_l in H1 by lia. by eapply Hmono, Hord.
        -- apply list_lookup_singleton_Some in H2 as [Hj' <-].
           rewrite lookup_app_l in H1 by lia.
           assert (k1 ∈ xs) as Hk1
             by (by eapply Hmem, list_elem_of_lookup_2).
           apply list_elem_of_lookup in Hk1 as [n Hn]. exists n.
           pose proof (lookup_lt_Some _ _ _ Hn).
           rewrite lookup_app_l, take_app_le by lia. split; [done|].
           intros Hx%elem_of_take. destruct Hx as (m & Hm & _).
           apply Hnot, Hmem. by eapply list_elem_of_lookup_2.
Qed.

Lemma Counter_entry xs i k n :
  Counter xs !! i = Some (k, n) → n = occurrences k xs ∧ k ∈ xs.
Proof.
  intros Hi. destruct (Counter_keys xs) as (Hnd & Hmem & _).
  assert (k ∈ (Counter xs).*1) as Hk.
  { apply list_elem_of_fmap. exists (k, n). split; [done|].
    by eapply list_elem_of_lookup_2. }
  split; [|by apply Hmem].
  rewrite <- counter_get_Counter. clear Hmem Hk.
  revert i Hi Hnd. generalize (Counter xs). intros c.
  induction c as [|[k' n'] c IH]; intros i Hi Hnd; [done|].
  cbn [counter_get]. destruct i as [|i].
  - injection Hi as -> ->. by rewrite decide_True.
  - cbn in Hi. cbn [fmap list_fmap fst] in Hnd.
    apply NoDup_cons in Hnd as [Hnot Hnd].
    rewrite decide_False; [by eapply IH|].
    intros ->. apply Hnot. apply list_elem_of_fmap. exists (k, n).
    split; [done|]. by eapply list_elem_of_lookup_2.
Qed.

Lemma Counter_has xs k :
  k ∈ xs → ∃ i, Counter xs !! i = Some (k, occurrences k xs).
Proof.
  intros Hk. destruct (Counter_keys xs) as (_ & Hmem & _).
  apply Hmem, list_elem_of_fmap in Hk as ([k' n] & -> & Hin).
  apply list_elem_of_lookup in Hin as [i Hi]. exists i.
  destruct (Counter_entry xs i k' n Hi) as [-> _]. done.
Qed.

(** What [print_statistics] prints for a non-empty scan: the total is the
    number of scanned cells, whatever their values, and "unique values" the
    number of distinct ones; the most common value has the greatest count
    and the least common value the smallest count among the values that
    occur; on a tie the value that was scanned first wins in both; the
    ratio divides the greatest count by the smallest, which is at least 1. *)
Theorem print_statistics_report (all_integers : list Z) :
  all_integers ≠ [] →
  let count v := occurrences v all_integers in
  ∃ statistics,
    print_statistics (Counter all_integers) = Ok statistics ∧
    total statistics = length all_integers ∧
    unique_found statistics = size (list_to_set all_integers : gset Z) ∧
    (∃ v, most_common statistics = (v, count v) ∧ v ∈ all_integers ∧
          ∀ u, (count u ≤ count v)%nat ∧
               (u ≠ v → count u = count v → seen_before all_integers v u)) ∧
    (∃ w, least_common statistics = (w, count w) ∧ w ∈ all_integers ∧
          ∀ u, u ∈ all_integers →
               (count w ≤ count u)%nat ∧
               (u ≠ w → count u = count w → seen_before all_integers w u)) ∧
    ratio statistics = ((most_common statistics).2, (least_common statistics).2) ∧
    (0 < (least_common statistics).2 ≤ (most_common statistics).2)%nat.
Proof.
  intros Hne count.
  destruct (Counter_positive all_integers) as [Hpos Hnonempty].
  specialize (Hnonempty Hne).
  destruct (Counter_keys all_integers) as (Hnd & Hmem & Hord).
  destruct (py_max_first snd (Counter all_integers) Hnonempty)
    as (i & [v c] & Hmax & Hi & Hgreatest).
  destruct (py_min_first snd (Counter all_integers) Hnonempty)
    as (i' & [w d] & Hmin & Hi' & Hleast).
  destruct (Counter_entry _ _ _ _ Hi) as [-> Hv].
  destruct (Counter_entry _ _ _ _ Hi') as [-> Hw].
  destruct (print_statistics_Ok all_integers Hne) as (st & Hst & Htotal).
  assert (st = mkStatistics (total st) (unique_found st) (table st)
                            (v, count v) (w, count w) (count v, count w)
          ∧ unique_found st = length (Counter all_integers)) as [Est Euniq].
  { unfold print_statistics in Hst.
    rewrite Hmax, (filter_positive_all _ Hpos), Hmin in Hst.
    cbn [mbind result_bind] in Hst. injection Hst as <-.
    cbn [total unique_found table]. split; [done|].
    assert (filter (fun v => (0 < v)%nat) (Counter all_integers).*2
            = (Counter all_integers).*2) as ->.
    { clear -Hpos. induction Hpos as [|kv c Hkv _ IH]; [done|].
      cbn [fmap list_fmap]. rewrite filter_cons, decide_True by done.
      by rewrite IH. }
    by rewrite length_fmap. }
  exists st. split; [done|]. split; [done|].
  rewrite Est. cbn [most_common least_common ratio unique_found snd].
  split; [|split; [|split; [|split]]].
  - rewrite Euniq.
    rewrite <- (length_fmap fst (Counter all_integers)).
    rewrite <- (size_list_to_set (C := gset Z) _ Hnd). f_equal.
    apply set_eq. intros k. rewrite !elem_of_list_to_set. apply Hmem.
  - exists v. split_and!; [done|done|]. intros u.
    destruct (decide (u ∈ all_integers)) as [Hu|Hu].
    + destruct (Counter_has _ _ Hu) as [j Hj].
      destruct (Hgreatest j _ Hj) as [Hle Hlt]. cbn [snd] in Hle, Hlt.
      split; [done|]. intros Hneq Heq.
      apply (Hord i j).
      * by rewrite list_lookup_fmap, Hi.
      * by rewrite list_lookup_fmap, Hj.
      * destruct (Nat.lt_trichotomy i j) as [?|[->|Hji]]; [done| |].
        -- rewrite Hi in Hj. by injection Hj.
        -- specialize (Hlt Hji). fold (count u) (count v) in *. lia.
    + assert (count u = 0)%nat as ->.
      { destruct (Nat.eq_0_gt_0_cases (count u)) as [|Hp]; [done|].
        by apply occurrences_pos in Hp. }
      split; [lia|]. intros _ H0. apply occurrences_pos in Hv.
      fold (count v) in Hv. lia.
  - exists w. split_and!; [done|done|]. intros u Hu.
    destruct (Counter_has _ _ Hu) as [j Hj].
    destruct (Hleast j _ Hj) as [Hle Hlt]. cbn [snd] in Hle, Hlt.
    split; [done|]. intros Hneq Heq.
    apply (Hord i' j).
    + by rewrite list_lookup_fmap, Hi'.
    + by rewrite list_lookup_fmap, Hj.
    + destruct (Nat.lt_trichotomy i' j) as [?|[->|Hji]]; [done| |].
      * rewrite Hi' in Hj. by injection Hj.
      * specialize (Hlt Hji). fold (count u) (count w) in *. lia.
  - done.
  - apply occurrences_pos in Hw. fold (count w) in Hw.
    destruct (Hgreatest i' _ Hi') as [Hle _]. cbn [snd] in Hle.
    fold (count w) (count v) in *. lia.
Qed.

Lemma print_statistics_report_witness :
  ∃ statistics,
    print_statistics (Counter [1; 1; 0; 0]) = Ok statistics ∧
    total statistics = 4%nat.
Proof.
  destruct (print_statistics_report [1; 1; 0; 0]) as (st & Hrun & Ht & _).
  - discriminate.
  - exists st. split; [exact Hrun|exact Ht].
Defined.

End print_statistics_more.

Section histogram_main_more.
Import Histogram.

(** [main] of the histogram tool never raises on loaded data: it collects
    the training integers unless [--test-only] is set and the evaluation
    integers unless [--training-only] is set, and reports exactly when it
    collected something.  With both flags set nothing is selected and the
    run stops on "No data selected!" without a figure. *)
Theorem histogram_main_returns (args : Args)
    (train_challenges : dict Challenge) (train_solutions : dict (list Grid))
    (test_challenges : dict Challenge) (test_solutions : dict (list Grid)) :
  ∃ r,
    main args train_challenges train_solutions test_challenges test_solutions
    = Ok r ∧
    all_integers r
    = (if test_only args then []
       else extract_all_integers train_challenges train_solutions)
      ++ (if training_only args then []
          else extract_all_integers test_challenges test_solutions) ∧
    (report r = None ↔ all_integers r = []) ∧
    (training_only args = true → test_only args = true →
     all_integers r = [] ∧ report r = None).
Proof.
  destruct (main_run args train_challenges train_solutions
              test_challenges test_solutions) as (r & Hr & Hxs & Hnone & Hsome).
  exists r. split; [done|]. split; [exact Hxs|].
  assert (report r = None ↔ all_integers r = []) as Hiff.
  { rewrite Hxs. split; [|done]. intros Hrep.
    destruct (decide (selected args train_challenges train_solutions
                        test_challenges test_solutions = [])) as [|Hne];
      [done|].
    destruct (Hsome Hne) as (title & st & Hrep' & _). congruence. }
  split; [done|]. intros H1 H2.
  assert (all_integers r = []) as Hempty
    by (rewrite Hxs; unfold selected; by rewrite H1, H2).
  split; [done|by apply Hiff].
Qed.

(** Only the solutions stored under the identifier of a challenge of the
    scanned mapping are read: two solution mappings that agree on those
    identifiers give the same integers, so entries for other identifiers
    are never scanned. *)
Theorem extract_all_integers_solutions (challenges : dict Challenge)
    (solutions solutions' : dict (list Grid)) :
  (∀ id, id ∈ keys challenges →
         dict_get solutions id = dict_get solutions' id) →
  extract_all_integers challenges solutions
  = extract_all_integers challenges solutions'.
Proof.
  unfold extract_all_integers, keys.
  induction challenges as [|[id challenge_data] cs IH]; intros Hagree; [done|].
  cbn [flat_map fst snd]. rewrite (Hagree id) by (cbn; left).
  f_equal. apply IH. intros id' Hin. apply Hagree. cbn. by right.
Qed.

Lemma extract_all_integers_solutions_witness :
  extract_all_integers sample_challenges
    (sample_solutions ++ [("ffffffff", [[[5; 5]]])])
  = extract_all_integers sample_challenges sample_solutions.
Proof.
  apply extract_all_integers_solutions.
  intros id Hin. unfold sample_challenges, keys in Hin.
  cbn [fmap list_fmap fst] in Hin.
  apply elem_of_cons in Hin as [->|Hin]; [reflexivity|].
  apply list_elem_of_singleton in Hin as ->. reflexivity.
Defined.

End histogram_main_more.
